(** * nitro-hotupdate-cli: integrity core

  A shallow embedding of the parts of the hot-update build tool that give
  its artifacts their trust properties: manifest canonicalization and
  signing ([DigitalSignature]), configuration validation ([ConfigLoader]),
  the per-platform build loop ([HotUpdateBuilder]), asset collection
  ([BundleBuilder]) and the package index ([PackageManager]).

  JavaScript strings are carried as [string], the bytes of their text in
  UTF-8; JavaScript objects as association lists in property order;
  numbers that hold integers as the integers they hold; and code that
  reads or changes the outside world, or can throw, lives in the monad
  [Eff.M] over an abstract world. *)

From Stdlib Require Import ZArith Ascii String Lia Permutation DecimalString.
From stdpp Require Import base tactics option list sorting.

Local Open Scope string_scope.
Local Open Scope Z_scope.

(** ** Small string toolkit *)

Module Str.

(** The double-quote character, U+0022. *)
Definition dquote : ascii := "034"%char.
Definition squote : ascii := "039"%char.
Definition backslash : ascii := "092"%char.

Definition chr (c : ascii) : string := String c EmptyString.

Fixpoint concat_sep (sep : string) (parts : list string) : string :=
  match parts with
  | [] => EmptyString
  | [p] => p
  | p :: rest => p ++ sep ++ concat_sep sep rest
  end.

Fixpoint to_list (s : string) : list ascii :=
  match s with
  | EmptyString => []
  | String c s' => c :: to_list s'
  end.

Fixpoint of_list (l : list ascii) : string :=
  match l with
  | [] => EmptyString
  | c :: l' => String c (of_list l')
  end.

(** [s.includes(c)] for a single character *)
Fixpoint has_char (c : ascii) (s : string) : bool :=
  match s with
  | EmptyString => false
  | String d rest => Ascii.eqb d c || has_char c rest
  end.

(** [Array.prototype.sort] without a comparator orders strings by their
    UTF-16 code units. On text in UTF-8, which is what a string holds here,
    that is the order of the bytes, with one exception: a character from
    U+E000 to U+FFFF, whose first byte is 238 or 239, comes after the
    characters beyond U+FFFF, whose first byte is 240 to 244 and which
    UTF-16 writes with the surrogates D800 to DFFF. [place] moves 238 and
    239 accordingly: they trade places with 254 and 255, two bytes that
    UTF-8 text does not contain. *)
Definition place (c : ascii) : ascii :=
  let n := N_of_ascii c in
  if ((n =? 238) || (n =? 239))%N then ascii_of_N (n + 16)
  else if ((n =? 254) || (n =? 255))%N then ascii_of_N (n - 16)
  else c.

Fixpoint places (s : string) : string :=
  match s with
  | EmptyString => EmptyString
  | String c rest => String (place c) (places rest)
  end.

Definition le (s t : string) : Prop := String.leb (places s) (places t) = true.

#[global] Instance le_dec s t : Decision (le s t).
Proof. unfold le. apply _. Defined.

(** [keys.sort()] *)
Definition sort (keys : list string) : list string := merge_sort le keys.

End Str.

(** ** JSON values and [JSON.stringify] with an array replacer *)

Module Json.

(** A parsed JSON document. A number carries the text that ECMAScript's
    [Number::toString] prints for it, which is what [JSON.stringify] emits;
    an object carries its own properties in enumeration order (the keys of a
    JavaScript object are pairwise distinct, see [wf]). *)
Unset Elimination Schemes.
Inductive json : Type :=
| JNull
| JBool (b : bool)
| JNum (text : string)
| JStr (s : string)
| JArr (items : list json)
| JObj (fields : list (string * json)).
Set Elimination Schemes.

Definition obj : Type := list (string * json).

(** [holder[key]] restricted to own properties. *)
Fixpoint get {A} (key : string) (fields : list (string * A)) : option A :=
  match fields with
  | [] => None
  | (k, v) :: rest => if String.eqb k key then Some v else get key rest
  end.

(** [delete holder.key] *)
Definition delete {A} (key : string) (fields : list (string * A))
  : list (string * A) :=
  List.filter (fun kv => negb (String.eqb (fst kv) key)) fields.

(** [holder.key = v]: an existing property keeps its place, a new one is
    appended. *)
Fixpoint set {A} (key : string) (v : A) (fields : list (string * A))
  : list (string * A) :=
  match fields with
  | [] => [(key, v)]
  | (k, w) :: rest =>
      if String.eqb k key then (k, v) :: rest else (k, w) :: set key v rest
  end.

(** [Object.keys(holder)], up to the order of integer-like keys, which the
    callers erase by sorting. *)
Definition keys {A} (fields : list (string * A)) : list string :=
  List.map fst fields.

Definition hex_digit (n : N) : ascii :=
  match n with
  | 0 => "0" | 1 => "1" | 2 => "2" | 3 => "3" | 4 => "4" | 5 => "5"
  | 6 => "6" | 7 => "7" | 8 => "8" | 9 => "9" | 10 => "a" | 11 => "b"
  | 12 => "c" | 13 => "d" | 14 => "e" | _ => "f"
  end%N%char.

(** One code unit of [QuoteJSONString]. *)
Definition quote_unit (c : ascii) : string :=
  let n := N_of_ascii c in
  let esc (x : ascii) := String Str.backslash (Str.chr x) in
  if (n =? 8)%N then esc "b"%char
  else if (n =? 9)%N then esc "t"%char
  else if (n =? 10)%N then esc "n"%char
  else if (n =? 12)%N then esc "f"%char
  else if (n =? 13)%N then esc "r"%char
  else if (n =? 34)%N then esc Str.dquote
  else if (n =? 92)%N then esc Str.backslash
  else if (n <? 32)%N then
    String Str.backslash
      ("u00" ++ String (hex_digit (n / 16)) (Str.chr (hex_digit (n mod 16))))
  else Str.chr c.

Fixpoint quote_body (s : string) : string :=
  match s with
  | EmptyString => EmptyString
  | String c s' => quote_unit c ++ quote_body s'
  end.

(** [QuoteJSONString] *)
Definition quote (s : string) : string :=
  String Str.dquote (quote_body s ++ Str.chr Str.dquote).

(** The property list that [JSON.stringify] builds from an array replacer:
    its elements in order, later repetitions dropped. *)
Fixpoint property_list (replacer : list string) : list string :=
  match replacer with
  | [] => []
  | k :: rest =>
      k :: List.filter (fun k' => negb (String.eqb k' k)) (property_list rest)
  end.

(** What [Get(holder, key)] serializes to when [holder] has no own property
    [key]: the lookup continues on [Object.prototype], whose methods are
    functions (skipped by the serializer) and whose [__proto__] accessor
    yields [Object.prototype] itself, an object that under any property list
    containing [__proto__] prints as an object whose only member is
    [__proto__] with value null. *)
Definition inherited (key : string) : option string :=
  if String.eqb key "__proto__"
  then Some ("{" ++ quote "__proto__" ++ ":null}")
  else None.

(** One member of [SerializeJSONObject]; [own] holds the own properties
    already serialized. *)
Definition member (own : list (string * string)) (key : string)
  : option string :=
  match get key own with
  | Some text => Some (quote key ++ ":" ++ text)
  | None =>
      match inherited key with
      | Some text => Some (quote key ++ ":" ++ text)
      | None => None
      end
  end.

(** [SerializeJSONProperty] with property list [K] and an empty gap.
    An object visits the names of [K] in order, never its own key order. *)
Fixpoint serialize (K : list string) (v : json) {struct v} : string :=
  match v with
  | JNull => "null"
  | JBool true => "true"
  | JBool false => "false"
  | JNum text => text
  | JStr s => quote s
  | JArr items =>
      "[" ++ Str.concat_sep "," (List.map (serialize K) items) ++ "]"
  | JObj fields =>
      let own := List.map (fun kv => (fst kv, serialize K (snd kv))) fields in
      "{" ++ Str.concat_sep "," (omap (member own) K) ++ "}"
  end.

(** [JSON.stringify(value, replacer)] for an array [replacer] of strings *)
Definition stringify (value : json) (replacer : list string) : string :=
  serialize (property_list replacer) value.

(** Every object, at every depth, has pairwise distinct keys. *)
Unset Elimination Schemes.
Inductive wf : json -> Prop :=
| wf_null : wf JNull
| wf_bool b : wf (JBool b)
| wf_num t : wf (JNum t)
| wf_str s : wf (JStr s)
| wf_arr items : Forall wf items -> wf (JArr items)
| wf_obj fields :
    NoDup (keys fields) -> Forall (fun kv => wf (snd kv)) fields ->
    wf (JObj fields).

(** The same field values at every nesting level, whatever the order in
    which the keys of each object were inserted. *)
Inductive same_fields : json -> json -> Prop :=
| sf_null : same_fields JNull JNull
| sf_bool b : same_fields (JBool b) (JBool b)
| sf_num t : same_fields (JNum t) (JNum t)
| sf_str s : same_fields (JStr s) (JStr s)
| sf_arr xs ys :
    Forall2 same_fields xs ys -> same_fields (JArr xs) (JArr ys)
| sf_obj f1 f1' f2 :
    Permutation f1 f1' ->
    Forall2 (fun a b => fst a = fst b /\ same_fields (snd a) (snd b)) f1' f2 ->
    same_fields (JObj f1) (JObj f2).
Set Elimination Schemes.

End Json.

(** ** The canonical signing input of a manifest *)

Module Canonical.
Import Json.

(** The three [delete] statements of [signManifest] and [verifyManifest]. *)
Definition strip_signature (manifest : obj) : obj :=
  delete "signatureTimestamp" (delete "publicKey" (delete "signature" manifest)).

(** [JSON.stringify(manifest, Object.keys(manifest).sort())] on the stripped
    manifest. *)
Definition canonicalize (manifest : obj) : string :=
  let stripped := strip_signature manifest in
  stringify (JObj stripped) (Str.sort (keys stripped)).

End Canonical.

(** ** Effects: a world that changes, and exceptions that carry it along *)

Module Eff.

(** What a [throw] carries, as far as the handlers of this code base look at
    it: an [Error] object with its [message], or any other value with the
    text [String(value)] gives for it. *)
Inductive thrown : Type :=
| ErrorObj (message : string)
| OtherValue (text : string).

Inductive exc (A : Type) : Type :=
| Ok (a : A)
| Throw (e : thrown).
Arguments Ok {A} a.
Arguments Throw {A} e.

(** An effectful computation: it runs in a world, leaves a world (also when
    it throws: writes made before a [throw] stay made) and either returns
    or throws. *)
Definition M (World A : Type) : Type := World -> exc A * World.

Definition ret {W A} (a : A) : M W A := fun w => (Ok a, w).

Definition throw {W A} (e : thrown) : M W A := fun w => (Throw e, w).

Definition bind {W A B} (m : M W A) (k : A -> M W B) : M W B :=
  fun w =>
    match m w with
    | (Ok a, w') => k a w'
    | (Throw e, w') => (Throw e, w')
    end.

(** [try { body } catch (error) { handler(error) }] *)
Definition try_catch {W A} (body : M W A) (handler : thrown -> M W A) : M W A :=
  fun w =>
    match body w with
    | (Ok a, w') => (Ok a, w')
    | (Throw e, w') => handler e w'
    end.

(** A pure step that may throw. *)
Definition lift {W A} (r : exc A) : M W A := fun w => (r, w).

(** [error instanceof Error ? error.message : String(error)] *)
Definition message_or_text (e : thrown) : string :=
  match e with
  | ErrorObj message => message
  | OtherValue text => text
  end.

(** [error instanceof Error ? error.message : "Unknown error"] *)
Definition message_or_unknown (e : thrown) : string :=
  match e with
  | ErrorObj message => message
  | OtherValue _ => "Unknown error"
  end.

(** [for (const x of items) { state = step(state, x) }] *)
Fixpoint for_each {W A S} (step : S -> A -> M W S) (items : list A) (state : S)
  : M W S :=
  match items with
  | [] => ret state
  | x :: rest => bind (step state x) (for_each step rest)
  end.

End Eff.

Declare Scope eff_scope.
Delimit Scope eff_scope with eff.
Notation "x <- m ;; k" := (Eff.bind m (fun x => k))
  (at level 100, m at next level, right associativity) : eff_scope.
Notation "m ;;; k" := (Eff.bind m (fun _ => k))
  (at level 100, right associativity) : eff_scope.

(** ** Base64, as [Buffer.toString] writes it and [Buffer.from] reads it *)

Module Base64.

(** Six bits, most significant first. *)
Inductive sextet : Type := Sx (b5 b4 b3 b2 b1 b0 : bool).

Definition bit (b : bool) (weight : N) : N := if b then weight else 0%N.

Definition index (s : sextet) : N :=
  let '(Sx b5 b4 b3 b2 b1 b0) := s in
  (bit b5 32 + bit b4 16 + bit b3 8 + bit b2 4 + bit b1 2 + bit b0 1)%N.

Definition of_index (n : N) : sextet :=
  Sx (N.testbit n 5) (N.testbit n 4) (N.testbit n 3)
     (N.testbit n 2) (N.testbit n 1) (N.testbit n 0).

(** The standard alphabet: A-Z, a-z, 0-9, plus and slash. *)
Definition digit (s : sextet) : ascii :=
  let n := index s in
  if (n <? 26)%N then ascii_of_N (65 + n)
  else if (n <? 52)%N then ascii_of_N (97 + (n - 26))
  else if (n <? 62)%N then ascii_of_N (48 + (n - 52))
  else if (n =? 62)%N then "+"%char
  else "/"%char.

(** The reader also accepts the URL-safe digits. *)
Definition value (c : ascii) : option sextet :=
  let n := N_of_ascii c in
  if ((65 <=? n) && (n <=? 90))%N then Some (of_index (n - 65))
  else if ((97 <=? n) && (n <=? 122))%N then Some (of_index (n - 97 + 26))
  else if ((48 <=? n) && (n <=? 57))%N then Some (of_index (n - 48 + 52))
  else if ((n =? 43) || (n =? 45))%N then Some (of_index 62)
  else if ((n =? 47) || (n =? 95))%N then Some (of_index 63)
  else None.

Definition pad : ascii := "="%char.

(** Three bytes make four digits; [Ascii] lists its bits least significant
    first. *)
Definition first_of (x : ascii) : sextet :=
  let '(Ascii _ _ x2 x3 x4 x5 x6 x7) := x in Sx x7 x6 x5 x4 x3 x2.
Definition second_of (x y : ascii) : sextet :=
  let '(Ascii x0 x1 _ _ _ _ _ _) := x in
  let '(Ascii _ _ _ _ y4 y5 y6 y7) := y in Sx x1 x0 y7 y6 y5 y4.
Definition third_of (y z : ascii) : sextet :=
  let '(Ascii y0 y1 y2 y3 _ _ _ _) := y in
  let '(Ascii _ _ _ _ _ _ z6 z7) := z in Sx y3 y2 y1 y0 z7 z6.
Definition fourth_of (z : ascii) : sextet :=
  let '(Ascii z0 z1 z2 z3 z4 z5 _ _) := z in Sx z5 z4 z3 z2 z1 z0.

Definition zero : ascii := Ascii false false false false false false false false.

(** [buffer.toString("base64")] *)
Fixpoint encode (bytes : list ascii) : string :=
  match bytes with
  | [] => EmptyString
  | [x] =>
      String (digit (first_of x)) (String (digit (second_of x zero))
        (String pad (String pad EmptyString)))
  | [x; y] =>
      String (digit (first_of x)) (String (digit (second_of x y))
        (String (digit (third_of y zero)) (String pad EmptyString)))
  | x :: y :: z :: rest =>
      String (digit (first_of x)) (String (digit (second_of x y))
        (String (digit (third_of y z)) (String (digit (fourth_of z))
          (encode rest))))
  end.

(** The digits of a text up to the first padding character; characters
    outside the alphabet are skipped. *)
Fixpoint digits (text : string) : list sextet :=
  match text with
  | EmptyString => []
  | String c rest =>
      if Ascii.eqb c pad then []
      else match value c with
           | Some s => s :: digits rest
           | None => digits rest
           end
  end.

Definition byte1 (a b : sextet) : ascii :=
  let '(Sx a5 a4 a3 a2 a1 a0) := a in
  let '(Sx b5 b4 _ _ _ _) := b in Ascii b4 b5 a0 a1 a2 a3 a4 a5.
Definition byte2 (b c : sextet) : ascii :=
  let '(Sx _ _ b3 b2 b1 b0) := b in
  let '(Sx c5 c4 c3 c2 _ _) := c in Ascii c2 c3 c4 c5 b0 b1 b2 b3.
Definition byte3 (c d : sextet) : ascii :=
  let '(Sx _ _ _ _ c1 c0) := c in
  let '(Sx d5 d4 d3 d2 d1 d0) := d in Ascii d0 d1 d2 d3 d4 d5 c0 c1.

Fixpoint bytes_of (ds : list sextet) : list ascii :=
  match ds with
  | a :: b :: c :: d :: rest =>
      byte1 a b :: byte2 b c :: byte3 c d :: bytes_of rest
  | [a; b; c] => [byte1 a b; byte2 b c]
  | [a; b] => [byte1 a b]
  | _ => []
  end.

(** [Buffer.from(text, "base64")]; it never throws. *)
Definition decode (text : string) : list ascii := bytes_of (digits text).

End Base64.

(** ** The runtime the tool runs on

    Node's clock, [crypto], [fs-extra], [path] and [JSON.parse] are taken as
    interfaces; every statement below holds for all their implementations
    unless it names a law it relies on. *)

Module Runtime.
Import Eff Json.

Record KeyPair : Type := { privateKey : string; publicKey : string }.

(** [Date.now()] and [new Date().toISOString()]; neither throws. *)
Class Clock (W : Type) : Type := {
  clock_now : W -> Z * W;
  clock_iso : W -> string * W
}.

Definition Date_now {W} {clock : Clock W} : M W Z :=
  fun w => let (t, w') := clock_now w in (Ok t, w').

Definition Date_toISOString {W} {clock : Clock W} : M W string :=
  fun w => let (t, w') := clock_iso w in (Ok t, w').

Class Crypto (W : Type) : Type := {
  (** [crypto.generateKeyPair("rsa", { modulusLength, spki/pkcs8 PEM })] *)
  generateKeyPair_rsa : Z -> M W KeyPair;
  (** [crypto.generateKeyPair("ec", { namedCurve, spki/pkcs8 PEM })] *)
  generateKeyPair_ec : string -> M W KeyPair;
  (** [crypto.createSign(hash).update(data).sign(privateKey)]; the hash
      name is undefined when the algorithm identifier has no second part *)
  createSign_sign : option string -> string -> string -> M W (list ascii);
  (** [crypto.createVerify(hash).update(data).verify(publicKey, signature)];
      the key is whatever value the caller holds *)
  createVerify_verify : option string -> string -> json -> list ascii -> M W bool;
  (** [crypto.createPublicKey(crypto.createPrivateKey(pem)).export(spki PEM)] *)
  export_public : string -> M W string
}.

(** [crypto.createHash("sha256")] with its [update] and [digest("hex")] *)
Class Sha256 : Type := {
  hash_state : Type;
  createHash : hash_state;
  hash_update : hash_state -> list ascii -> hash_state;
  digest_hex : hash_state -> string
}.

Record Stats : Type := { isFile : bool; size : Z; mtime : Z }.

Class FileSystem (W : Type) : Type := {
  readFile : string -> M W string;
  writeFile : string -> string -> M W unit;
  (** [fs.writeJSON(path, value, { spaces: 2 })] *)
  writeJSON : string -> json -> M W unit;
  readJSON : string -> M W json;
  ensureDir : string -> M W unit;
  pathExists : string -> M W bool;
  existsSync : string -> M W bool;
  readdir : string -> M W (list string);
  stat : string -> M W Stats;
  copy : string -> string -> M W unit;
  (** [fs.createReadStream(path)]: the chunks its [data] events deliver
      before [end], or the [error] event *)
  createReadStream : string -> M W (list (list ascii));
  (** [glob(pattern, { cwd, ignore })] *)
  glob : string -> string -> list string -> M W (list string)
}.

(** Child processes and the archiver. *)
Class Tools (W : Type) : Type := {
  (** [spawn(command, args, { cwd })]: the exit code of its [close] event,
      or its [error] event *)
  spawn : string -> list string -> string -> M W Z;
  (** [archiver("zip")] piping a directory into a file until [close] *)
  zip_directory : string -> string -> M W unit
}.

(** [JSON.parse], [semver.valid], [process.platform] and the functions of
    [path]. *)
Class Pure : Type := {
  JSON_parse : string -> exc json;
  semver_valid : string -> bool;
  isWindows : bool;
  path_join : string -> string -> string;
  path_resolve : string -> string;
  path_basename : string -> string;
  path_extname : string -> string;
  path_dirname : string -> string;
  (** [path.parse(p).name] *)
  path_parse_name : string -> string
}.

(** [console.warn]; it does not throw. *)
Class Console (W : Type) : Type := { warn : string -> W -> W }.

Definition console_warn {W} {out : Console W} (message : string) : M W unit :=
  fun w => (Ok tt, warn message w).

End Runtime.

(** ** DigitalSignature *)

Module Signature.
Import Eff Json Runtime.
Local Open Scope eff_scope.

Record SignatureConfig : Type := {
  algorithm : string;
  privateKeyPath : option string;
  publicKeyPath : option string;
  keySize : option Z
}.

Record SignatureResult : Type := {
  sr_signature : string;
  sr_algorithm : string;
  sr_publicKey : string;
  sr_timestamp : Z
}.

Record VerificationResult : Type := {
  isValid : bool;
  error : option string;
  vr_algorithm : option string;
  vr_timestamp : option json
}.

(** The constructor: [{ keySize: 2048, ...config }], the argument defaulting
    to RSA-SHA256 with 2048. A [keySize] the caller leaves out is [None]. *)
Definition DigitalSignature (config : option SignatureConfig) : SignatureConfig :=
  let given :=
    match config with
    | Some c => c
    | None => {| algorithm := "RSA-SHA256"; privateKeyPath := None;
                 publicKeyPath := None; keySize := Some 2048 |}
    end in
  {| algorithm := algorithm given;
     privateKeyPath := privateKeyPath given;
     publicKeyPath := publicKeyPath given;
     keySize := match keySize given with Some k => Some k | None => Some 2048 end |}.

(** [text.split(sep)] for a one-character separator *)
Fixpoint split_on (sep : ascii) (text : string) : list string :=
  match text with
  | EmptyString => [EmptyString]
  | String c rest =>
      if Ascii.eqb c sep then EmptyString :: split_on sep rest
      else match split_on sep rest with
           | head :: tail => String c head :: tail
           | [] => [String c EmptyString]
           end
  end.

(** [algorithm.split("-")[1]] *)
Definition hash_of (algorithm : string) : option string :=
  List.nth_error (split_on "-"%char algorithm) 1.

(** [!s] for a string that may be undefined *)
Definition absent (s : option string) : bool :=
  match s with
  | None | Some EmptyString => true
  | Some _ => false
  end.

(** The text of a number that is an integer, as [JSON.stringify] and string
    conversion print it: all its digits, for a number below 10^21 in
    magnitude. *)
Definition number_text (n : Z) : string :=
  DecimalString.NilZero.string_of_int (Z.to_int n).

(** [!value] *)
Definition falsy (v : option json) : bool :=
  match v with
  | None | Some JNull | Some (JBool false) | Some (JStr EmptyString) => true
  | Some (JNum text) => String.eqb text "0"
  | Some _ => false
  end.

Section WithRuntime.
Context {W : Type} {clock : Clock W} {crypto : Crypto W}
        {fs : FileSystem W} {pure : Pure}.

(** [generateRSAKeyPair(keySize = 2048)] *)
Definition generateRSAKeyPair (keySize : option Z) : M W KeyPair :=
  generateKeyPair_rsa (match keySize with Some k => k | None => 2048 end).

(** [generateECDSAKeyPair(namedCurve = "prime256v1")] *)
Definition generateECDSAKeyPair (namedCurve : option string) : M W KeyPair :=
  generateKeyPair_ec
    (match namedCurve with Some c => c | None => "prime256v1" end).

Definition signData (config : SignatureConfig) (data privateKey : string)
  : M W SignatureResult :=
  try_catch
    (let algorithm := algorithm config in
     let hashAlgorithm := hash_of algorithm in
     signature <-
       (if String.prefix "RSA" algorithm then
          signatureBuffer <- createSign_sign hashAlgorithm data privateKey ;;
          ret (Base64.encode signatureBuffer)
        else if String.prefix "ECDSA" algorithm then
          signatureBuffer <- createSign_sign hashAlgorithm data privateKey ;;
          ret (Base64.encode signatureBuffer)
        else throw (ErrorObj ("Unsupported algorithm: " ++ algorithm))) ;;
     publicKey <- export_public privateKey ;;
     now <- Date_now ;;
     ret {| sr_signature := algorithm ++ ":" ++ signature;
            sr_algorithm := algorithm;
            sr_publicKey := publicKey;
            sr_timestamp := now |})
    (fun error =>
       throw (ErrorObj ("Failed to sign data: " ++ message_or_text error))).

Definition invalid_format : VerificationResult :=
  {| isValid := false;
     error := Some "Invalid signature format. Expected 'ALGORITHM:SIGNATURE'";
     vr_algorithm := None; vr_timestamp := None |}.

Definition verification_failed (error : thrown) : VerificationResult :=
  {| isValid := false;
     error := Some ("Verification failed: " ++ message_or_text error);
     vr_algorithm := None; vr_timestamp := None |}.

(** The signature and the key are whatever the caller read from a manifest;
    [null] has no properties to read, and any other signature that is not a
    string has no [split] method. *)
Definition verifySignature (data : string) (signatureWithAlgorithm publicKey : json)
  : M W VerificationResult :=
  try_catch
    (match signatureWithAlgorithm with
     | JStr text =>
         let parts := List.firstn 2 (split_on ":"%char text) in
         let algorithm := List.nth_error parts 0 in
         let signature := List.nth_error parts 1 in
         if absent algorithm || absent signature then ret invalid_format
         else
           let algorithm := default EmptyString algorithm in
           let signature := default EmptyString signature in
           let hashAlgorithm := hash_of algorithm in
           let signatureBuffer := Base64.decode signature in
           isValid <- createVerify_verify hashAlgorithm data publicKey
                                          signatureBuffer ;;
           now <- Date_now ;;
           ret {| isValid := isValid; error := None;
                  vr_algorithm := Some algorithm;
                  vr_timestamp := Some (JNum (number_text now)) |}
     | JNull =>
         throw (ErrorObj "Cannot read properties of null (reading 'split')")
     | _ => throw (ErrorObj "signatureWithAlgorithm.split is not a function")
     end)
    (fun error => ret (verification_failed error)).

(** The three [delete]s at the head of [signManifest], on whatever
    [JSON.parse] returned: they remove the properties of an object, throw on
    [null], and leave an array, a number, a string or a boolean as it was. *)
Definition without_signature (document : json) : M W json :=
  match document with
  | JObj fields => ret (JObj (Canonical.strip_signature fields))
  | JNull => throw (ErrorObj "Cannot convert undefined or null to object")
  | other => ret other
  end.

(** [Object.keys] of an array: its indices, in decimal. *)
Definition indices (items : list json) : list string :=
  List.map (fun i => number_text (Z.of_nat i)) (List.seq 0 (List.length items)).

(** [JSON.stringify(manifest, Object.keys(manifest).sort())]. The keys of an
    array are its indices; a number, a string, a boolean or [null] prints the
    same under every property list. *)
Definition canonical_text (manifest : json) : string :=
  match manifest with
  | JObj fields => stringify manifest (Str.sort (keys fields))
  | JArr items => stringify manifest (Str.sort (indices items))
  | primitive => stringify primitive []
  end.

(** The named properties that [verifyManifest] can read off a document:
    those of an object; none for a number, a string, a boolean or an array;
    reading a property of [null] throws. *)
Definition named_properties (document : json) : M W obj :=
  match document with
  | JObj fields => ret fields
  | JNull =>
      throw (ErrorObj "Cannot read properties of null (reading 'signature')")
  | _ => ret []
  end.

(** The three assignments that follow [signData] in [signManifest]. *)
Definition embed (manifest : obj) (r : SignatureResult) : obj :=
  set "signatureTimestamp" (JNum (number_text (sr_timestamp r)))
    (set "publicKey" (JStr (sr_publicKey r))
       (set "signature" (JStr (sr_signature r)) manifest)).

(** The three assignments on whatever was parsed, as [writeJSON] sees the
    result. An object gets the three properties. An array gets them too, as
    named properties next to its elements, which [JSON.stringify] does not
    print: the array is written back as it was. A number, a string or a
    boolean cannot take a property, and the assignment throws (the body of a
    class is strict code). *)
Definition assign_signature (manifest : json) (r : SignatureResult) : M W json :=
  let refused (kind text : string) : M W json :=
    throw (ErrorObj ("Cannot create property 'signature' on " ++ kind ++ " '"
                       ++ text ++ "'")) in
  match manifest with
  | JObj fields => ret (JObj (embed fields r))
  | JArr items => ret (JArr items)
  | JNum text => refused "number" text
  | JStr s => refused "string" s
  | JBool true => refused "boolean" "true"
  | JBool false => refused "boolean" "false"
  | JNull => throw (ErrorObj "Cannot set properties of null (setting 'signature')")
  end.

(** Console output is left out. *)
Definition signManifest (config : SignatureConfig) (manifestPath privateKeyPath : string)
  : M W SignatureResult :=
  try_catch
    (manifestContent <- readFile manifestPath ;;
     document <- lift (JSON_parse manifestContent) ;;
     manifest <- without_signature document ;;
     let canonicalManifest := canonical_text manifest in
     privateKey <- readFile privateKeyPath ;;
     signatureResult <- signData config canonicalManifest privateKey ;;
     manifest <- assign_signature manifest signatureResult ;;
     writeJSON manifestPath manifest ;;;
     ret signatureResult)
    (fun error =>
       throw (ErrorObj ("Failed to sign manifest: " ++ message_or_text error))).

Definition no_signature : VerificationResult :=
  {| isValid := false; error := Some "No signature found in manifest";
     vr_algorithm := None; vr_timestamp := None |}.

Definition no_public_key : VerificationResult :=
  {| isValid := false; error := Some "No public key available for verification";
     vr_algorithm := None; vr_timestamp := None |}.

Definition with_timestamp (r : VerificationResult) (t : option json)
  : VerificationResult :=
  {| isValid := isValid r; error := error r;
     vr_algorithm := vr_algorithm r; vr_timestamp := t |}.

Definition verifyManifest (manifestPath : string) (publicKeyPath : option string)
  : M W VerificationResult :=
  try_catch
    (manifestContent <- readFile manifestPath ;;
     document <- lift (JSON_parse manifestContent) ;;
     manifest <- named_properties document ;;
     if falsy (get "signature" manifest) then ret no_signature
     else
       let verify_with (publicKey : json) : M W VerificationResult :=
         let signature := default JNull (get "signature" manifest) in
         let signatureTimestamp := get "signatureTimestamp" manifest in
         let manifest := Canonical.strip_signature manifest in
         let canonicalManifest :=
           stringify (JObj manifest) (Str.sort (keys manifest)) in
         result <- verifySignature canonicalManifest signature publicKey ;;
         ret (with_timestamp result signatureTimestamp) in
       if negb (absent publicKeyPath) then
         publicKey <- readFile (default EmptyString publicKeyPath) ;;
         verify_with (JStr publicKey)
       else if negb (falsy (get "publicKey" manifest)) then
         verify_with (default JNull (get "publicKey" manifest))
       else ret no_public_key)
    (fun error => ret (verification_failed error)).

(** The curve of an ECDSA key pair, from [config.keySize] alone. *)
Definition namedCurve_of (keySize : option Z) : string :=
  match keySize with
  | Some 256 => "prime256v1"
  | Some 384 => "secp384r1"
  | _ => "secp521r1"
  end.

Definition generateAndSaveKeyPair (config : SignatureConfig)
    (outputDir : string) (keyName : option string)
  : M W (string * string) :=
  let keyName := default "hotupdate" keyName in
  ensureDir outputDir ;;;
  keyPair <-
    (if String.eqb (algorithm config) "RSA-SHA256" then
       generateRSAKeyPair (keySize config)
     else if String.eqb (algorithm config) "ECDSA-SHA256" then
       generateECDSAKeyPair (Some (namedCurve_of (keySize config)))
     else throw (ErrorObj ("Unsupported algorithm: " ++ algorithm config))) ;;
  let privateKeyPath := path_join outputDir (keyName ++ "_private.pem") in
  let publicKeyPath := path_join outputDir (keyName ++ "_public.pem") in
  writeFile privateKeyPath (privateKey keyPair) ;;;
  writeFile publicKeyPath (publicKey keyPair) ;;;
  ret (privateKeyPath, publicKeyPath).

End WithRuntime.

End Signature.

(** ** A matcher for the regular expressions of the consistency check *)

Module Regex.

(** The pieces the two patterns are made of. [Open] and [Close] delimit
    capture group 1. *)
Inductive piece : Type :=
| Lit (text : string)
| OneOf (class : ascii -> bool)
| Many (class : ascii -> bool)
| ManyOf (alternatives : list string)
| AnyOf (alternatives : list string)
| Open
| Close.

Fixpoint strip_prefix (text : list ascii) (input : list ascii)
  : option (list ascii) :=
  match text, input with
  | [], _ => Some input
  | c :: text', d :: input' =>
      if Ascii.eqb c d then strip_prefix text' input' else None
  | _ :: _, [] => None
  end.

(** The inputs left after [class+] has taken one or more characters, the
    longest take first (the quantifier is greedy). *)
Fixpoint after_many (class : ascii -> bool) (input : list ascii)
  : list (list ascii) :=
  match input with
  | c :: rest => if class c then (after_many class rest ++ [rest])%list else []
  | [] => []
  end.

(** The input left after the first of the texts that it starts with. *)
Fixpoint strip_any (alternatives : list string) (input : list ascii)
  : option (list ascii) :=
  match alternatives with
  | [] => None
  | text :: others =>
      match strip_prefix (Str.to_list text) input with
      | Some rest => Some rest
      | None => strip_any others input
      end
  end.

(** The inputs left after one or more of the texts, each a character that
    takes several bytes perhaps, the longest take first. No text is empty,
    so there are no more takes than the input is long. *)
Fixpoint after_texts (takes : nat) (alternatives : list string)
    (input : list ascii) : list (list ascii) :=
  match takes with
  | O => []
  | S takes' =>
      match strip_any alternatives input with
      | Some rest => (after_texts takes' alternatives rest ++ [rest])%list
      | None => []
      end
  end.

Record captures : Type := { opened : list ascii; group1 : option string }.

(** All the ways a sequence of pieces matches at the start of the input, in
    the order a backtracking matcher tries them: each is the input left
    over and the captures made. *)
Fixpoint run (pattern : list piece) (input : list ascii) (caps : captures)
  : list (list ascii * captures) :=
  match pattern with
  | [] => [(input, caps)]
  | Lit text :: pattern' =>
      match strip_prefix (Str.to_list text) input with
      | Some rest => run pattern' rest caps
      | None => []
      end
  | OneOf class :: pattern' =>
      match input with
      | c :: rest => if class c then run pattern' rest caps else []
      | [] => []
      end
  | Many class :: pattern' =>
      List.flat_map (fun rest => run pattern' rest caps) (after_many class input)
  | ManyOf alternatives :: pattern' =>
      List.flat_map (fun rest => run pattern' rest caps)
                    (after_texts (List.length input) alternatives input)
  | AnyOf alternatives :: pattern' =>
      List.flat_map
        (fun text =>
           match strip_prefix (Str.to_list text) input with
           | Some rest => run pattern' rest caps
           | None => []
           end)
        alternatives
  | Open :: pattern' =>
      run pattern' input {| opened := input; group1 := group1 caps |}
  | Close :: pattern' =>
      let taken := (List.length (opened caps) - List.length input)%nat in
      run pattern' input
          {| opened := opened caps;
             group1 := Some (Str.of_list (List.firstn taken (opened caps))) |}
  end.

Definition no_captures : captures := {| opened := []; group1 := None |}.

(** The [while ((match = pattern.exec(content)) !== null)] loop of a global
    pattern, collecting [match[1]]: the search resumes where the last match
    ended. Every step consumes at least one character, so the length of the
    input bounds the number of steps. *)
Fixpoint exec_loop (steps : nat) (pattern : list piece) (input : list ascii)
  : list string :=
  match steps with
  | O => []
  | S steps' =>
      match run pattern input no_captures with
      | (rest, caps) :: _ =>
          match group1 caps with
          | Some text => text :: exec_loop steps' pattern rest
          | None => exec_loop steps' pattern rest
          end
      | [] =>
          match input with
          | [] => []
          | _ :: rest => exec_loop steps' pattern rest
          end
      end
  end.

Definition exec_all (pattern : list piece) (content : string) : list string :=
  let input := Str.to_list content in
  exec_loop (S (List.length input)) pattern input.

Definition is_quote (c : ascii) : bool :=
  Ascii.eqb c Str.squote || Ascii.eqb c Str.dquote.

Definition not_quote (c : ascii) : bool := negb (is_quote c).

Definition utf8 (bytes : list N) : string :=
  Str.of_list (List.map ascii_of_N bytes).

(** What [\s] matches, each character in UTF-8: tab, line feed, vertical
    tab, form feed, carriage return and space; the no-break space U+00A0;
    U+1680; U+2000 to U+200A; the line and paragraph separators U+2028 and
    U+2029; U+202F; U+205F; U+3000; and the byte order mark U+FEFF. *)
Definition white_space : list string :=
  List.map utf8
    [ [9]; [10]; [11]; [12]; [13]; [32];
      [194; 160];
      [225; 154; 128];
      [226; 128; 128]; [226; 128; 129]; [226; 128; 130]; [226; 128; 131];
      [226; 128; 132]; [226; 128; 133]; [226; 128; 134]; [226; 128; 135];
      [226; 128; 136]; [226; 128; 137]; [226; 128; 138];
      [226; 128; 168]; [226; 128; 169];
      [226; 128; 175];
      [226; 129; 159];
      [227; 128; 128];
      [239; 187; 191] ]%N.

Definition image_extensions : list string :=
  ["png"; "jpg"; "jpeg"; "gif"; "webp"; "svg"].

End Regex.

(** ** BundleBuilder (the revision that hashes with SHA-256) *)

Module Bundle.
Import Eff Json Runtime.
Local Open Scope eff_scope.

Record BundleConfig : Type := {
  entryFile : string;
  bundlePath : string;
  assetsDest : string;
  sourcemapOutput : option string;
  bc_platform : string;
  dev : bool;
  minify : bool;
  resetCache : bool
}.

(** A density scale is kept as the text of the number. The [sha256] field
    is optional in the interface; [None] is a record without it. *)
Record AssetFile : Type := {
  name : string;
  type : string;
  httpServerLocation : string;
  scales : list string;
  hash : string;
  sha256 : option string
}.

Definition bool_text (b : bool) : string := if b then "true" else "false".

(** [text.substring(1)] *)
Definition substring1 (text : string) : string :=
  match text with
  | EmptyString => EmptyString
  | String _ rest => rest
  end.

(** [text.replace(/\\/g, "/")] *)
Fixpoint slashes (text : string) : string :=
  match text with
  | EmptyString => EmptyString
  | String c rest =>
      String (if Ascii.eqb c Str.backslash then "/"%char else c) (slashes rest)
  end.

Section WithRuntime.
Context {W : Type} {clock : Clock W} {fs : FileSystem W} {tools : Tools W}
        {pure : Pure} {sha : Sha256}.

Variable projectRoot : string.

(** The file is streamed: every chunk updates the running hash, and the
    digest is taken at the end of the stream. *)
Definition calculateSHA256 (filePath : string) : M W string :=
  chunks <- createReadStream filePath ;;
  ret (digest_hex (List.fold_left hash_update chunks createHash)).

Definition calculateSHA256WithPrefix (filePath : string) : M W string :=
  hash <- calculateSHA256 filePath ;;
  ret ("sha256:" ++ hash).

Definition buildBundle (config : BundleConfig) : M W unit :=
  ensureDir (path_dirname (bundlePath config)) ;;;
  ensureDir (assetsDest config) ;;;
  let args :=
    ([ "bundle"; "--entry-file"; entryFile config;
       "--platform"; bc_platform config;
       "--bundle-output"; bundlePath config;
       "--assets-dest"; assetsDest config;
       "--dev"; bool_text (dev config);
       "--minify"; bool_text (minify config) ]
     ++ (if resetCache config then ["--reset-cache"] else [])
     ++ (match sourcemapOutput config with
         | Some (String c rest) => ["--sourcemap-output"; String c rest]
         | _ => []
         end))%list in
  let command := if isWindows then "npx.cmd" else "npx" in
  code <- spawn command ("react-native" :: args) projectRoot ;;
  if code =? 0 then ret tt
  else throw (ErrorObj ("Bundle build failed with code "
                        ++ Signature.number_text code)).

Definition copyAssets (sourcePatterns : list string) (destDir : string)
    (excludePatterns : list string) : M W (list AssetFile) :=
  for_each
    (fun copiedAssets pattern =>
       files <- glob pattern projectRoot excludePatterns ;;
       for_each
         (fun copiedAssets file =>
            let sourcePath := path_join projectRoot file in
            let destPath := path_join destDir file in
            ensureDir (path_dirname destPath) ;;;
            copy sourcePath destPath ;;;
            stats <- stat sourcePath ;;
            sha256Hash <-
              (if isFile stats then calculateSHA256 sourcePath
               else ret EmptyString) ;;
            let assetFile :=
              {| name := path_basename file;
                 type := substring1 (path_extname file);
                 httpServerLocation := slashes ("assets/" ++ file);
                 scales := ["1"];
                 hash := Signature.number_text (mtime stats);
                 sha256 := Some sha256Hash |} in
            ret (copiedAssets ++ [assetFile])%list)
         files copiedAssets)
    sourcePatterns [].

Definition validateBundle (bundlePath : string) : M W bool :=
  try_catch
    (exists_ <- pathExists bundlePath ;;
     if negb exists_ then ret false
     else
       stats <- stat bundlePath ;;
       if size stats =? 0 then ret false else ret true)
    (fun _ => ret false).

Record BundleInfo : Type := {
  bi_size : Z; bi_hash : string; bi_sha256 : string; bi_path : string
}.

Definition getBundleInfo (bundlePath : string) : M W BundleInfo :=
  stats <- stat bundlePath ;;
  sha256Hash <- calculateSHA256WithPrefix bundlePath ;;
  ret {| bi_size := size stats;
         bi_hash := Signature.number_text (mtime stats);
         bi_sha256 := sha256Hash;
         bi_path := bundlePath |}.

End WithRuntime.

End Bundle.

(** ** HotUpdateBuilder *)

Module Builder.
Import Eff Json Runtime Bundle.
Local Open Scope eff_scope.

Record BuildConfig : Type := {
  platforms : list string;
  version : string;
  projectPath : string;
  outputPath : string;
  bundleName : option string;
  sourcemap : option bool;
  cfg_minify : option bool
}.

Record BuildResult : Type := {
  success : bool;
  platform : string;
  br_bundlePath : string;
  assetsPath : option string;
  zipPath : string;
  br_size : Z;
  br_error : option string
}.

Record Verification : Type := { valid : bool; warnings : list string }.

(** [text.includes(part)] *)
Fixpoint includes (text part : string) : bool :=
  String.prefix part text ||
  match text with
  | EmptyString => false
  | String _ rest => includes rest part
  end.

(** [set.add(x)] on a [Set] kept in insertion order *)
Definition set_add (x : string) (set : list string) : list string :=
  if List.existsb (String.eqb x) set then set else (set ++ [x])%list.

Definition assetDirs : list string :=
  [ "drawable-mdpi"; "drawable-hdpi"; "drawable-xhdpi"; "drawable-xxhdpi";
    "drawable-xxxhdpi"; "raw" ].

Definition getDensityScale (dirName : string) : list string :=
  if String.eqb dirName "drawable-mdpi" then ["1"]
  else if String.eqb dirName "drawable-hdpi" then ["1.5"]
  else if String.eqb dirName "drawable-xhdpi" then ["2"]
  else if String.eqb dirName "drawable-xxhdpi" then ["3"]
  else if String.eqb dirName "drawable-xxxhdpi" then ["4"]
  else ["1"].

(** The first pattern of [verifyAssetConsistency], piece by piece: the text
    [require(], a quote of either kind, then group 1 (one or more characters
    that are not quotes, a dot, one of the image extensions), a quote of
    either kind, and last a closing square bracket: the source writes the
    class of quotes followed by one more closing bracket, where the call
    being looked for has a closing parenthesis. *)
Definition require_pattern : list Regex.piece :=
  [ Regex.Lit "require("; Regex.OneOf Regex.is_quote;
    Regex.Open; Regex.Many Regex.not_quote; Regex.Lit ".";
    Regex.AnyOf Regex.image_extensions; Regex.Close;
    Regex.OneOf Regex.is_quote; Regex.Lit "]" ].

(** The second pattern: [import], white space, characters that are not
    quotes, white space, [from], white space, then the same tail as the
    first pattern, closing square bracket included. *)
Definition import_pattern : list Regex.piece :=
  [ Regex.Lit "import"; Regex.ManyOf Regex.white_space;
    Regex.Many Regex.not_quote; Regex.ManyOf Regex.white_space;
    Regex.Lit "from"; Regex.ManyOf Regex.white_space;
    Regex.OneOf Regex.is_quote;
    Regex.Open; Regex.Many Regex.not_quote; Regex.Lit ".";
    Regex.AnyOf Regex.image_extensions; Regex.Close;
    Regex.OneOf Regex.is_quote; Regex.Lit "]" ].

Definition assetPatterns : list (list Regex.piece) :=
  [require_pattern; import_pattern].

(** The set [bundleAssets] after both [exec] loops. *)
Definition bundle_references (bundleContent : string) : list string :=
  List.fold_left
    (fun bundleAssets pattern =>
       List.fold_left (fun set found => set_add found set)
                      (Regex.exec_all pattern bundleContent) bundleAssets)
    assetPatterns [].

Section WithRuntime.
Context {W : Type} {clock : Clock W} {fs : FileSystem W} {tools : Tools W}
        {pure : Pure} {sha : Sha256}.

Variable config : BuildConfig.

Definition findEntryFile : M W string :=
  found <-
    for_each
      (fun (found : option string) entry =>
         match found with
         | Some _ => ret found
         | None =>
             present <- existsSync (path_join (projectPath config) entry) ;;
             ret (if present then Some entry else None)
         end)
      ["index.js"; "index.ts"; "index.jsx"; "index.tsx"] None ;;
  ret (default "index.js" found).

(** The body of the inner loop of [analyzeMetroAssets]: one entry of one
    density directory. *)
Definition collect_entry (dir dirPath : string) (assetFiles : list AssetFile)
    (file : string) : M W (list AssetFile) :=
  let filePath := path_join dirPath file in
  stats <- stat filePath ;;
  if isFile stats then
    let assetFile :=
      {| name := file;
         type := substring1 (path_extname file);
         httpServerLocation := dir ++ "/" ++ file;
         scales := getDensityScale dir;
         hash := Signature.number_text (mtime stats);
         sha256 := None |} in
    ret (assetFiles ++ [assetFile])%list
  else ret assetFiles.

(** The body of its outer loop: one density directory. *)
Definition collect_dir (assetsDir : string) (assetFiles : list AssetFile)
    (dir : string) : M W (list AssetFile) :=
  let dirPath := path_join assetsDir dir in
  present <- pathExists dirPath ;;
  if present then
    files <- readdir dirPath ;;
    for_each (collect_entry dir dirPath) files assetFiles
  else ret assetFiles.

Definition analyzeMetroAssets (assetsDir : string) : M W (list AssetFile) :=
  for_each (collect_dir assetsDir) assetDirs [].

Definition copyAdditionalAssets (assetsDir : string) : M W (list AssetFile) :=
  copyAssets (projectPath config)
    ["assets/**/*"] assetsDir
    [ "node_modules/**"; "ios/**"; "android/**"; ".git/**"; "dist/**";
      "build/**"; "src/**"; "**/.DS_Store"; "**/*.md"; "**/*.txt" ].

Definition warning_for (assetPath : string) : string :=
  "Asset referenced in bundle but not found in Metro output: " ++ assetPath.

Definition verifyAssetConsistency (bundlePath assetsDir : string)
  : M W Verification :=
  bundleContent <- readFile bundlePath ;;
  let bundleAssets := bundle_references bundleContent in
  metroAssets <- analyzeMetroAssets assetsDir ;;
  let metroAssetNames :=
    List.fold_left (fun set a => set_add (name a) set) metroAssets [] in
  let warnings :=
    List.fold_left
      (fun warnings assetPath =>
         let assetName := path_basename assetPath in
         let assetNameWithoutExt := path_parse_name assetName in
         let hasMetroAsset :=
           List.existsb (fun name => includes name assetNameWithoutExt)
                        metroAssetNames in
         if hasMetroAsset then warnings
         else (warnings ++ [warning_for assetPath])%list)
      bundleAssets [] in
  ret {| valid := Nat.eqb (List.length warnings) 0; warnings := warnings |}.

Definition manifest_of (platform bundlePath : string) (bundleInfo : BundleInfo)
    (assets : list AssetFile) (now : Z) (buildTime : string) : json :=
  JObj
    [ ("version", JStr (version config));
      ("platform", JStr platform);
      ("bundleUrl", JStr ("bundles/" ++ path_basename bundlePath));
      ("bundleSize", JNum (Signature.number_text (bi_size bundleInfo)));
      ("bundleHash", JStr (bi_hash bundleInfo));
      ("assets",
       JArr (List.map
               (fun asset =>
                  JObj [ ("name", JStr (name asset));
                         ("type", JStr (type asset));
                         ("url", JStr (httpServerLocation asset));
                         ("hash", JStr (hash asset));
                         ("size", JNum "0") ])
               assets));
      ("timestamp", JNum (Signature.number_text now));
      ("minAppVersion", JStr "1.0.0");
      ("metadata",
       JObj [ ("buildTime", JStr buildTime);
              ("builder", JStr "nitro-hotupdate-cli");
              ("sourcemap", JBool (default false (sourcemap config)));
              ("minified", JBool (default false (cfg_minify config))) ]) ].

Definition generateHotUpdateManifest (platform bundlePath : string)
    (assets : list AssetFile) (outputDir : string) : M W unit :=
  bundleInfo <- getBundleInfo bundlePath ;;
  now <- Date_now ;;
  buildTime <- Date_toISOString ;;
  let manifestPath := path_join outputDir "manifest.json" in
  writeJSON manifestPath
            (manifest_of platform bundlePath bundleInfo assets now buildTime).

Definition createZipFile (platform platformDir : string) : M W string :=
  let zipPath :=
    path_join (outputPath config)
              (platform ++ "-v" ++ version config ++ "-hotupdate.zip") in
  zip_directory platformDir zipPath ;;;
  ret zipPath.

(** The bundle name, when it is given and not empty. *)
Definition bundleName_or_index : string :=
  match bundleName config with
  | Some (String c rest) => String c rest
  | _ => "index"
  end.

(** Console output is left out. *)
Definition buildPlatform (platform : string) : M W BuildResult :=
  let platformDir := path_join (outputPath config) platform in
  let bundleDir := path_join platformDir "bundles" in
  let assetsDir := path_join platformDir "assets" in
  ensureDir bundleDir ;;;
  ensureDir assetsDir ;;;
  let bundleName := bundleName_or_index in
  let bundlePath :=
    path_join bundleDir (bundleName ++ "." ++ platform ++ ".bundle") in
  let sourcemapPath :=
    if default false (sourcemap config)
    then Some (path_join bundleDir (bundleName ++ "." ++ platform ++ ".map"))
    else None in
  entry <- findEntryFile ;;
  let bundleConfig :=
    {| entryFile := entry; bundlePath := bundlePath;
       assetsDest := assetsDir; sourcemapOutput := sourcemapPath;
       bc_platform := platform; dev := false;
       minify := default false (cfg_minify config) || true;
       resetCache := false |} in
  try_catch
    (buildBundle (projectPath config) bundleConfig ;;;
     isValid <- validateBundle bundlePath ;;
     if negb isValid then throw (ErrorObj "Bundle validation failed")
     else
       additionalAssets <- copyAdditionalAssets assetsDir ;;
       metroAssets <- analyzeMetroAssets assetsDir ;;
       let allAssets := (metroAssets ++ additionalAssets)%list in
       _verification <- verifyAssetConsistency bundlePath assetsDir ;;
       generateHotUpdateManifest platform bundlePath allAssets platformDir ;;;
       zipPath <- createZipFile platform platformDir ;;
       zipStats <- stat zipPath ;;
       ret {| success := true; platform := platform;
              br_bundlePath := bundlePath; assetsPath := Some assetsDir;
              zipPath := zipPath; br_size := size zipStats;
              br_error := None |})
    (fun error =>
       ret {| success := false; platform := platform;
              br_bundlePath := bundlePath; assetsPath := None;
              zipPath := EmptyString; br_size := 0;
              br_error := Some (message_or_unknown error) |}).

(** The result pushed by the [catch] of the loop in [buildAllPlatforms]. *)
Definition failed (platform : string) (error : thrown) : BuildResult :=
  {| success := false; platform := platform; br_bundlePath := EmptyString;
     assetsPath := None; zipPath := EmptyString; br_size := 0;
     br_error := Some (message_or_unknown error) |}.

(** The body of the loop of [buildAllPlatforms]. *)
Definition build_and_push (results : list BuildResult) (platform : string)
  : M W (list BuildResult) :=
  try_catch
    (result <- buildPlatform platform ;;
     ret (results ++ [result])%list)
    (fun error => ret (results ++ [failed platform error])%list).

Definition buildAllPlatforms : M W (list BuildResult) :=
  ensureDir (outputPath config) ;;;
  for_each build_and_push (platforms config) [].


End WithRuntime.

End Builder.

(** ** ConfigLoader *)

Module Config.
Import Eff Json Runtime.
Local Open Scope eff_scope.

Record ProjectSection : Type := {
  path : string;
  entryFile : option string
}.

Record BuildSection : Type := {
  platforms : list string;
  version : option string;
  outputPath : string;
  bundleName : option string;
  sourcemap : option bool;
  minify : option bool
}.

Record SignatureSection : Type := {
  enabled : bool;
  algorithm : option string;
  privateKeyPath : option string;
  publicKeyPath : option string;
  autoGenerate : option bool
}.

(** The configuration after [mergeWithDefaults]; the metadata block takes no
    part in validation. *)
Record HotUpdateConfig : Type := {
  project : ProjectSection;
  build : BuildSection;
  signature : option SignatureSection
}.

Record BuildSignature : Type := {
  bs_enabled : bool;
  bs_algorithm : string;
  bs_privateKeyPath : option string;
  bs_publicKeyPath : option string;
  bs_autoGenerate : bool
}.

(** The version is declared a string; what arrives from [package.json] is
    whatever that file holds under version, so it is carried as a document. *)
Record BuildConfig : Type := {
  bc_platforms : list string;
  bc_version : json;
  bc_projectPath : string;
  bc_outputPath : string;
  bc_bundleName : option string;
  bc_sourcemap : option bool;
  bc_minify : option bool;
  bc_signature : option BuildSignature
}.

(** A string option that is present and not empty: what [if (s)] tests. *)
Definition truthy (s : option string) : bool := negb (Signature.absent s).

Definition includes (items : list string) (x : string) : bool :=
  List.existsb (String.eqb x) items.

Definition validPlatforms : list string := ["ios"; "android"].
Definition validAlgorithms : list string := ["RSA-SHA256"; "ECDSA-SHA256"].

(** [document.key] on a parsed JSON document: reading a property of [null]
    throws, a value that is not an object has no such property. *)
Definition property {W} (document : json) (key : string) : M W (option json) :=
  match document with
  | JObj fields => ret (get key fields)
  | JNull => throw (ErrorObj ("Cannot read properties of null (reading '"
                              ++ key ++ "')"))
  | _ => ret None
  end.

(** The own properties that an object spread copies; no key of interest
    comes from spreading a string or an array. *)
Definition spread (v : option json) : obj :=
  match v with
  | Some (JObj fields) => fields
  | _ => []
  end.

(** [{ ...a, ...b }[key]] *)
Definition merged_get (a b : obj) (key : string) : option json :=
  match get key b with
  | Some v => Some v
  | None => get key a
  end.

Definition invalid_platform (platform : string) : string :=
  "Invalid platform: " ++ platform ++ ". Valid platforms: "
  ++ Str.concat_sep ", " validPlatforms.

Definition invalid_version (version : string) : string :=
  "Invalid version format: " ++ version
  ++ ". Use semantic versioning (e.g., 1.0.0)".

Definition invalid_algorithm (algorithm : string) : string :=
  "Invalid signature algorithm: " ++ algorithm ++ ". Valid algorithms: "
  ++ Str.concat_sep ", " validAlgorithms.

Definition missing_project (projectPath : string) : string :=
  "Project path does not exist: " ++ projectPath.

(** The warning sign U+26A0 U+FE0F that opens the message, in UTF-8. *)
Definition warning_sign : string :=
  String "226" (String "154" (String "160"
    (String "239" (String "184" (String "143" EmptyString))))).

Definition key_not_found (keyPath : string) : string :=
  warning_sign ++ "  Private key not found: " ++ keyPath
  ++ ". Will be auto-generated.".

Section WithRuntime.
Context {W : Type} {fs : FileSystem W} {out : Console W} {pure : Pure}.

(** The first two checks of [validateConfig]: the project path, and the
    React Native dependency in its [package.json]. *)
Definition check_project (config : HotUpdateConfig) : M W unit :=
  let projectPath := path_resolve (path (project config)) in
  present <- pathExists projectPath ;;
  if negb present then throw (ErrorObj (missing_project projectPath))
  else
    let packageJsonPath := path_join projectPath "package.json" in
    present <- pathExists packageJsonPath ;;
    if present then
      packageJson <- readJSON packageJsonPath ;;
      deps <- property packageJson "dependencies" ;;
      devDeps <- property packageJson "devDependencies" ;;
      let dependency := merged_get (spread deps) (spread devDeps) in
      if Signature.falsy (dependency "react-native") &&
         Signature.falsy (dependency "@react-native-community/cli")
      then throw (ErrorObj ("Not a React Native project: " ++ projectPath))
      else ret tt
    else throw (ErrorObj ("package.json not found in project: " ++ projectPath)).

Definition check_platforms (config : HotUpdateConfig) : M W unit :=
  for_each
    (fun _ platform =>
       if negb (includes validPlatforms platform)
       then throw (ErrorObj (invalid_platform platform))
       else ret tt)
    (platforms (build config)) tt.

Definition check_version (config : HotUpdateConfig) : M W unit :=
  match version (build config) with
  | Some (String c rest) =>
      if negb (semver_valid (String c rest))
      then throw (ErrorObj (invalid_version (String c rest)))
      else ret tt
  | _ => ret tt
  end.

Definition check_signature (config : HotUpdateConfig) : M W unit :=
  match signature config with
  | Some sig =>
      if enabled sig then
        (if truthy (algorithm sig) &&
            negb (includes validAlgorithms (default EmptyString (algorithm sig)))
         then throw (ErrorObj
                       (invalid_algorithm (default EmptyString (algorithm sig))))
         else ret tt) ;;;
        if negb (default false (autoGenerate sig)) && truthy (privateKeyPath sig)
        then
          let keyPath :=
            path_resolve (default EmptyString (privateKeyPath sig)) in
          present <- pathExists keyPath ;;
          if negb present then console_warn (key_not_found keyPath)
          else ret tt
        else ret tt
      else ret tt
  | None => ret tt
  end.

(** [validateConfig], check after check in the order of the source. *)
Definition validateConfig (config : HotUpdateConfig) : M W unit :=
  check_project config ;;;
  check_platforms config ;;;
  check_version config ;;;
  check_signature config.

Definition toBuildConfig (config : HotUpdateConfig) : M W BuildConfig :=
  version <-
    (if truthy (version (build config))
     then ret (JStr (default EmptyString (version (build config))))
     else
       let packageJsonPath := path_join (path (project config)) "package.json" in
       present <- pathExists packageJsonPath ;;
       if present then
         packageJson <- readJSON packageJsonPath ;;
         found <- property packageJson "version" ;;
         ret (if Signature.falsy found then JStr "1.0.0"
              else default JNull found)
       else ret (JStr "1.0.0")) ;;
  ret {| bc_platforms := platforms (build config);
         bc_version := version;
         bc_projectPath := path_resolve (path (project config));
         bc_outputPath := path_resolve (outputPath (build config));
         bc_bundleName := bundleName (build config);
         bc_sourcemap := sourcemap (build config);
         bc_minify := minify (build config);
         bc_signature :=
           match signature config with
           | Some sig =>
               if enabled sig then
                 Some {| bs_enabled := true;
                         bs_algorithm :=
                           if truthy (algorithm sig)
                           then default EmptyString (algorithm sig)
                           else "RSA-SHA256";
                         bs_privateKeyPath :=
                           if truthy (privateKeyPath sig)
                           then option_map path_resolve (privateKeyPath sig)
                           else None;
                         bs_publicKeyPath :=
                           if truthy (publicKeyPath sig)
                           then option_map path_resolve (publicKeyPath sig)
                           else None;
                         bs_autoGenerate := default true (autoGenerate sig) |}
               else None
           | None => None
           end |}.

End WithRuntime.

End Config.

(** ** PackageManager: the package index *)

Module Packages.
Import Eff Json Runtime.
Local Open Scope eff_scope.

(** Sizes and counts are numbers of bytes and of files: JavaScript numbers
    that hold integers, carried as the integers they hold. *)
Record PackageInfo : Type := {
  platform : string;
  version : string;
  timestamp : string;
  bundleSize : Z;
  assetCount : Z;
  zipPath : string;
  manifest : option json
}.

Definition two_digits (n : Z) : string :=
  (if n <? 10 then "0" else EmptyString) ++ Signature.number_text n.

(** [(bytes / 1024 / 1024).toFixed(2)] for a byte count: both divisions are
    exact, and [toFixed] picks the nearest hundredth, the larger on a tie. *)
Definition megabytes_fixed2 (bytes : Z) : string :=
  let hundredths := (200 * Z.abs bytes + 1048576) / 2097152 in
  (if bytes <? 0 then "-" else EmptyString)
  ++ Signature.number_text (hundredths / 100) ++ "."
  ++ two_digits (hundredths mod 100).

(** [pkg.manifest?.bundleHash || "unknown"] *)
Definition checksum_of (manifest : option json) : json :=
  match manifest with
  | Some (JObj fields) =>
      if Signature.falsy (get "bundleHash" fields) then JStr "unknown"
      else default (JStr "unknown") (get "bundleHash" fields)
  | _ => JStr "unknown"
  end.

(** The number nearest to an integer: the integer itself up to 2^53 in
    magnitude; beyond that the nearest multiple of the distance between
    neighbouring numbers of that size, and on a tie the one whose
    significand is even. (Numbers end below 2^1024; a sum that large is
    Infinity, which is outside this model.) *)
Definition nearest_number (n : Z) : Z :=
  let magnitude := Z.abs n in
  if magnitude <=? 2 ^ 53 then n
  else
    let spacing := 2 ^ (Z.log2 magnitude - 52) in
    let low := magnitude / spacing in
    let rest := magnitude mod spacing in
    let significand :=
      if 2 * rest <? spacing then low
      else if spacing <? 2 * rest then low + 1
      else if Z.even low then low else low + 1 in
    Z.sgn n * (significand * spacing).

(** [a + b] on two numbers that hold integers: the sum, rounded to the
    nearest number. *)
Definition add (a b : Z) : Z := nearest_number (a + b).

(** [packages.reduce((sum, p) => sum + p.bundleSize, 0)] *)
Definition totalSize (packages : list PackageInfo) : Z :=
  List.fold_left (fun sum p => add sum (bundleSize p)) packages 0.

(** [packages.reduce((sum, p) => sum + p.assetCount, 0)] *)
Definition totalAssets (packages : list PackageInfo) : Z :=
  List.fold_left (fun sum p => add sum (assetCount p)) packages 0.

Section WithRuntime.
Context {W : Type} {clock : Clock W} {fs : FileSystem W} {pure : Pure}.

Definition package_entry (pkg : PackageInfo) : json :=
  JObj [ ("platform", JStr (platform pkg));
         ("version", JStr (version pkg));
         ("timestamp", JStr (timestamp pkg));
         ("filename", JStr (path_basename (zipPath pkg)));
         ("size", JStr (megabytes_fixed2 (bundleSize pkg) ++ " MB"));
         ("bundleSize", JNum (Signature.number_text (bundleSize pkg)));
         ("assetCount", JNum (Signature.number_text (assetCount pkg)));
         ("checksum", checksum_of (manifest pkg)) ].

(** The object literal [packageManifest]. *)
Definition package_index (generated : string) (packages : list PackageInfo) : obj :=
  [ ("generated", JStr generated);
    ("packages", JArr (List.map package_entry packages));
    ("totalPackages",
     JNum (Signature.number_text (Z.of_nat (List.length packages))));
    ("summary",
     JObj [ ("platforms", JArr (List.map (fun p => JStr (platform p)) packages));
            ("totalSize", JNum (Signature.number_text (totalSize packages)));
            ("totalAssets", JNum (Signature.number_text (totalAssets packages))) ]) ].

Definition generatePackageManifest (packages : list PackageInfo)
    (outputDir : string) : M W unit :=
  let manifestPath := path_join outputDir "packages-manifest.json" in
  generated <- Date_toISOString ;;
  writeJSON manifestPath (JObj (package_index generated packages)).

End WithRuntime.

End Packages.

(** ** ConfigLoader: defaults and loading *)

Module ConfigLoad.
Import Eff Json Runtime Config.
Local Open Scope eff_scope.

(** A configuration file as its author wrote it, [Partial<HotUpdateConfig>]:
    every block and every field may be left out. The metadata block takes no
    part in what follows. *)
Record UserProject : Type := {
  up_path : option string;
  up_entryFile : option string
}.

Record UserBuild : Type := {
  ub_platforms : option (list string);
  ub_version : option string;
  ub_outputPath : option string;
  ub_bundleName : option string;
  ub_sourcemap : option bool;
  ub_minify : option bool
}.

Record UserSignature : Type := {
  us_enabled : option bool;
  us_algorithm : option string;
  us_privateKeyPath : option string;
  us_publicKeyPath : option string;
  us_autoGenerate : option bool
}.

Record UserConfig : Type := {
  u_project : option UserProject;
  u_build : option UserBuild;
  u_signature : option UserSignature
}.

(** [fs.readJSON] on a configuration file, its value seen through the type
    the source gives it; a file that cannot be read or parsed throws. *)
Class ConfigFile (W : Type) : Type := {
  readConfig : string -> M W UserConfig
}.

Definition default_signature : SignatureSection :=
  {| enabled := false; algorithm := Some "RSA-SHA256";
     privateKeyPath := None; publicKeyPath := None;
     autoGenerate := Some true |}.

Definition DEFAULT_CONFIG : HotUpdateConfig :=
  {| project := {| path := "./"; entryFile := None |};
     build := {| platforms := ["ios"; "android"]; version := None;
                 outputPath := "./hotupdate-build"; bundleName := Some "index";
                 sourcemap := Some false; minify := Some true |};
     signature := Some default_signature |}.

(** [block?.field] *)
Definition field {A B} (block : option A) (f : A -> option B) : option B :=
  match block with
  | Some b => f b
  | None => None
  end.

(** [{ ...{ field: preset }, ...{ field: given } }.field] *)
Definition over {A} (given preset : option A) : option A :=
  match given with
  | Some v => Some v
  | None => preset
  end.

Definition mergeWithDefaults (userConfig : UserConfig) : HotUpdateConfig :=
  let project_ := u_project userConfig in
  let build_ := u_build userConfig in
  {| project :=
       {| path := default (path (project DEFAULT_CONFIG)) (field project_ up_path);
          entryFile := over (field project_ up_entryFile)
                            (entryFile (project DEFAULT_CONFIG)) |};
     build :=
       {| platforms := default (platforms (build DEFAULT_CONFIG))
                               (field build_ ub_platforms);
          version := over (field build_ ub_version)
                          (version (build DEFAULT_CONFIG));
          outputPath := default (outputPath (build DEFAULT_CONFIG))
                                (field build_ ub_outputPath);
          bundleName := over (field build_ ub_bundleName)
                             (bundleName (build DEFAULT_CONFIG));
          sourcemap := over (field build_ ub_sourcemap)
                            (sourcemap (build DEFAULT_CONFIG));
          minify := over (field build_ ub_minify)
                         (minify (build DEFAULT_CONFIG)) |};
     signature :=
       match u_signature userConfig with
       | Some given =>
           if default false (us_enabled given) then
             Some {| enabled := default (enabled default_signature)
                                        (us_enabled given);
                     algorithm := over (us_algorithm given)
                                       (algorithm default_signature);
                     privateKeyPath := over (us_privateKeyPath given)
                                            (privateKeyPath default_signature);
                     publicKeyPath := over (us_publicKeyPath given)
                                           (publicKeyPath default_signature);
                     autoGenerate := over (us_autoGenerate given)
                                          (autoGenerate default_signature) |}
           else None
       | None => None
       end |}.

Section WithRuntime.
Context {W : Type} {fs : FileSystem W} {out : Console W} {pure : Pure}
        {files : ConfigFile W}.

Definition loadConfig (configPath : option string) : M W HotUpdateConfig :=
  let configFile :=
    if truthy configPath then default EmptyString configPath
    else "hotupdate.config.json" in
  present <- pathExists configFile ;;
  if negb present
  then throw (ErrorObj ("Configuration file not found: " ++ configFile))
  else
    try_catch
      (configContent <- readConfig configFile ;;
       let config := mergeWithDefaults configContent in
       validateConfig config ;;;
       ret config)
      (fun error =>
         throw (ErrorObj ("Failed to load config: " ++ message_or_text error))).

End WithRuntime.

End ConfigLoad.

(** ** PromptHelper: project detection *)

Module Prompt.
Import Eff Json Runtime Config.
Local Open Scope eff_scope.

Section WithRuntime.
Context {W : Type} {fs : FileSystem W} {pure : Pure}.

Definition isReactNativeProject (projectPath : string) : M W bool :=
  try_catch
    (let packageJsonPath := path_join projectPath "package.json" in
     present <- pathExists packageJsonPath ;;
     if negb present then ret false
     else
       packageJson <- readJSON packageJsonPath ;;
       deps <- property packageJson "dependencies" ;;
       devDeps <- property packageJson "devDependencies" ;;
       let dependencies := merged_get (spread deps) (spread devDeps) in
       ret (negb (Signature.falsy (dependencies "react-native")) ||
            negb (Signature.falsy (dependencies "@react-native-community/cli"))))
    (fun _ => ret false).

End WithRuntime.

End Prompt.

(** ** BundleBuilder: the integrity check and the manifest it writes *)

Module Integrity.
Import Eff Json Runtime Bundle.
Local Open Scope eff_scope.

(** [text.substring(n)] *)
Fixpoint substring (n : nat) (text : string) : string :=
  match n, text with
  | S n', String _ rest => substring n' rest
  | _, _ => text
  end.

(** [require(path)] of a JSON module. *)
Class Modules (W : Type) : Type := {
  require_json : string -> M W json
}.

(** An [AssetFile] as [JSON.stringify] sees it: the properties in the order
    the records are written, [sha256] only where the record has one. *)
Definition asset_json (asset : AssetFile) : json :=
  JObj ([ ("name", JStr (name asset));
          ("type", JStr (type asset));
          ("httpServerLocation", JStr (httpServerLocation asset));
          ("scales", JArr (List.map JNum (scales asset)));
          ("hash", JStr (hash asset)) ]
        ++ match sha256 asset with
           | Some digest => [("sha256", JStr digest)]
           | None => []
           end)%list.

Section WithRuntime.
Context {W : Type} {clock : Clock W} {fs : FileSystem W} {pure : Pure}
        {sha : Sha256} {modules : Modules W}.

Variable projectRoot : string.

(** Console output is left out. *)
Definition verifyFileIntegrity (filePath expectedHash : string) : M W bool :=
  try_catch
    (calculatedHash <- calculateSHA256 filePath ;;
     let cleanExpectedHash :=
       if String.prefix "sha256:" expectedHash
       then substring 7 expectedHash
       else expectedHash in
     ret (String.eqb calculatedHash cleanExpectedHash))
    (fun _ => ret false).

(** The object literal of [generateManifest]; a [version] that the package
    file does not define leaves no property behind. *)
Definition bundle_manifest (platform bundlePath : string) (bundleStats : Stats)
    (bundleSHA256 : string) (assets : list AssetFile) (now : Z)
    (version : option json) : json :=
  JObj ([ ("platform", JStr platform);
          ("bundleUrl", JStr ("bundles/" ++ path_basename bundlePath));
          ("bundleSize", JNum (Signature.number_text (size bundleStats)));
          ("bundleHash", JStr (Signature.number_text (mtime bundleStats)));
          ("bundleSHA256", JStr bundleSHA256);
          ("assets", JArr (List.map asset_json assets));
          ("timestamp", JNum (Signature.number_text now)) ]
        ++ match version with
           | Some v => [("version", v)]
           | None => []
           end)%list.

Definition generateManifest (platform bundlePath : string)
    (assets : list AssetFile) (outputDir : string) : M W unit :=
  bundleStats <- stat bundlePath ;;
  bundleSHA256 <-
    try_catch (calculateSHA256WithPrefix bundlePath)
              (fun _ => ret EmptyString) ;;
  now <- Date_now ;;
  packageJson <- require_json (path_join projectRoot "package.json") ;;
  version <- Config.property packageJson "version" ;;
  let manifestPath := path_join outputDir "manifest.json" in
  writeJSON manifestPath
            (bundle_manifest platform bundlePath bundleStats bundleSHA256
                             assets now version).

End WithRuntime.

End Integrity.

(** ** PackageManager: what a package directory holds *)

Module Archive.
Import Eff Json Runtime.
Local Open Scope eff_scope.

Record PackageContents : Type := {
  bundle : Z;
  assets : Z;
  manifestData : option json
}.

Section WithRuntime.
Context {W : Type} {fs : FileSystem W} {pure : Pure}.

(** The body of the loop of [countPackageContents]: one directory entry. *)
Definition count_entry (sourceDir : string) (counted : PackageContents)
    (file : string) : M W PackageContents :=
  let filePath := path_join sourceDir file in
  stats <- stat filePath ;;
  if isFile stats then
    if Builder.includes file ".bundle" || Builder.includes file ".jsbundle"
    then ret {| bundle := size stats; assets := assets counted;
                manifestData := manifestData counted |}
    else if String.eqb file "manifest.json" then
      document <- readJSON filePath ;;
      ret {| bundle := bundle counted; assets := assets counted;
             manifestData := Some document |}
    else if negb (Builder.includes file ".map")
    then ret {| bundle := bundle counted; assets := assets counted + 1;
                manifestData := manifestData counted |}
    else ret counted
  else ret counted.

Definition countPackageContents (sourceDir : string) : M W PackageContents :=
  files <- readdir sourceDir ;;
  for_each (count_entry sourceDir) files
           {| bundle := 0; assets := 0; manifestData := None |}.

(** Console output is left out. *)
Definition validatePackage (zipPath : string) : M W bool :=
  try_catch
    (exists_ <- pathExists zipPath ;;
     if negb exists_ then ret false
     else
       stats <- stat zipPath ;;
       if size stats =? 0 then ret false else ret true)
    (fun _ => ret false).

End WithRuntime.

End Archive.

(** ** The private key of a signed build *)

Module KeyProvision.
Import Eff Json Runtime.
Local Open Scope eff_scope.

Section WithRuntime.
Context {W : Type} {clock : Clock W} {crypto : Crypto W}
        {fs : FileSystem W} {pure : Pure}.

(** Modelled from the spec: how the signing stage of a build comes by its
    private key. That stage belongs to the builder that takes a signature
    configuration as its second argument, which index.ts constructs and
    which is not among the sources. The spec has a private key that is
    missing at the configured path degrade to a warning that "forces
    auto-generation", and wants key material in place "before signing is
    attempted": the key at the configured path is the one to sign with
    when it is there; when it is not, a key pair is generated and written
    as key files to the directory the caller names, and the private key
    written is the one to sign with. *)
Definition provide_private_key (signer : Signature.SignatureConfig)
    (keyPath keysDir : string) : M W string :=
  present <- pathExists keyPath ;;
  if present then ret keyPath
  else
    generated <- Signature.generateAndSaveKeyPair signer keysDir None ;;
    ret (fst generated).

End WithRuntime.

End KeyProvision.

(** ** Sample manifests *)

Module Samples.
Import Json.

(** A manifest written in the order of [generateHotUpdateManifest] and the
    same manifest with the keys of the document, of its asset entry and of
    its metadata block inserted in another order. *)
Definition manifest_a : obj :=
  [ ("version", JStr "1.2.0"); ("platform", JStr "android");
    ("bundleSize", JNum "2048");
    ("assets", JArr [JObj [("name", JStr "logo.png"); ("hash", JStr "17")]]);
    ("metadata", JObj [("builder", JStr "nitro-hotupdate-cli");
                       ("minified", JBool true)]);
    ("signature", JStr "RSA-SHA256:AAAA") ].

Definition manifest_b : obj :=
  [ ("signature", JStr "RSA-SHA256:AAAA");
    ("metadata", JObj [("minified", JBool true);
                       ("builder", JStr "nitro-hotupdate-cli")]);
    ("version", JStr "1.2.0"); ("platform", JStr "android");
    ("bundleSize", JNum "2048");
    ("assets", JArr [JObj [("hash", JStr "17"); ("name", JStr "logo.png")]]) ].

End Samples.

(** ** A small runtime to run the code on

    An in-memory file system, a counter for a clock, a bundler that fails
    for one platform, and a signature scheme whose signatures are the key
    followed by the data. It serves to evaluate the code on concrete
    inputs. *)

Module Toy.
Import Eff Json Runtime.

Inductive node : Type :=
| File (content : string) (modified : Z)
| Dir (entries : list string).

Record world : Type := {
  clock : Z;
  nodes : list (string * node);
  console : list string
}.

Definition with_nodes (w : world) (nodes' : list (string * node)) : world :=
  {| clock := clock w; nodes := nodes'; console := console w |}.

Definition enoent {A} (p : string) : M world A :=
  throw (ErrorObj ("ENOENT: no such file or directory, open '" ++ p ++ "'")).

Definition toy_readFile (p : string) : M world string :=
  fun w =>
    match get p (nodes w) with
    | Some (File content _) => (Ok content, w)
    | Some (Dir _) =>
        (Throw (ErrorObj "EISDIR: illegal operation on a directory, read"), w)
    | None => enoent p w
    end.

Definition toy_writeFile (p content : string) : M world unit :=
  fun w => (Ok tt, with_nodes w (set p (File content (clock w)) (nodes w))).

Definition toy_ensureDir (p : string) : M world unit :=
  fun w =>
    match get p (nodes w) with
    | Some (File _ _) =>
        (Throw (ErrorObj ("EEXIST: file already exists, mkdir '" ++ p ++ "'")), w)
    | Some (Dir _) => (Ok tt, w)
    | None => (Ok tt, with_nodes w (set p (Dir []) (nodes w)))
    end.

Definition toy_pathExists (p : string) : M world bool :=
  fun w => (Ok (bool_decide (is_Some (get p (nodes w)))), w).

Definition toy_readdir (p : string) : M world (list string) :=
  fun w =>
    match get p (nodes w) with
    | Some (Dir entries) => (Ok entries, w)
    | Some (File _ _) =>
        (Throw (ErrorObj ("ENOTDIR: not a directory, scandir '" ++ p ++ "'")), w)
    | None => enoent p w
    end.

Definition toy_stat (p : string) : M world Stats :=
  fun w =>
    match get p (nodes w) with
    | Some (File content modified) =>
        (Ok {| isFile := true; size := Z.of_nat (String.length content);
               mtime := modified |}, w)
    | Some (Dir _) => (Ok {| isFile := false; size := 0; mtime := 0 |}, w)
    | None => enoent p w
    end.

Definition toy_copy (source dest : string) : M world unit :=
  fun w =>
    match get source (nodes w) with
    | Some n => (Ok tt, with_nodes w (set dest n (nodes w)))
    | None => enoent source w
    end.

Definition toy_createReadStream (p : string) : M world (list (list ascii)) :=
  fun w =>
    match get p (nodes w) with
    | Some (File content _) => (Ok [Str.to_list content], w)
    | _ => enoent p w
    end.

(** Compact printing, for the files the toy file system stores. *)
Fixpoint print (v : json) : string :=
  match v with
  | JNull => "null"
  | JBool b => if b then "true" else "false"
  | JNum text => text
  | JStr s => quote s
  | JArr items => "[" ++ Str.concat_sep "," (List.map print items) ++ "]"
  | JObj fields =>
      "{" ++ Str.concat_sep ","
               (List.map (fun kv => quote (fst kv) ++ ":" ++ print (snd kv)) fields)
          ++ "}"
  end.

(** The documents the toy parser knows, by their text. *)
Definition package_json : json :=
  JObj [ ("name", JStr "demo"); ("version", JStr "1.2.0");
         ("dependencies", JObj [("react-native", JStr "0.72.0")]) ].

Definition documents : list (string * json) :=
  [ ("<manifest a>", JObj Samples.manifest_a);
    ("<manifest b>", JObj Samples.manifest_b);
    ("<package.json>", package_json);
    ("null", JNull);
    ("[1]", JArr [JNum "1"]);
    ("5", JNum "5");
    ("<package.json, version 2>",
     JObj [ ("name", JStr "demo"); ("version", JNum "2");
            ("dependencies", JObj [("react-native", JStr "0.72.0")]) ]) ].

Definition toy_parse (text : string) : exc json :=
  match get text documents with
  | Some v => Ok v
  | None => Throw (ErrorObj "Unexpected token in JSON")
  end.

Definition toy_readJSON (p : string) : M world json :=
  bind (toy_readFile p) (fun text => lift (toy_parse text)).

Definition toy_writeJSON (p : string) (v : json) : M world unit :=
  toy_writeFile p (print v).

(** The last segment of a path, and its split at the last dot. *)
Fixpoint last_segment (p : string) : string :=
  match p with
  | EmptyString => EmptyString
  | String c rest =>
      if Str.has_char "/"%char rest then last_segment rest
      else if Ascii.eqb c "/"%char then rest
      else String c rest
  end.

Fixpoint extension (name : string) : string :=
  match name with
  | EmptyString => EmptyString
  | String c rest =>
      if Str.has_char "."%char rest then extension rest
      else if Ascii.eqb c "."%char then String c rest
      else EmptyString
  end.

Fixpoint stem (name : string) : string :=
  match name with
  | EmptyString => EmptyString
  | String c rest =>
      if Str.has_char "."%char (String c rest)
         && negb (Str.has_char "."%char rest)
      then EmptyString
      else String c (stem rest)
  end.

Fixpoint parent (p : string) : string :=
  match p with
  | EmptyString => EmptyString
  | String c rest =>
      if Str.has_char "/"%char rest then String c (parent rest)
      else if Ascii.eqb c "/"%char then EmptyString
      else EmptyString
  end.

Definition is_digit (c : ascii) : bool :=
  let n := N_of_ascii c in ((48 <=? n) && (n <=? 57))%N.

Fixpoint all_digits (s : string) : bool :=
  match s with
  | EmptyString => true
  | String c rest => is_digit c && all_digits rest
  end.

(** Three runs of digits separated by dots. *)
Definition toy_semver (v : string) : bool :=
  match Signature.split_on "."%char v with
  | [a; b; c] =>
      all_digits a && all_digits b && all_digits c
      && negb (Signature.absent (Some a)) && negb (Signature.absent (Some b))
      && negb (Signature.absent (Some c))
  | _ => false
  end.

#[global] Instance toy_pure : Pure := {|
  JSON_parse := toy_parse;
  semver_valid := toy_semver;
  isWindows := false;
  path_join := fun a b => a ++ "/" ++ b;
  path_resolve := fun p => p;
  path_basename := last_segment;
  path_extname := fun p => extension (last_segment p);
  path_dirname := parent;
  path_parse_name := fun p => stem (last_segment p)
|}.

#[global] Instance toy_clock : Clock world := {|
  clock_now := fun w =>
    (clock w, {| clock := clock w + 1; nodes := nodes w; console := console w |});
  clock_iso := fun w => ("2025-01-01T00:00:00.000Z", w)
|}.

#[global] Instance toy_console : Console world := {|
  warn := fun message w =>
    {| clock := clock w; nodes := nodes w;
       console := (console w ++ [message])%list |}
|}.

(** [text.substring(n)] *)
Fixpoint drop (n : nat) (text : string) : string :=
  match n, text with
  | S n', String _ rest => drop n' rest
  | _, _ => text
  end.

(** The files below [cwd] whose relative path starts with the directory
    part of the pattern (its text before the first star); the ignore list
    is not looked at. *)
Definition toy_glob (pattern cwd : string) (ignore : list string)
  : M world (list string) :=
  fun w =>
    let root := cwd ++ "/" in
    let base := List.hd EmptyString (Signature.split_on "*"%char pattern) in
    (Ok (omap (fun entry =>
                 match snd entry with
                 | File _ _ =>
                     let relative := drop (String.length root) (fst entry) in
                     if String.prefix root (fst entry) && String.prefix base relative
                     then Some relative else None
                 | Dir _ => None
                 end) (nodes w)), w).

#[global] Instance toy_fs : FileSystem world := {|
  readFile := toy_readFile;
  writeFile := toy_writeFile;
  writeJSON := toy_writeJSON;
  readJSON := toy_readJSON;
  ensureDir := toy_ensureDir;
  pathExists := toy_pathExists;
  existsSync := toy_pathExists;
  readdir := toy_readdir;
  stat := toy_stat;
  copy := toy_copy;
  createReadStream := toy_createReadStream;
  glob := toy_glob
|}.

(** The argument that follows a flag on a command line. *)
Fixpoint argument (flag : string) (args : list string) : string :=
  match args with
  | f :: rest =>
      if String.eqb f flag then List.hd EmptyString rest else argument flag rest
  | [] => EmptyString
  end.

(** A bundler that exits with code 1 for ios, cannot be started for
    windows, and writes the bundle for any other platform. *)
Definition toy_spawn (command : string) (args : list string) (cwd : string)
  : M world Z :=
  let target := argument "--platform" args in
  if String.eqb target "ios" then ret 1
  else if String.eqb target "windows" then throw (ErrorObj "spawn npx ENOENT")
  else bind (toy_writeFile (argument "--bundle-output" args) "__d(function(){});")
            (fun _ => ret 0).

#[global] Instance toy_tools : Tools world := {|
  spawn := toy_spawn;
  zip_directory := fun dir zip => toy_writeFile zip ("zip of " ++ dir)
|}.

(** A digest that is the hexadecimal text of the bytes themselves. *)
#[global] Instance toy_hash : Sha256 := {|
  hash_state := list ascii;
  createHash := [];
  hash_update := fun h chunk => (h ++ chunk)%list;
  digest_hex := fun h =>
    String.concat EmptyString
      (List.map (fun c => String (hex_digit (N_of_ascii c / 16))
                            (Str.chr (hex_digit (N_of_ascii c mod 16)))) h)
|}.

(** A key pair is a key and itself; a signature is the key, a bar and the
    data; an undefined hash name cannot be used. *)
Definition toy_signature (key data : string) : list ascii :=
  Str.to_list (key ++ "|" ++ data).

Definition toy_sign (hash : option string) (data key : string)
  : M world (list ascii) :=
  match hash with
  | Some _ => ret (toy_signature key data)
  | None => throw (ErrorObj "The algorithm argument must be of type string")
  end.

Definition toy_verify (hash : option string) (data : string) (key : json)
    (signature : list ascii) : M world bool :=
  match hash, key with
  | Some _, JStr k =>
      ret (String.eqb (Str.of_list signature) (k ++ "|" ++ data))
  | None, _ => throw (ErrorObj "The algorithm argument must be of type string")
  | _, _ => throw (ErrorObj "Invalid key")
  end.

#[global] Instance toy_crypto : Crypto world := {|
  generateKeyPair_rsa := fun bits =>
    ret {| privateKey := "rsa-" ++ Signature.number_text bits;
           publicKey := "rsa-" ++ Signature.number_text bits |};
  generateKeyPair_ec := fun curve =>
    ret {| privateKey := "ec-" ++ curve; publicKey := "ec-" ++ curve |};
  createSign_sign := toy_sign;
  createVerify_verify := toy_verify;
  export_public := fun key => ret key
|}.

Definition empty_world : world := {| clock := 1700000000000; nodes := []; console := [] |}.

End Toy.

(** ** Facts about strings and their order *)

Module StrFacts.
Import Str.

Lemma of_to_list s : of_list (to_list s) = s.
Proof. induction s as [|c s IH]; simpl; congruence. Qed.

Lemma to_of_list l : to_list (of_list l) = l.
Proof. induction l as [|c l IH]; simpl; congruence. Qed.

Lemma to_list_app s t : to_list (s ++ t) = (to_list s ++ to_list t)%list.
Proof. induction s as [|c s IH]; simpl; congruence. Qed.

Lemma ascii_compare_trans_lt a b c :
  Ascii.compare a b = Lt -> Ascii.compare b c = Lt -> Ascii.compare a c = Lt.
Proof.
  unfold Ascii.compare. rewrite !N.compare_lt_iff. lia.
Qed.

Lemma ascii_compare_eq a b : Ascii.compare a b = Eq -> a = b.
Proof.
  unfold Ascii.compare. rewrite N.compare_eq_iff. intros H.
  rewrite <- (ascii_N_embedding a), <- (ascii_N_embedding b). congruence.
Qed.

Lemma compare_trans_lt s : forall t u,
  String.compare s t = Lt -> String.compare t u = Lt -> String.compare s u = Lt.
Proof.
  induction s as [|a s IH]; intros [|b t] [|c u]; simpl; try congruence.
  destruct (Ascii.compare a b) eqn:Hab; try congruence;
    destruct (Ascii.compare b c) eqn:Hbc; try congruence; intros H1 H2.
  - apply ascii_compare_eq in Hab, Hbc. subst.
    assert (Ascii.compare c c = Eq) as ->
        by (unfold Ascii.compare; apply N.compare_refl).
    eauto.
  - apply ascii_compare_eq in Hab. subst. now rewrite Hbc.
  - apply ascii_compare_eq in Hbc. subst. now rewrite Hab.
  - now rewrite (ascii_compare_trans_lt _ _ _ Hab Hbc).
Qed.

Lemma compare_refl s : String.compare s s = Eq.
Proof.
  induction s as [|a s IH]; simpl; [reflexivity|].
  assert (Ascii.compare a a = Eq) as ->
      by (unfold Ascii.compare; apply N.compare_refl).
  exact IH.
Qed.

Lemma place_place c : place (place c) = c.
Proof. destruct c as [[] [] [] [] [] [] [] []]; reflexivity. Qed.

Lemma places_places s : places (places s) = s.
Proof.
  induction s as [|c s IH]; simpl; [reflexivity|].
  now rewrite place_place, IH.
Qed.

(** Text in ASCII is ordered byte by byte. *)
Lemma places_ascii s :
  Forall (fun c => (N_of_ascii c < 128)%N) (to_list s) -> places s = s.
Proof.
  induction s as [|c s IH]; simpl; [reflexivity|].
  intros Hall. inversion Hall as [|? ? Hc Hrest]; subst.
  rewrite (IH Hrest). f_equal. unfold place.
  destruct (N.eqb_spec (N_of_ascii c) 238); [lia|].
  destruct (N.eqb_spec (N_of_ascii c) 239); [lia|].
  destruct (N.eqb_spec (N_of_ascii c) 254); [lia|].
  destruct (N.eqb_spec (N_of_ascii c) 255); [lia|]. reflexivity.
Qed.

#[global] Instance le_total : Total le.
Proof. intros s t. apply String.leb_total. Qed.

#[global] Instance le_antisymm : AntiSymm (=) le.
Proof.
  intros s t H1 H2.
  rewrite <- (places_places s), <- (places_places t).
  f_equal. now apply String.leb_antisym.
Qed.

#[global] Instance le_trans : Transitive le.
Proof.
  intros s0 t0 u0. unfold le.
  generalize (places s0) (places t0) (places u0). intros s t u.
  unfold String.leb.
  destruct (String.compare s t) eqn:Hst; try discriminate;
    destruct (String.compare t u) eqn:Htu; try discriminate; intros _ _.
  - apply String.compare_eq_iff in Hst, Htu. subst.
    now rewrite compare_refl.
  - apply String.compare_eq_iff in Hst. subst. now rewrite Htu.
  - apply String.compare_eq_iff in Htu. subst. now rewrite Hst.
  - now rewrite (compare_trans_lt _ _ _ Hst Htu).
Qed.

(** U+FFFF, three bytes that start with 239, sorts after U+10000, four bytes
    that start with 240: UTF-16 writes the latter with surrogates. Plain
    text sorts as its bytes do. *)
Example sort_follows_code_units :
  sort [ of_list (List.map ascii_of_N [239; 191; 191]%N);
         of_list (List.map ascii_of_N [240; 144; 128; 128]%N); "b"; "a"; "B" ]
  = [ "B"; "a"; "b";
      of_list (List.map ascii_of_N [240; 144; 128; 128]%N);
      of_list (List.map ascii_of_N [239; 191; 191]%N) ].
Proof. vm_compute. reflexivity. Qed.

(** Sorting forgets the order the keys came in. *)
Lemma sort_perm_eq (k1 k2 : list string) :
  Permutation k1 k2 -> sort k1 = sort k2.
Proof.
  intros HP. unfold sort.
  apply (Sorted_unique le); try apply Sorted_merge_sort; try apply _.
  rewrite !merge_sort_Permutation. exact HP.
Qed.

End StrFacts.

(** ** Facts about JSON objects and the serializer *)

Module JsonFacts.
Import Json.

(** Structural induction on JSON values, with the hypothesis available for
    every element of an array and every property value of an object. *)
Lemma json_ind (P : json -> Prop)
  (Hnull : P JNull) (Hbool : forall b, P (JBool b))
  (Hnum : forall t, P (JNum t)) (Hstr : forall s, P (JStr s))
  (Harr : forall items, Forall P items -> P (JArr items))
  (Hobj : forall fields, Forall (fun kv => P (snd kv)) fields -> P (JObj fields))
  : forall v, P v.
Proof.
  fix IH 1. intros [ | b | t | s | items | fields ].
  - exact Hnull.
  - apply Hbool.
  - apply Hnum.
  - apply Hstr.
  - apply Harr. induction items as [|x xs IHxs]; constructor.
    + apply IH.
    + exact IHxs.
  - apply Hobj. induction fields as [|[k x] xs IHxs]; constructor.
    + apply IH.
    + exact IHxs.
Qed.

Lemma keys_perm {A} (f1 f2 : list (string * A)) :
  Permutation f1 f2 -> Permutation (keys f1) (keys f2).
Proof. apply Permutation_map. Qed.

(** Property lookup does not depend on insertion order. *)
Lemma get_perm {A} k (f1 f2 : list (string * A)) :
  Permutation f1 f2 -> NoDup (keys f1) -> get k f1 = get k f2.
Proof.
  induction 1 as [ | [k1 v1] f1 f2 HP IH | [k1 v1] [k2 v2] f
                 | f1 f2 f3 HP1 IH1 HP2 IH2 ]; intros Hnd; simpl in *.
  - reflexivity.
  - apply NoDup_cons in Hnd as [_ Hnd]. rewrite IH by assumption. reflexivity.
  - apply NoDup_cons in Hnd as [Hnot _].
    destruct (String.eqb_spec k1 k) as [->|]; destruct (String.eqb_spec k2 k) as [->|];
      try reflexivity.
    exfalso. apply Hnot. left.
  - rewrite IH1 by assumption. apply IH2.
    now rewrite <- (keys_perm _ _ HP1).
Qed.

Lemma get_map {A B} (g : A -> B) k (f : list (string * A)) :
  get k (List.map (fun kv => (fst kv, g (snd kv))) f) = g <$> get k f.
Proof.
  induction f as [|[k' v] f IH]; simpl; [reflexivity|].
  destruct (String.eqb k' k); [reflexivity | exact IH].
Qed.

(** Two objects whose properties agree position by position serialize each
    looked-up property alike, as soon as related values do. *)
Lemma get_related (ser : json -> string) k (f1 f2 : obj) :
  Forall2 (fun a b => fst a = fst b /\ ser (snd a) = ser (snd b)) f1 f2 ->
  ser <$> get k f1 = ser <$> get k f2.
Proof.
  induction 1 as [|[k1 v1] [k2 v2] f1 f2 [Hk Hv] _ IH]; simpl in *;
    [reflexivity|]. subst k2.
  destruct (String.eqb k1 k); simpl; congruence.
Qed.

Lemma delete_keys {A} k (f : list (string * A)) :
  keys (delete k f) = List.filter (fun k' => negb (String.eqb k' k)) (keys f).
Proof.
  induction f as [|[k' v] f IH]; simpl; [reflexivity|].
  destruct (String.eqb k' k); simpl; congruence.
Qed.

Lemma delete_NoDup {A} k (f : list (string * A)) :
  NoDup (keys f) -> NoDup (keys (delete k f)).
Proof.
  rewrite delete_keys. generalize (keys f). intros l.
  induction 1 as [|x l Hx Hnd IH]; simpl; [constructor|].
  destruct (negb (String.eqb x k)); [|assumption].
  constructor; [|assumption].
  intros Hin. apply Hx. apply list_elem_of_In in Hin. apply filter_In in Hin.
  apply list_elem_of_In. tauto.
Qed.

Lemma delete_perm {A} k (f1 f2 : list (string * A)) :
  Permutation f1 f2 -> Permutation (delete k f1) (delete k f2).
Proof.
  induction 1 as [ | [k1 v1] f1 f2 HP IH | [k1 v1] [k2 v2] f
                 | f1 f2 f3 HP1 IH1 HP2 IH2 ]; unfold delete in *; simpl.
  - constructor.
  - destruct (negb _); [constructor|]; assumption.
  - destruct (negb (String.eqb k1 k)), (negb (String.eqb k2 k));
      try reflexivity. constructor.
  - etransitivity; eassumption.
Qed.

Lemma delete_Forall2 (R : json -> json -> Prop) k (f1 f2 : obj) :
  Forall2 (fun a b => fst a = fst b /\ R (snd a) (snd b)) f1 f2 ->
  Forall2 (fun a b => fst a = fst b /\ R (snd a) (snd b))
          (delete k f1) (delete k f2).
Proof.
  induction 1 as [|[k1 v1] [k2 v2] f1 f2 [Hk Hv] _ IH]; unfold delete in *;
    simpl in *; [constructor|]. subst k2.
  destruct (negb (String.eqb k1 k)); [constructor; auto | assumption].
Qed.

Lemma delete_Forall {A} (P : string * A -> Prop) k f :
  Forall P f -> Forall P (delete k f).
Proof.
  unfold delete. rewrite !List.Forall_forall. intros H x Hx.
  apply filter_In in Hx. apply H. tauto.
Qed.

Lemma Forall2_keys (R : json -> json -> Prop) (f1 f2 : obj) :
  Forall2 (fun a b => fst a = fst b /\ R (snd a) (snd b)) f1 f2 ->
  keys f1 = keys f2.
Proof.
  induction 1 as [|[k1 v1] [k2 v2] f1 f2 [Hk Hv] _ IH]; simpl in *; congruence.
Qed.

Lemma members_ext (own1 own2 : list (string * string)) (K : list string) :
  (forall key, member own1 key = member own2 key) ->
  omap (member own1) K = omap (member own2) K.
Proof.
  intros Hmem. induction K as [|key K IH]; [reflexivity|].
  cbn [omap list_omap]. rewrite Hmem.
  destruct (member own2 key); [f_equal|]; exact IH.
Qed.

(** The serializer sees an object only through lookups by name, so values
    that differ in insertion order alone print alike under any property
    list. *)
Lemma serialize_same_fields K : forall v1,
  wf v1 -> forall v2, same_fields v1 v2 -> serialize K v1 = serialize K v2.
Proof.
  induction v1 as [ | b | t | s | items IH | fields IH ] using json_ind;
    intros Hwf v2 Hsf; inversion Hsf; subst; try reflexivity.
  - (* arrays: element by element *)
    inversion Hwf as [ | | | | ? Hwfs | ]; subst. simpl. do 3 f_equal.
    clear Hwf Hsf.
    match goal with H : Forall2 same_fields _ _ |- _ =>
      induction H as [|x y xs ys Hxy Hrest IHrest] end; [reflexivity|].
    inversion IH; inversion Hwfs; subst. simpl. f_equal; auto.
  - (* objects: member by member of the property list *)
    inversion Hwf as [ | | | | | ? Hnd Hwfs ]; subst. simpl. do 3 f_equal.
    match goal with HP : Permutation fields ?f', HF : Forall2 _ ?f' _ |- _ =>
      rename f' into mid; rename HP into Hperm; rename HF into Hrel end.
    assert (Hmid : Forall2
              (fun a b => fst a = fst b /\ serialize K (snd a) = serialize K (snd b))
              mid f2).
    { assert (IH' : Forall (fun kv => wf (snd kv) /\
                 forall v2, same_fields (snd kv) v2 ->
                            serialize K (snd kv) = serialize K v2) mid).
      { rewrite List.Forall_forall in *. intros kv Hin.
        apply (Permutation_in _ (Permutation_sym Hperm)) in Hin.
        split; [apply Hwfs, Hin|]. intros w Hw. apply IH; auto. }
      clear Hperm Hsf IH Hwfs Hnd Hwf.
      induction Hrel as [|a b l1 l2 [Hk Hv] _ IHrel]; constructor.
      - inversion IH' as [|? ? [_ Hser] _]; subst. split; auto.
      - apply IHrel. now inversion IH'. }
    assert (Hmem : forall key,
      member (List.map (fun kv => (fst kv, serialize K (snd kv))) fields) key =
      member (List.map (fun kv => (fst kv, serialize K (snd kv))) f2) key).
    { intros key. unfold member. rewrite !get_map.
      rewrite (get_perm key fields mid Hperm Hnd).
      now rewrite (get_related (serialize K) key mid f2 Hmid). }
    apply members_ext, Hmem.
Qed.

End JsonFacts.

(** ** Canonicalization is insensitive to key insertion order *)

Module CanonicalFacts.
Import Json JsonFacts Canonical Samples.

Lemma strip_signature_same_fields (m1 m2 : obj) :
  wf (JObj m1) -> same_fields (JObj m1) (JObj m2) ->
  wf (JObj (strip_signature m1)) /\
  same_fields (JObj (strip_signature m1)) (JObj (strip_signature m2)).
Proof.
  intros Hwf Hsf.
  inversion Hwf as [ | | | | | ? Hnd Hvals ]; subst.
  inversion Hsf as [ | | | | | ? mid ? Hperm Hrel ]; subst.
  unfold strip_signature. split.
  - constructor.
    + now do 3 apply delete_NoDup.
    + now do 3 apply delete_Forall.
  - apply sf_obj with
      (f1' := delete "signatureTimestamp"
                (delete "publicKey" (delete "signature" mid))).
    + now do 3 apply delete_perm.
    + now do 3 apply delete_Forall2.
Qed.

Lemma same_fields_keys_perm (m1 m2 : obj) :
  same_fields (JObj m1) (JObj m2) -> Permutation (keys m1) (keys m2).
Proof.
  intros Hsf. inversion Hsf as [ | | | | | ? mid ? Hperm Hrel ]; subst.
  rewrite <- (Forall2_keys _ _ _ Hrel). now apply keys_perm.
Qed.

Lemma filter_strongly_sorted (p : string -> bool) l :
  StronglySorted Str.le l -> StronglySorted Str.le (List.filter p l).
Proof.
  induction 1 as [|k l Hl IH Hk]; simpl; [constructor|].
  destruct (p k); [|exact IH]. constructor; [exact IH|].
  rewrite List.Forall_forall in *. intros x Hx.
  apply filter_In in Hx. apply Hk. tauto.
Qed.

Lemma property_list_In k l : In k (property_list l) -> In k l.
Proof.
  induction l as [|k' l IH]; simpl; [tauto|].
  intros [->|Hin]; [now left|]. apply filter_In in Hin. right. tauto.
Qed.

(** The property list made from sorted keys is sorted: at every level of
    the document the members are printed in lexicographic key order. *)
Lemma property_list_sorted (ks : list string) :
  StronglySorted Str.le (property_list (Str.sort ks)).
Proof.
  unfold Str.sort.
  pose proof (StronglySorted_merge_sort Str.le ks) as Hsorted.
  induction Hsorted as [|k l Hl IH Hk]; simpl; [constructor|].
  constructor; [now apply filter_strongly_sorted|].
  rewrite List.Forall_forall in *. intros x Hx.
  apply filter_In in Hx as [Hx _]. apply Hk. now apply property_list_In.
Qed.

(** Two manifests that carry the same field values at every nesting level
    and differ only in the order in which keys were inserted have the same
    canonical text. *)
Lemma canonicalize_same_fields (m1 m2 : obj) :
  wf (JObj m1) -> same_fields (JObj m1) (JObj m2) ->
  canonicalize m1 = canonicalize m2.
Proof.
  intros Hwf Hsf.
  destruct (strip_signature_same_fields m1 m2 Hwf Hsf) as [Hwf' Hsf'].
  unfold canonicalize, stringify.
  rewrite (StrFacts.sort_perm_eq _ _ (same_fields_keys_perm _ _ Hsf')).
  now apply serialize_same_fields.
Qed.

Ltac distinct_keys :=
  unfold keys; simpl;
  repeat (apply NoDup_cons_2;
          [ rewrite ?not_elem_of_cons; repeat split;
            solve [ discriminate | apply not_elem_of_nil ] | ]);
  apply NoDup_nil_2.

Ltac wf_value :=
  repeat first
    [ apply wf_str | apply wf_num | apply wf_bool | apply wf_null
    | apply wf_arr | apply wf_obj; [distinct_keys|]
    | apply List.Forall_cons | apply List.Forall_nil ].

Ltac same_value :=
  repeat first
    [ apply List.Forall2_cons | apply List.Forall2_nil | split | reflexivity
    | apply sf_str | apply sf_num | apply sf_bool | apply sf_null
    | apply sf_arr ].

Lemma manifest_a_wf : wf (JObj manifest_a).
Proof. unfold manifest_a. wf_value. Defined.

Lemma manifest_a_b_same_fields : same_fields (JObj manifest_a) (JObj manifest_b).
Proof.
  apply sf_obj with
    (f1' := [ ("signature", JStr "RSA-SHA256:AAAA");
              ("metadata", JObj [("builder", JStr "nitro-hotupdate-cli");
                                 ("minified", JBool true)]);
              ("version", JStr "1.2.0"); ("platform", JStr "android");
              ("bundleSize", JNum "2048");
              ("assets", JArr [JObj [("name", JStr "logo.png");
                                     ("hash", JStr "17")]]) ]).
  - unfold manifest_a.
    apply (Permutation_cons_app [_; _] [_; _; _]). simpl.
    apply (Permutation_cons_app [_; _] [_; _]). simpl.
    apply (Permutation_cons_app [_; _] [_]). simpl.
    apply (Permutation_cons_app [_; _] []). simpl.
    apply perm_swap.
  - unfold manifest_b. same_value.
    + apply sf_obj with (f1' := [("minified", JBool true);
                                 ("builder", JStr "nitro-hotupdate-cli")]);
        [apply perm_swap | same_value].
    + apply sf_obj with (f1' := [("hash", JStr "17"); ("name", JStr "logo.png")]);
        [apply perm_swap | same_value].
Defined.

(** The property list is the sorted list of top-level keys, and it is used
    at every depth: a nested object prints only those of its keys that are
    also top-level keys of the manifest, in the order of that list. Here
    the asset entry and the metadata block print as empty objects. *)
Example nested_keys_follow_property_list :
  canonicalize manifest_a =
  canonicalize [ ("version", JStr "1.2.0"); ("platform", JStr "android");
                 ("bundleSize", JNum "2048"); ("assets", JArr [JObj []]);
                 ("metadata", JObj []) ].
Proof. vm_compute. reflexivity. Qed.

End CanonicalFacts.

Module Base64Facts.
Import Base64.

Lemma value_digit s : value (digit s) = Some s.
Proof.
  destruct s as [[] [] [] [] [] []]; vm_compute; reflexivity.
Qed.

Lemma digit_not_pad s : Ascii.eqb (digit s) pad = false.
Proof.
  destruct s as [[] [] [] [] [] []]; vm_compute; reflexivity.
Qed.

Lemma digit_not_colon s : Ascii.eqb (digit s) ":"%char = false.
Proof.
  destruct s as [[] [] [] [] [] []]; vm_compute; reflexivity.
Qed.

Lemma digits_digit s rest : digits (String (digit s) rest) = s :: digits rest.
Proof. simpl. now rewrite digit_not_pad, value_digit. Qed.

(** Lists three elements at a time. *)
Lemma list_ind3 {A} (P : list A -> Prop) :
  P [] -> (forall x, P [x]) -> (forall x y, P [x; y]) ->
  (forall x y z l, P l -> P (x :: y :: z :: l)) ->
  forall l, P l.
Proof.
  intros H0 H1 H2 H3.
  assert (H : forall l, P l /\ (forall x, P (x :: l)) /\ (forall x y, P (x :: y :: l))).
  { induction l as [|a l (IH0 & IH1 & IH2)]; [now auto|].
    split; [apply IH1|]. split; [intros; apply IH2|]. intros x y. now apply H3. }
  intros l. apply H.
Qed.

(** Reading back what was written gives the bytes written. *)
Lemma decode_encode bytes : decode (encode bytes) = bytes.
Proof.
  unfold decode. induction bytes as [ | x | x y | x y z rest IH ] using list_ind3.
  - reflexivity.
  - cbn [encode]. rewrite !digits_digit. simpl.
    now destruct x.
  - cbn [encode]. rewrite !digits_digit. simpl.
    now destruct x, y.
  - cbn [encode]. rewrite !digits_digit. cbn [bytes_of]. rewrite IH.
    now destruct x, y, z.
Qed.

(** No colon is ever written. *)
Lemma encode_no_colon bytes : Str.has_char ":"%char (encode bytes) = false.
Proof.
  induction bytes as [ | x | x y | x y z rest IH ] using list_ind3;
    cbn [encode Str.has_char]; rewrite ?digit_not_colon, ?IH; reflexivity.
Qed.

Lemma encode_nonempty bytes : bytes <> [] -> encode bytes <> EmptyString.
Proof.
  destruct bytes as [|x [|y [|z rest]]]; [congruence | | | ]; discriminate.
Qed.

End Base64Facts.

(** ** Facts about DigitalSignature *)

Module SignatureFacts.
Import Eff Json JsonFacts Runtime Signature.
Local Open Scope eff_scope.

(** Case analysis on the outcome of the effectful step under scrutiny. *)
Ltac step_in H :=
  match type of H with
  | context [match ?m ?w with _ => _ end] =>
      let r := fresh "r" in let w' := fresh "w" in let E := fresh "E" in
      destruct (m w) as [r w'] eqn:E; destruct r
  end.

Ltac step :=
  match goal with
  | |- context [match ?m ?w with _ => _ end] =>
      let r := fresh "r" in let w' := fresh "w" in let E := fresh "E" in
      destruct (m w) as [r w'] eqn:E; destruct r
  end.

Lemma split_on_no_sep sep text :
  Str.has_char sep text = false -> split_on sep text = [text].
Proof.
  induction text as [|c text IH]; simpl; [reflexivity|].
  intros Hc. apply orb_false_iff in Hc as [Hc Hrest].
  rewrite Hc, (IH Hrest). reflexivity.
Qed.

Lemma split_on_app sep head tail :
  Str.has_char sep head = false ->
  split_on sep (head ++ String sep tail) = head :: split_on sep tail.
Proof.
  induction head as [|c head IH]; simpl.
  - intros _. now rewrite Ascii.eqb_refl.
  - intros Hc. apply orb_false_iff in Hc as [Hc Hrest].
    rewrite Hc, (IH Hrest). reflexivity.
Qed.

Lemma get_set_same {A} k (v : A) f : get k (set k v f) = Some v.
Proof.
  induction f as [|[k' w] f IH]; simpl.
  - now rewrite String.eqb_refl.
  - destruct (String.eqb k' k) eqn:E; simpl; rewrite E; auto.
Qed.

Lemma get_set_other {A} k k' (v : A) f :
  k <> k' -> get k' (set k v f) = get k' f.
Proof.
  intros Hne. induction f as [|[k0 w] f IH]; simpl.
  - destruct (String.eqb_spec k k'); [contradiction | reflexivity].
  - destruct (String.eqb_spec k0 k) as [->|]; simpl.
    + destruct (String.eqb_spec k k'); [contradiction | reflexivity].
    + destruct (String.eqb k0 k'); [reflexivity | exact IH].
Qed.

Section WithRuntime.
Context {W : Type} {clock : Clock W} {crypto : Crypto W}
        {fs : FileSystem W} {pure : Pure}.

(** How a successful [signData] came about. *)
Lemma signData_ok config data key w r w' :
  signData config data key w = (Ok r, w') ->
  exists bytes w1 w2,
    createSign_sign (hash_of (algorithm config)) data key w = (Ok bytes, w1) /\
    export_public key w1 = (Ok (sr_publicKey r), w2) /\
    clock_now w2 = (sr_timestamp r, w') /\
    sr_signature r = algorithm config ++ ":" ++ Base64.encode bytes /\
    sr_algorithm r = algorithm config.
Proof.
  unfold signData, try_catch, bind, ret, throw, Date_now. intros Hrun.
  destruct (String.prefix "RSA" (algorithm config)).
  - step_in Hrun; [|discriminate].
    step_in Hrun; [|discriminate].
    destruct (clock_now w1) as [t w2] eqn:Et.
    injection Hrun as <- <-. eauto 10.
  - destruct (String.prefix "ECDSA" (algorithm config)); [|discriminate].
    step_in Hrun; [|discriminate].
    step_in Hrun; [|discriminate].
    destruct (clock_now w1) as [t w2] eqn:Et.
    injection Hrun as <- <-. eauto 10.
Qed.

(** The order of insertion does not show. Two manifests with the same field
    values at every nesting level, differing only in the order in which the
    keys of the document, of its nested objects and of the objects in its
    arrays were inserted, have the same canonical text once the three
    signature fields are deleted: the serializer visits, at every level,
    the property list made from the sorted keys of the document, which is
    in lexicographic order, and never the insertion order. [signData] and
    [verifySignature] therefore do the same on both: the same signature
    under the same key, the same verdict. What the text holds of a nested
    object is another matter, see [AllowListFacts]. *)
Theorem canonicalize_insertion_order (m1 m2 : obj) :
  wf (JObj m1) -> same_fields (JObj m1) (JObj m2) ->
  Canonical.canonicalize m1 = Canonical.canonicalize m2 /\
  StronglySorted Str.le
    (property_list (Str.sort (keys (Canonical.strip_signature m1)))) /\
  (forall config key (w : W),
     signData config (Canonical.canonicalize m1) key w =
     signData config (Canonical.canonicalize m2) key w) /\
  (forall signature publicKey (w : W),
     verifySignature (Canonical.canonicalize m1) signature publicKey w =
     verifySignature (Canonical.canonicalize m2) signature publicKey w).
Proof.
  intros Hwf Hsf.
  pose proof (CanonicalFacts.canonicalize_same_fields m1 m2 Hwf Hsf) as Heq.
  split; [exact Heq|].
  split; [apply CanonicalFacts.property_list_sorted|].
  split; intros; now rewrite Heq.
Qed.

(** How a successful [signManifest] came about, whatever the document. *)
Lemma signManifest_ok config manifestPath privateKeyPath w r w' :
  signManifest config manifestPath privateKeyPath w = (Ok r, w') ->
  exists text document stripped key written w0 w1 w2,
    readFile manifestPath w = (Ok text, w0) /\
    JSON_parse text = Ok document /\
    without_signature document w0 = (Ok stripped, w0) /\
    readFile privateKeyPath w0 = (Ok key, w1) /\
    signData config (canonical_text stripped) key w1 = (Ok r, w2) /\
    assign_signature stripped r w2 = (Ok written, w2) /\
    writeJSON manifestPath written w2 = (Ok tt, w').
Proof.
  unfold signManifest, try_catch, bind. intros Hrun.
  destruct (readFile manifestPath w) as [[text|e] w0] eqn:Eread; [|discriminate].
  unfold lift in Hrun.
  destruct (JSON_parse text) as [document|] eqn:Eparse; [|discriminate].
  destruct (without_signature document w0) as [[stripped|e] w0'] eqn:Estrip;
    [|discriminate].
  assert (w0' = w0) as ->.
  { destruct document; cbn in Estrip; unfold ret, throw in Estrip; congruence. }
  destruct (readFile privateKeyPath w0) as [[key|e] w1] eqn:Ekey; [|discriminate].
  destruct (signData config (canonical_text stripped) key w1)
    as [[signed|e] w2] eqn:Esign; [|discriminate].
  destruct (assign_signature stripped signed w2) as [[written|e] w2'] eqn:Eassign;
    [|discriminate].
  assert (w2' = w2) as ->.
  { destruct stripped as [ | [|] | | | | ]; cbn in Eassign;
      unfold ret, throw in Eassign; congruence. }
  destruct (writeJSON manifestPath written w2) as [[[]|e] w3] eqn:Ewrite;
    [|discriminate].
  unfold ret in Hrun. injection Hrun as <- <-.
  exists text, document, stripped, key, written, w0, w1, w2. auto 10.
Qed.

(** C8, amended. A successful [signData] returns the algorithm identifier, a
    colon and the base64 text of the bytes the signer produced; the public
    key exported from the private key it was given; and the reading of the
    clock in milliseconds. A successful [signManifest] on a manifest file
    whose document is a JSON object ends by writing the manifest in which
    exactly the fields signature, publicKey and signatureTimestamp hold
    these three values, every other field being that of the stripped
    manifest. *)
Theorem signature_format_and_embedding config :
  (forall data key w r w',
     signData config data key w = (Ok r, w') ->
     exists bytes w1 w2,
       createSign_sign (hash_of (algorithm config)) data key w = (Ok bytes, w1) /\
       export_public key w1 = (Ok (sr_publicKey r), w2) /\
       clock_now w2 = (sr_timestamp r, w') /\
       sr_signature r = algorithm config ++ ":" ++ Base64.encode bytes) /\
  (forall manifestPath privateKeyPath w r w' text w0 manifest,
     signManifest config manifestPath privateKeyPath w = (Ok r, w') ->
     readFile manifestPath w = (Ok text, w0) ->
     JSON_parse text = Ok (JObj manifest) ->
     exists key w1 w2,
       readFile privateKeyPath w0 = (Ok key, w1) /\
       signData config (Canonical.canonicalize manifest) key w1 = (Ok r, w2) /\
       let signed := embed (Canonical.strip_signature manifest) r in
       writeJSON manifestPath (JObj signed) w2 = (Ok tt, w') /\
       get "signature" signed = Some (JStr (sr_signature r)) /\
       get "publicKey" signed = Some (JStr (sr_publicKey r)) /\
       get "signatureTimestamp" signed =
         Some (JNum (number_text (sr_timestamp r))) /\
       forall k, k <> "signature" -> k <> "publicKey" ->
                 k <> "signatureTimestamp" ->
                 get k signed = get k (Canonical.strip_signature manifest)).
Proof.
  split.
  - intros data key w r w' Hrun.
    destruct (signData_ok _ _ _ _ _ _ Hrun) as (bytes & w1 & w2 & ? & ? & ? & ? & ?).
    eauto 10.
  - intros manifestPath privateKeyPath w r w' text w0 manifest Hrun Hread Hparse.
    destruct (signManifest_ok _ _ _ _ _ _ Hrun)
      as (text' & document & stripped & key & written & w0' & w1 & w2
          & Hread' & Hparse' & Hstrip & Hkey & Hsign & Hassign & Hwrite).
    rewrite Hread in Hread'. injection Hread' as <- <-.
    rewrite Hparse in Hparse'. injection Hparse' as <-.
    cbn in Hstrip. unfold ret in Hstrip. injection Hstrip as <-.
    cbn in Hassign. unfold ret in Hassign. injection Hassign as <-.
    exists key, w1, w2.
    split; [exact Hkey|]. split; [exact Hsign|]. simpl.
    split; [exact Hwrite|].
    unfold embed. repeat split.
    + rewrite get_set_other, get_set_other by discriminate.
      apply get_set_same.
    + rewrite get_set_other by discriminate. apply get_set_same.
    + apply get_set_same.
    + intros k Hk1 Hk2 Hk3.
      rewrite !get_set_other by congruence. reflexivity.
Qed.

End WithRuntime.

End SignatureFacts.

(** ** Verification is a value; signing and verifying agree *)

Module VerificationFacts.
Import Eff Json JsonFacts Runtime Signature SignatureFacts.
Local Open Scope eff_scope.

Section WithRuntime.
Context {W : Type} {clock : Clock W} {crypto : Crypto W}
        {fs : FileSystem W} {pure : Pure}.

(** The three shapes of what [verifySignature] returns. *)
Lemma verifySignature_cases data signature publicKey w :
  exists r w', verifySignature data signature publicKey w = (Ok r, w') /\
    ((r = invalid_format /\ w' = w) \/
     (exists e, r = verification_failed e) \/
     (exists text algorithm payload verdict w1,
        signature = JStr text /\
        List.firstn 2 (split_on ":"%char text) = [algorithm; payload] /\
        createVerify_verify (hash_of algorithm) data publicKey
                            (Base64.decode payload) w = (Ok verdict, w1) /\
        isValid r = verdict /\ error r = None /\
        vr_algorithm r = Some algorithm)).
Proof.
  unfold verifySignature, try_catch.
  destruct signature as [ | b | t | text | items | fields ];
    try (eexists _, _; split; [reflexivity | right; left; eauto]).
  destruct (List.firstn 2 (split_on ":"%char text)) as [|algorithm [|payload rest]] eqn:Eparts;
    simpl.
  - eexists _, _. split; [reflexivity | left; auto].
  - rewrite orb_true_r. eexists _, _. split; [reflexivity | left; auto].
  - assert (rest = []) as ->.
    { pose proof (List.firstn_le_length 2 (split_on ":"%char text)) as Hlen.
      rewrite Eparts in Hlen. destruct rest; [reflexivity|].
      simpl in Hlen. lia. }
    destruct algorithm as [|a0 alg]; [|destruct payload as [|p0 pay]]; simpl.
    + eexists _, _. split; [reflexivity | left; auto].
    + eexists _, _. split; [reflexivity | left; auto].
    + unfold bind, Date_now, ret.
      destruct (createVerify_verify (hash_of (String a0 alg)) data publicKey
                                    (Base64.decode (String p0 pay)) w)
        as [[verdict|e] w1] eqn:Everify.
      * destruct (clock_now w1) as [t w2].
        eexists _, _. split; [reflexivity|]. right; right.
        exists text, (String a0 alg), (String p0 pay), verdict, w1.
        simpl. auto 10.
      * eexists _, _. split; [reflexivity | right; left; eauto].
Qed.

Lemma verifyManifest_returns manifestPath publicKeyPath w :
  exists r w', verifyManifest manifestPath publicKeyPath w = (Ok r, w').
Proof.
  unfold verifyManifest, try_catch.
  match goal with |- context [match ?body w with _ => _ end] =>
    destruct (body w) as [[r|e] w'] end.
  - eauto.
  - unfold ret. eauto.
Qed.

(** C3. [verifySignature] and [verifyManifest] always return a result and
    never throw, whatever the data, the signature value and the key. A
    signature text without a colon gives the invalid-format result. An
    exception thrown by the cryptographic check, or by reading the manifest
    file, comes back as a result with [isValid] false and the message after
    "Verification failed: ". Every result of [verifySignature] is a failure
    with an error message, or the verdict of the check with no error. *)
Theorem verification_never_throws
    (data : string) (signature publicKey : json)
    (manifestPath : string) (publicKeyPath : option string) (w : W) :
  (exists r w', verifySignature data signature publicKey w = (Ok r, w') /\
     (forall text, signature = JStr text ->
                   Str.has_char ":"%char text = false ->
                   r = invalid_format) /\
     (forall text algorithm payload e w1,
        signature = JStr text ->
        List.firstn 2 (split_on ":"%char text) = [algorithm; payload] ->
        algorithm <> EmptyString -> payload <> EmptyString ->
        createVerify_verify (hash_of algorithm) data publicKey
                            (Base64.decode payload) w = (Throw e, w1) ->
        r = verification_failed e) /\
     ((isValid r = false /\ exists message, error r = Some message) \/
      error r = None)) /\
  (exists r w', verifyManifest manifestPath publicKeyPath w = (Ok r, w') /\
     (forall e w1, readFile manifestPath w = (Throw e, w1) ->
                   r = verification_failed e)).
Proof.
  split.
  - destruct (verifySignature_cases data signature publicKey w)
      as (r & w' & Hrun & Hshape).
    exists r, w'. split; [exact Hrun|]. split; [|split].
    + intros text -> Hcolon.
      unfold verifySignature, try_catch in Hrun.
      rewrite (split_on_no_sep _ _ Hcolon) in Hrun. simpl in Hrun.
      rewrite orb_true_r in Hrun. unfold ret in Hrun. congruence.
    + intros text algorithm payload e w1 -> Hparts Halg Hpay Hthrow.
      unfold verifySignature, try_catch in Hrun. rewrite Hparts in Hrun.
      destruct algorithm as [|a0 alg]; [congruence|].
      destruct payload as [|p0 pay]; [congruence|].
      simpl in Hrun. unfold bind in Hrun. rewrite Hthrow in Hrun.
      unfold ret in Hrun. congruence.
    + destruct Hshape as [[-> _] | [[e ->] | Hok]].
      * left. simpl. eauto.
      * left. simpl. eauto.
      * destruct Hok as (? & ? & ? & ? & ? & _ & _ & _ & _ & Herr & _). now right.
  - destruct (verifyManifest_returns manifestPath publicKeyPath w)
      as (r & w' & Hrun).
    exists r, w'. split; [exact Hrun|].
    intros e w1 Hread. unfold verifyManifest, try_catch, bind in Hrun.
    rewrite Hread in Hrun. unfold ret in Hrun. congruence.
Qed.

Section RoundTrip.

(** What the key generator promises: its two keys match, and what is
    signed under a private key is a non-empty signature that verifies under
    a matching public key. *)
Variable matching : string -> string -> Prop.

Hypothesis rsa_pairs_match : forall bits w pair w',
  generateKeyPair_rsa bits w = (Ok pair, w') ->
  matching (privateKey pair) (publicKey pair).

Hypothesis ec_pairs_match : forall curve w pair w',
  generateKeyPair_ec curve w = (Ok pair, w') ->
  matching (privateKey pair) (publicKey pair).

Hypothesis signed_verifies : forall private public hash data bytes w w',
  matching private public ->
  createSign_sign hash data private w = (Ok bytes, w') ->
  bytes <> [] /\
  forall w2, exists w3,
    createVerify_verify hash data (JStr public) bytes w2 = (Ok true, w3).

(** The key pair came out of [generateRSAKeyPair] or
    [generateECDSAKeyPair]. *)
Definition generated (pair : KeyPair) : Prop :=
  (exists keySize w w', generateRSAKeyPair keySize w = (Ok pair, w')) \/
  (exists namedCurve w w', generateECDSAKeyPair namedCurve w = (Ok pair, w')).

Lemma generated_matching pair :
  generated pair -> matching (privateKey pair) (publicKey pair).
Proof.
  intros [(k & w & w' & Hgen) | (c & w & w' & Hgen)].
  - eapply rsa_pairs_match, Hgen.
  - eapply ec_pairs_match, Hgen.
Qed.

(** The signature text parses back into the algorithm and the payload. *)
Lemma signature_parts algorithm bytes :
  Str.has_char ":"%char algorithm = false ->
  List.firstn 2 (split_on ":"%char (algorithm ++ ":" ++ Base64.encode bytes))
  = [algorithm; Base64.encode bytes].
Proof.
  intros Halg. change (algorithm ++ ":" ++ Base64.encode bytes)
    with (algorithm ++ String ":"%char (Base64.encode bytes)).
  rewrite split_on_app by exact Halg.
  rewrite split_on_no_sep by apply Base64Facts.encode_no_colon.
  reflexivity.
Qed.

(** C2. For a key pair made by [generateRSAKeyPair] or
    [generateECDSAKeyPair], either supported algorithm and any manifest:
    the signature that [signData] produced over the canonical manifest
    verifies under the public key of the pair, [isValid] being true. *)
Theorem sign_verify_round_trip (config : SignatureConfig) (manifest : obj)
    (pair : KeyPair) (w : W) (r : SignatureResult) (w' : W) :
  algorithm config = "RSA-SHA256" \/ algorithm config = "ECDSA-SHA256" ->
  generated pair ->
  signData config (Canonical.canonicalize manifest) (privateKey pair) w
    = (Ok r, w') ->
  forall w2, exists result w3,
    verifySignature (Canonical.canonicalize manifest)
                    (JStr (sr_signature r)) (JStr (publicKey pair)) w2
      = (Ok result, w3) /\
    isValid result = true /\ error result = None.
Proof.
  intros Halg Hgen Hsign w2.
  apply generated_matching in Hgen.
  destruct (signData_ok _ _ _ _ _ _ Hsign)
    as (bytes & w1 & wk & Hbytes & _ & _ & Htext & _).
  destruct (signed_verifies _ _ _ _ _ _ _ Hgen Hbytes) as [Hne Hverify].
  destruct (Hverify w2) as [w3 Hok].
  assert (Hcolon : Str.has_char ":"%char (algorithm config) = false)
    by (destruct Halg as [-> | ->]; reflexivity).
  assert (Hnonempty : algorithm config <> EmptyString)
    by (destruct Halg as [-> | ->]; discriminate).
  unfold verifySignature, try_catch. rewrite Htext.
  rewrite (signature_parts _ bytes Hcolon).
  pose proof (Base64Facts.encode_nonempty bytes Hne) as Henc.
  pose proof (Base64Facts.decode_encode bytes) as Hdec.
  destruct (Base64.encode bytes) as [|p0 pay]; [congruence|].
  destruct (algorithm config) as [|a0 alg]; [congruence|].
  simpl. unfold bind, Date_now, ret.
  rewrite Hdec, Hok.
  destruct (clock_now w3) as [t w4].
  eexists _, _. split; [reflexivity|]. split; reflexivity.
Qed.

End RoundTrip.

(** What [generateAndSaveKeyPair] does once the pair is there. *)
Definition save_pair (outputDir keyName : string) (pair : KeyPair)
  : M W (string * string) :=
  let privateKeyPath := path_join outputDir (keyName ++ "_private.pem") in
  let publicKeyPath := path_join outputDir (keyName ++ "_public.pem") in
  writeFile privateKeyPath (privateKey pair) ;;;
  writeFile publicKeyPath (publicKey pair) ;;;
  ret (privateKeyPath, publicKeyPath).

(** C10. For ECDSA-SHA256 the curve is chosen from the key size alone: 256
    gives prime256v1, 384 gives secp384r1 and every other key size,
    among them the 2048 that the constructor fills in when none is given,
    gives secp521r1; in no case does the choice itself throw. *)
Theorem ecdsa_curve_by_key_size (given : SignatureConfig)
    (outputDir keyName : string) :
  algorithm given = "ECDSA-SHA256" ->
  let config := DigitalSignature (Some given) in
  let curve :=
    match keySize given with
    | Some 256 => "prime256v1"
    | Some 384 => "secp384r1"
    | Some _ => "secp521r1"
    | None => "secp521r1"
    end in
  (keySize given = None -> keySize config = Some 2048) /\
  generateAndSaveKeyPair config outputDir (Some keyName) =
    (ensureDir outputDir ;;;
     pair <- generateKeyPair_ec curve ;;
     save_pair outputDir keyName pair).
Proof.
  intros Halg config curve. split.
  - unfold config, DigitalSignature. simpl. now intros ->.
  - unfold generateAndSaveKeyPair, generateECDSAKeyPair, save_pair, config,
      DigitalSignature. simpl. rewrite Halg. simpl.
    unfold curve, namedCurve_of.
    destruct (keySize given) as [[|[]|]|]; reflexivity.
Qed.

End WithRuntime.

End VerificationFacts.

(** ** The build loop *)

Module BuilderFacts.
Import Eff Json Runtime Bundle Builder.
Import SignatureFacts.
Local Open Scope eff_scope.

Section WithRuntime.
Context {W : Type} {clock : Clock W} {fs : FileSystem W} {tools : Tools W}
        {pure : Pure} {sha : Sha256}.

Variable config : BuildConfig.

(** One turn of the loop of [buildAllPlatforms]: the pipeline of the
    platform, a throw turned into a failed result. It always yields a
    result. *)
Definition platform_step (platform : string) (w : W) : BuildResult * W :=
  match buildPlatform config platform w with
  | (Ok result, w') => (result, w')
  | (Throw error, w') => (failed platform error, w')
  end.

(** The platforms are processed one after the other, each in the world the
    previous one left, and each contributes its own result. *)
Inductive runs : list string -> W -> list BuildResult -> W -> Prop :=
| runs_nil w : runs [] w [] w
| runs_cons platform rest w result w1 results w2 :
    platform_step platform w = (result, w1) ->
    runs rest w1 results w2 ->
    runs (platform :: rest) w (result :: results) w2.




(** The bundle configuration that [buildPlatform] makes for a platform. *)
Definition bundle_config_of (platform_ entry : string) : BundleConfig :=
  let platformDir := path_join (outputPath config) platform_ in
  let bundleDir := path_join platformDir "bundles" in
  {| entryFile := entry;
     bundlePath :=
       path_join bundleDir
                 (bundleName_or_index config ++ "." ++ platform_ ++ ".bundle");
     assetsDest := path_join platformDir "assets";
     sourcemapOutput :=
       if default false (sourcemap config)
       then Some (path_join bundleDir
                    (bundleName_or_index config ++ "." ++ platform_ ++ ".map"))
       else None;
     bc_platform := platform_; dev := false;
     minify := default false (cfg_minify config) || true;
     resetCache := false |}.



Lemma build_and_push_step acc platform_ w :
  build_and_push config acc platform_ w =
  (Ok (acc ++ [fst (platform_step platform_ w)])%list,
   snd (platform_step platform_ w)).
Proof.
  unfold build_and_push, platform_step, try_catch, bind, ret.
  destruct (buildPlatform config platform_ w) as [[r|e] w1]; reflexivity.
Qed.

Lemma loop_runs platforms_ : forall acc w,
  exists results w',
    for_each (build_and_push config) platforms_ acc w
      = (Ok (acc ++ results)%list, w') /\
    runs platforms_ w results w'.
Proof.
  induction platforms_ as [|p ps IH]; intros acc w; simpl.
  - exists [], w. rewrite List.app_nil_r. split; [reflexivity | constructor].
  - unfold bind. rewrite build_and_push_step.
    destruct (platform_step p w) as [r w1] eqn:Hstep. simpl.
    destruct (IH (acc ++ [r])%list w1) as (rs & w2 & Hloop & Hruns).
    exists (r :: rs), w2. rewrite Hloop, <- List.app_assoc.
    split; [reflexivity|]. econstructor; eassumption.
Qed.






Lemma for_each_invariant {A S} (P : S -> Prop) (step : S -> A -> M W S) :
  (forall s x w s' w', P s -> step s x w = (Ok s', w') -> P s') ->
  forall items s w s' w',
    P s -> for_each step items s w = (Ok s', w') -> P s'.
Proof.
  intros Hstep. induction items as [|x items IH]; simpl; intros s w s' w' Hs.
  - intros [= <- <-]. exact Hs.
  - unfold bind. destruct (step s x w) as [[s1|e] w1] eqn:Hx; [|discriminate].
    apply IH. eapply Hstep; eassumption.
Qed.

(** No record that [analyzeMetroAssets] makes has a [sha256] field. *)
Lemma analyzeMetroAssets_no_sha256 assetsDir w assets w' :
  analyzeMetroAssets assetsDir w = (Ok assets, w') ->
  Forall (fun a => sha256 a = None) assets.
Proof.
  unfold analyzeMetroAssets.
  apply (for_each_invariant (Forall (fun a => sha256 a = None)));
    [|apply List.Forall_nil].
  intros acc dir w1 acc' w1' Hacc. unfold collect_dir, bind.
  destruct (pathExists (path_join assetsDir dir) w1) as [[[]|e] w2];
    try discriminate.
  - destruct (readdir (path_join assetsDir dir) w2) as [[files|e] w3];
      [|discriminate].
    apply (for_each_invariant (Forall (fun a => sha256 a = None)));
      [|exact Hacc].
    intros acc1 file w4 acc2 w5 Hacc1. unfold collect_entry, bind, ret.
    destruct (stat _ w4) as [[stats|e] w6]; [|discriminate].
    destruct (isFile stats); intros [= <- <-]; [|exact Hacc1].
    apply Forall_app. split; [exact Hacc1|]. repeat constructor.
  - intros [= <- <-]. exact Hacc.
Qed.

End WithRuntime.

End BuilderFacts.

(** ** Configuration validation *)

Module ConfigFacts.
Import Eff Json Runtime Config.
Local Open Scope eff_scope.

(** The first platform outside the supported ones, if any. *)
Definition first_invalid_platform (config : HotUpdateConfig) : option string :=
  List.find (fun p => negb (includes validPlatforms p)) (platforms (build config)).

(** A version that passes: none, the empty string, or one [semver] accepts. *)
Definition version_passes {pure : Pure} (config : HotUpdateConfig) : Prop :=
  match version (build config) with
  | Some (String c rest) => semver_valid (String c rest) = true
  | _ => True
  end.

(** An algorithm that passes: none, the empty string, or a supported one. *)
Definition algorithm_passes (sig : SignatureSection) : Prop :=
  match algorithm sig with
  | Some (String c rest) => includes validAlgorithms (String c rest) = true
  | _ => True
  end.

Section WithRuntime.
Context {W : Type} {clock : Clock W} {crypto : Crypto W}
        {fs : FileSystem W} {out : Console W} {pure : Pure}.

Lemma check_platforms_find config (w : W) :
  check_platforms config w =
  match first_invalid_platform config with
  | Some p => (Throw (ErrorObj (invalid_platform p)), w)
  | None => (Ok tt, w)
  end.
Proof.
  unfold check_platforms, first_invalid_platform.
  induction (platforms (build config)) as [|p ps IH]; [reflexivity|].
  cbn [for_each List.find]. unfold bind.
  destruct (negb (includes validPlatforms p)); [reflexivity|].
  unfold ret at 1. exact IH.
Qed.

Lemma check_version_passes config (w : W) :
  version_passes config -> check_version config w = (Ok tt, w).
Proof.
  unfold version_passes, check_version.
  destruct (version (build config)) as [[|c rest]|]; try reflexivity.
  now intros ->.
Qed.

(** The signature settings that [toBuildConfig] hands to the build. *)
Lemma toBuildConfig_signature config w bc w' sig :
  toBuildConfig config w = (Ok bc, w') ->
  signature config = Some sig -> enabled sig = true ->
  exists bs,
    bc_signature bc = Some bs /\
    bs_autoGenerate bs = default true (autoGenerate sig) /\
    bs_privateKeyPath bs =
      (if truthy (privateKeyPath sig)
       then option_map path_resolve (privateKeyPath sig) else None).
Proof.
  unfold toBuildConfig, bind. intros Hrun Hsig Hen.
  match type of Hrun with
  | (let (_, _) := ?m w in _) = _ => destruct (m w) as [[v|e] w1]
  end; [|discriminate].
  unfold ret in Hrun. injection Hrun as <- <-. simpl.
  rewrite Hsig, Hen. eexists. repeat split.
Qed.

(** C6, amended. The checks run in the order project, platforms, version,
    signature, and the first that fails throws an error naming the
    offending value: a project path that does not exist; the first platform
    that is not ios or android; a non-empty version that [semver] rejects;
    and, when signing is enabled, a non-empty algorithm that is not
    RSA-SHA256 or ECDSA-SHA256. When signing is enabled, auto-generation is
    off and the configured private key does not exist, validation succeeds
    after one warning that says the key will be auto-generated; the build
    configuration carries the flag as it was set and the configured key
    path, and the build, finding no key at that path, generates a key pair
    and signs with the private key it has written. *)
Theorem validation_outcomes (config : HotUpdateConfig) (w : W) :
  (forall w1,
     pathExists (path_resolve (path (project config))) w = (Ok false, w1) ->
     validateConfig config w =
       (Throw (ErrorObj (missing_project (path_resolve (path (project config))))),
        w1)) /\
  (forall w1,
     check_project config w = (Ok tt, w1) ->
     (forall p, first_invalid_platform config = Some p ->
        validateConfig config w = (Throw (ErrorObj (invalid_platform p)), w1)) /\
     (first_invalid_platform config = None ->
        (forall v, version (build config) = Some v -> v <> EmptyString ->
           semver_valid v = false ->
           validateConfig config w = (Throw (ErrorObj (invalid_version v)), w1)) /\
        (version_passes config ->
           forall sig, signature config = Some sig -> enabled sig = true ->
             (forall a, algorithm sig = Some a -> a <> EmptyString ->
                includes validAlgorithms a = false ->
                validateConfig config w =
                  (Throw (ErrorObj (invalid_algorithm a)), w1)) /\
             (algorithm_passes sig ->
                forall keyPath w2,
                  default false (autoGenerate sig) = false ->
                  privateKeyPath sig = Some keyPath -> keyPath <> EmptyString ->
                  pathExists (path_resolve keyPath) w1 = (Ok false, w2) ->
                  validateConfig config w =
                    (Ok tt, warn (key_not_found (path_resolve keyPath)) w2) /\
                  forall w3 bc w4,
                    toBuildConfig config w3 = (Ok bc, w4) ->
                    exists bs,
                      bc_signature bc = Some bs /\
                      bs_autoGenerate bs = default true (autoGenerate sig) /\
                      bs_privateKeyPath bs = Some (path_resolve keyPath) /\
                      forall signer keysDir w5 w6,
                        pathExists (path_resolve keyPath) w5 = (Ok false, w6) ->
                        KeyProvision.provide_private_key
                          signer (path_resolve keyPath) keysDir w5
                        = (generated <-
                             Signature.generateAndSaveKeyPair signer keysDir None ;;
                           ret (fst generated)) w6)))).
Proof.
  split.
  - intros w1 Hmissing.
    unfold validateConfig, bind at 1, check_project, bind at 1.
    now rewrite Hmissing.
  - intros w1 Hproject. split; [|intros Hplatforms; split].
    + intros p Hp. unfold validateConfig, bind at 1. rewrite Hproject.
      unfold bind at 1. now rewrite check_platforms_find, Hp.
    + intros v Hv Hne Hbad.
      unfold validateConfig, bind at 1. rewrite Hproject.
      unfold bind at 1. rewrite check_platforms_find, Hplatforms.
      unfold bind at 1, check_version. rewrite Hv.
      destruct v as [|c rest]; [congruence|]. now rewrite Hbad.
    + intros Hversion sig Hsig Hen.
      assert (Hprefix : validateConfig config w = check_signature config w1).
      { unfold validateConfig, bind at 1. rewrite Hproject.
        unfold bind at 1. rewrite check_platforms_find, Hplatforms.
        unfold bind at 1. now rewrite check_version_passes. }
      rewrite Hprefix. unfold check_signature. rewrite Hsig, Hen. split.
      * intros a Ha Hne Hbad. rewrite Ha. simpl.
        destruct a as [|c rest]; [congruence|]. simpl.
        unfold includes in Hbad. unfold bind, includes. simpl in *.
        now rewrite Hbad.
      * intros Halg keyPath w2 Hauto Hkey Hne Hmissing.
        assert (Hcheck :
          (if truthy (algorithm sig) &&
              negb (includes validAlgorithms (default EmptyString (algorithm sig)))
           then throw (ErrorObj
                  (invalid_algorithm (default EmptyString (algorithm sig))))
           else ret tt) w1 = (Ok tt, w1)).
        { unfold algorithm_passes in Halg.
          destruct (algorithm sig) as [[|c rest]|]; try reflexivity.
          simpl. simpl in Halg. now rewrite Halg. }
        split.
        -- unfold bind at 1. rewrite Hcheck, Hauto, Hkey.
           destruct keyPath as [|c rest]; [congruence|]. simpl.
           unfold bind. simpl in Hmissing. now rewrite Hmissing.
        -- intros w3 bc w4 Hbuild.
           destruct (toBuildConfig_signature _ _ _ _ _ Hbuild Hsig Hen)
             as (bs & Hbs & Hflag & Hpath).
           exists bs. split; [exact Hbs|]. split; [exact Hflag|]. split.
           ++ rewrite Hpath, Hkey. now destruct keyPath; [congruence|].
           ++ intros signer keysDir w5 w6 Hgone.
              unfold KeyProvision.provide_private_key, bind at 1.
              now rewrite Hgone.
Qed.

End WithRuntime.

End ConfigFacts.

(** ** Totals of the package index *)

Module PackagesFacts.
Import Eff Json Runtime Packages.
Local Open Scope eff_scope.

(** The arithmetic sum of a field over the packages. *)
Definition sum_of (field : PackageInfo -> Z) (packages : list PackageInfo) : Z :=
  List.fold_right (fun p total => field p + total) 0 packages.

(** The totals after the first package, after the second, and so on, in
    exact arithmetic. *)
Fixpoint running_totals (field : PackageInfo -> Z) (acc : Z)
    (packages : list PackageInfo) : list Z :=
  match packages with
  | [] => []
  | p :: rest => (acc + field p) :: running_totals field (acc + field p) rest
  end.

(** Every total on the way is an integer that a number holds exactly. *)
Definition added_exactly (field : PackageInfo -> Z)
    (packages : list PackageInfo) : Prop :=
  Forall (fun total => Z.abs total <= 2 ^ 53) (running_totals field 0 packages).

Lemma add_exact a b : Z.abs (a + b) <= 2 ^ 53 -> add a b = a + b.
Proof.
  intros Hsmall. unfold add, nearest_number.
  destruct (Z.leb_spec (Z.abs (a + b)) (2 ^ 53)); [reflexivity | lia].
Qed.

(** The running total of [reduce] is the sum, as long as it stays exact. *)
Lemma reduce_sum field packages : forall acc,
  Forall (fun total => Z.abs total <= 2 ^ 53) (running_totals field acc packages) ->
  List.fold_left (fun sum p => add sum (field p)) packages acc
  = acc + sum_of field packages.
Proof.
  induction packages as [|p ps IH]; simpl; intros acc Hexact; [lia|].
  inversion Hexact as [|total totals Hhead Htail]; subst.
  rewrite (add_exact _ _ Hhead), (IH _ Htail). lia.
Qed.

Section WithRuntime.
Context {W : Type} {clock : Clock W} {fs : FileSystem W} {pure : Pure}.

(** C9, amended. All that [generatePackageManifest] does after reading the
    clock is to write, into packages-manifest.json of the output directory,
    an index in which [totalPackages] is the number of packages given and,
    in the summary, [totalSize] is the sum of their bundle sizes and
    [totalAssets] the sum of their asset counts, for packages whose sizes
    and counts add up exactly: every total on the way, after the first
    package, the second, and so on, is at most 2^53 in magnitude. *)
Theorem package_index_totals (packages : list PackageInfo) (outputDir : string)
    (w : W) :
  added_exactly bundleSize packages ->
  added_exactly assetCount packages ->
  exists generated w1 index summary,
    clock_iso w = (generated, w1) /\
    generatePackageManifest packages outputDir w =
      writeJSON (path_join outputDir "packages-manifest.json") (JObj index) w1 /\
    get "totalPackages" index =
      Some (JNum (Signature.number_text (Z.of_nat (List.length packages)))) /\
    get "summary" index = Some (JObj summary) /\
    get "totalSize" summary =
      Some (JNum (Signature.number_text (sum_of bundleSize packages))) /\
    get "totalAssets" summary =
      Some (JNum (Signature.number_text (sum_of assetCount packages))).
Proof.
  intros Hsizes Hcounts.
  unfold generatePackageManifest, bind, Date_toISOString.
  destruct (clock_iso w) as [generated w1].
  exists generated, w1, (package_index generated packages). eexists.
  split; [reflexivity|]. split; [reflexivity|].
  split; [reflexivity|]. split; [reflexivity|]. simpl.
  unfold totalSize, totalAssets.
  rewrite (reduce_sum _ _ _ Hsizes), (reduce_sum _ _ _ Hcounts).
  split; reflexivity.
Qed.

End WithRuntime.

End PackagesFacts.

(** ** The code at work on the small runtime *)

Module Runs.
Import Eff Json Runtime Toy.
Local Open Scope eff_scope.

(** *** Signing *)

Definition rsa_config : Signature.SignatureConfig := Signature.DigitalSignature None.

Definition rsa_pair : KeyPair :=
  {| privateKey := "rsa-2048"; publicKey := "rsa-2048" |}.

Definition signed_a : Signature.SignatureResult :=
  match fst (Signature.signData rsa_config
               (Canonical.canonicalize Samples.manifest_a)
               (privateKey rsa_pair) empty_world) with
  | Ok r => r
  | Throw _ =>
      {| Signature.sr_signature := EmptyString;
         Signature.sr_algorithm := EmptyString;
         Signature.sr_publicKey := EmptyString;
         Signature.sr_timestamp := 0 |}
  end.

Lemma canonicalize_insertion_order_witness :
  Canonical.canonicalize Samples.manifest_a
    = Canonical.canonicalize Samples.manifest_b /\
  Signature.signData rsa_config
    (Canonical.canonicalize Samples.manifest_a) "rsa-2048" empty_world
  = Signature.signData rsa_config
    (Canonical.canonicalize Samples.manifest_b) "rsa-2048" empty_world.
Proof.
  destruct (SignatureFacts.canonicalize_insertion_order
              (W := world) Samples.manifest_a Samples.manifest_b
              CanonicalFacts.manifest_a_wf
              CanonicalFacts.manifest_a_b_same_fields)
    as (Htext & _ & Hsign & _).
  split; [exact Htext | apply Hsign].
Defined.

Lemma toy_pairs_match_rsa : forall bits (w : world) pair w',
  generateKeyPair_rsa bits w = (Ok pair, w') ->
  privateKey pair = publicKey pair.
Proof. intros bits w pair w' [= <- _]. reflexivity. Defined.

Lemma toy_pairs_match_ec : forall curve (w : world) pair w',
  generateKeyPair_ec curve w = (Ok pair, w') ->
  privateKey pair = publicKey pair.
Proof. intros curve w pair w' [= <- _]. reflexivity. Defined.

Lemma toy_signed_verifies :
  forall private public hash data bytes (w w' : world),
    private = public ->
    createSign_sign hash data private w = (Ok bytes, w') ->
    bytes <> [] /\
    forall w2, exists w3,
      createVerify_verify hash data (JStr public) bytes w2 = (Ok true, w3).
Proof.
  intros private public hash data bytes w w' <- Hsign.
  simpl in *. unfold toy_sign in Hsign. unfold toy_verify.
  destruct hash as [h|]; [|discriminate].
  injection Hsign as <- <-. split.
  - unfold toy_signature. rewrite StrFacts.to_list_app.
    destruct (Str.to_list private); discriminate.
  - intros w2. exists w2. unfold toy_signature, ret.
    now rewrite StrFacts.of_to_list, String.eqb_refl.
Defined.

Lemma sign_verify_round_trip_witness :
  exists result w3,
    Signature.verifySignature
      (Canonical.canonicalize Samples.manifest_a)
      (JStr (Signature.sr_signature signed_a)) (JStr (publicKey rsa_pair))
      empty_world = (Ok result, w3) /\
    Signature.isValid result = true /\ Signature.error result = None.
Proof.
  apply (VerificationFacts.sign_verify_round_trip
           eq toy_pairs_match_rsa toy_pairs_match_ec toy_signed_verifies
           rsa_config Samples.manifest_a rsa_pair empty_world signed_a
           {| clock := 1700000000001; nodes := []; console := [] |}).
  - left. reflexivity.
  - left. exists (Some 2048), empty_world, empty_world. reflexivity.
  - vm_compute. reflexivity.
Defined.

Lemma verification_never_throws_witness :
  exists r w',
    Signature.verifySignature "data" (JStr "no separator here") (JStr "rsa-2048")
                              empty_world = (Ok r, w') /\
    r = Signature.invalid_format.
Proof.
  destruct (VerificationFacts.verification_never_throws
              (W := world) "data" (JStr "no separator here") (JStr "rsa-2048")
              "out/manifest.json" None empty_world)
    as [(r & w' & Hrun & Hformat & _) _].
  exists r, w'. split; [exact Hrun|].
  apply (Hformat "no separator here"); reflexivity.
Defined.

(** A manifest whose signature is a number, and a manifest file that is not
    there: both come back as failed verifications. *)
Example verifyManifest_reports_failures :
  fst (Signature.verifyManifest "missing.json" None empty_world)
  = Ok (Signature.verification_failed
          (ErrorObj "ENOENT: no such file or directory, open 'missing.json'")) /\
  fst (Signature.verifySignature "data" (JNum "5") (JStr "rsa-2048") empty_world)
  = Ok (Signature.verification_failed
          (ErrorObj "signatureWithAlgorithm.split is not a function")).
Proof. split; vm_compute; reflexivity. Qed.

Definition signing_world : world :=
  {| clock := 1700000000000;
     nodes := [ ("keys/private.pem", File "rsa-2048" 0);
                ("out/manifest.json", File "<manifest a>" 0) ];
     console := [] |}.

Definition signed_data : Signature.SignatureResult :=
  {| Signature.sr_signature := "RSA-SHA256:cnNhLTIwNDh8ZGF0YQ==";
     Signature.sr_algorithm := "RSA-SHA256";
     Signature.sr_publicKey := "rsa-2048";
     Signature.sr_timestamp := 1700000000000 |}.

Definition ticked_world : world :=
  {| clock := 1700000000001; nodes := []; console := [] |}.

Lemma signature_format_and_embedding_witness :
  (exists bytes w1 w2,
     createSign_sign (Signature.hash_of (Signature.algorithm rsa_config))
                     "data" "rsa-2048" empty_world = (Ok bytes, w1) /\
     export_public "rsa-2048" w1
       = (Ok (Signature.sr_publicKey signed_data), w2) /\
     clock_now w2 = (Signature.sr_timestamp signed_data, ticked_world) /\
     Signature.sr_signature signed_data
     = Signature.algorithm rsa_config ++ ":" ++ Base64.encode bytes) /\
  (exists r w',
     Signature.signManifest rsa_config "out/manifest.json" "keys/private.pem"
                            signing_world = (Ok r, w') /\
     get "signature" (Signature.embed
                        (Canonical.strip_signature Samples.manifest_a) r)
     = Some (JStr (Signature.sr_signature r))).
Proof.
  pose proof (SignatureFacts.signature_format_and_embedding
                (W := world) rsa_config) as [Hdata Hmanifest].
  split.
  - apply (Hdata "data" "rsa-2048" empty_world signed_data ticked_world).
    vm_compute. reflexivity.
  - destruct (Signature.signManifest rsa_config "out/manifest.json"
                "keys/private.pem" signing_world) as [[r|e] w'] eqn:Hrun;
      [|vm_compute in Hrun; discriminate].
    exists r, w'. split; [reflexivity|].
    destruct (Hmanifest _ _ _ _ _ "<manifest a>" signing_world
                        Samples.manifest_a Hrun)
      as (key & w1 & w2 & _ & _ & _ & Hsig & _).
    + vm_compute. reflexivity.
    + vm_compute. reflexivity.
    + exact Hsig.
Defined.

(** The manifest file holds the array [[1]]. *)
Definition list_world : world :=
  {| clock := 1700000000000;
     nodes := [ ("keys/private.pem", File "rsa-2048" 0);
                ("out/manifest.json", File "[1]" 0) ];
     console := [] |}.

(** C8 as stated fails on a manifest file whose document is an array:
    [signManifest] signs it and returns the signature, and the file it
    writes back is the array as it was, with no signature, publicKey or
    signatureTimestamp in it; [verifyManifest] finds no signature there. *)
Lemma array_manifest_is_written_back_unsigned :
  exists r w',
    Signature.signManifest rsa_config "out/manifest.json" "keys/private.pem"
                           list_world = (Ok r, w') /\
    Signature.sr_signature r = "RSA-SHA256:cnNhLTIwNDh8WzFd" /\
    readFile "out/manifest.json" w' = (Ok "[1]", w') /\
    JSON_parse "[1]" = Ok (JArr [JNum "1"]) /\
    ~ (exists text w0 manifest,
         readFile "out/manifest.json" w' = (Ok text, w0) /\
         JSON_parse text = Ok (JObj manifest) /\
         get "signature" manifest = Some (JStr (Signature.sr_signature r))) /\
    fst (Signature.verifyManifest "out/manifest.json" None w')
    = Ok Signature.no_signature.
Proof.
  destruct (Signature.signManifest rsa_config "out/manifest.json"
              "keys/private.pem" list_world) as [r w'] eqn:Hrun.
  vm_compute in Hrun. injection Hrun as <- <-.
  eexists _, _. split; [reflexivity|].
  split; [vm_compute; reflexivity|].
  split; [vm_compute; reflexivity|].
  split; [vm_compute; reflexivity|].
  split; [|vm_compute; reflexivity].
  intros (text & w0 & manifest & Hread & Hparse & _).
  vm_compute in Hread. injection Hread as <- _.
  vm_compute in Hparse. discriminate.
Qed.

(** A manifest file that holds a number is signed too, and only then does
    the assignment of the signature throw: the clock has been read, and the
    file is as it was. *)
Example number_manifest_is_refused_after_signing :
  let out := Signature.signManifest rsa_config "out/manifest.json"
               "keys/private.pem"
               {| clock := 1700000000000;
                  nodes := [ ("keys/private.pem", File "rsa-2048" 0);
                             ("out/manifest.json", File "5" 0) ];
                  console := [] |} in
  fst out = Throw (ErrorObj ("Failed to sign manifest: Cannot create property "
                             ++ "'signature' on number '5'")) /\
  clock (snd out) = 1700000000001 /\
  get "out/manifest.json" (nodes (snd out)) = Some (File "5" 0).
Proof. vm_compute. repeat split. Qed.

Definition ecdsa_given : Signature.SignatureConfig :=
  {| Signature.algorithm := "ECDSA-SHA256";
     Signature.privateKeyPath := None; Signature.publicKeyPath := None;
     Signature.keySize := None |}.

Lemma ecdsa_curve_by_key_size_witness :
  Signature.keySize (Signature.DigitalSignature (Some ecdsa_given)) = Some 2048 /\
  Signature.generateAndSaveKeyPair
    (Signature.DigitalSignature (Some ecdsa_given)) "keys" (Some "hotupdate")
  = (ensureDir "keys" ;;;
     pair <- generateKeyPair_ec "secp521r1" ;;
     VerificationFacts.save_pair (W := world) "keys" "hotupdate" pair).
Proof.
  destruct (VerificationFacts.ecdsa_curve_by_key_size
              (W := world) ecdsa_given "keys" "hotupdate" eq_refl)
    as [Hdefault Hrun].
  split; [apply Hdefault; reflexivity | exact Hrun].
Defined.

(** With the default key size the keys written are those of secp521r1. *)
Example default_ecdsa_keys_are_p521 :
  get "keys/hotupdate_private.pem"
      (nodes (snd (Signature.generateAndSaveKeyPair
                     (Signature.DigitalSignature (Some ecdsa_given))
                     "keys" None empty_world)))
  = Some (File "ec-secp521r1" 1700000000000).
Proof. vm_compute. reflexivity. Qed.

End Runs.

Module BuildRuns.
Import Eff Json Runtime Toy Bundle Builder.
Local Open Scope eff_scope.

(** *** The build loop *)

Definition three_platforms : BuildConfig :=
  {| platforms := ["ios"; "android"; "windows"]; version := "1.0.0";
     projectPath := "proj"; outputPath := "out"; bundleName := None;
     sourcemap := None; cfg_minify := None |}.





(** *** Asset collection *)

Definition assets_world : world :=
  {| clock := 1700000000000;
     nodes :=
       [ ("out/android/assets/drawable-mdpi", Dir ["logo.png"]);
         ("out/android/assets/drawable-mdpi/logo.png", File "PNG bytes" 1694123456789) ];
     console := [] |}.

(** C5 at a failing input: the record that [analyzeMetroAssets] makes for a
    file in a density directory carries the time-stamp token and no SHA-256
    content hash. *)
Theorem metro_asset_has_no_content_hash :
  analyzeMetroAssets "out/android/assets" assets_world =
  (Ok [ {| name := "logo.png"; type := "png";
           httpServerLocation := "drawable-mdpi/logo.png";
           scales := ["1"]; hash := "1694123456789"; sha256 := None |} ],
   assets_world).
Proof. vm_compute. reflexivity. Qed.

Definition supplementary_world : world :=
  {| clock := 1700000000000;
     nodes := [ ("proj/assets/font.ttf", File "ab" 1694123456789) ];
     console := [] |}.

(** The sibling path: a supplementary file copied by [copyAssets] does get
    the digest of its streamed bytes (here the toy digest of two bytes). *)
Example copied_asset_has_content_hash :
  fst (copyAssets "proj" ["assets/**/*"] "out/android/assets" []
                  supplementary_world)
  = Ok [ {| name := "font.ttf"; type := "ttf";
            httpServerLocation := "assets/assets/font.ttf";
            scales := ["1"]; hash := "1694123456789";
            sha256 := Some "6162" |} ].
Proof. vm_compute. reflexivity. Qed.

(** *** The consistency check *)

Definition bundle_text : string :=
  "var logo = require('./img/logo.png'); import bg from './img/bg.jpg';".

Definition bundle_world : world :=
  {| clock := 1700000000000;
     nodes := [ ("out/android/bundles/index.android.bundle", File bundle_text 0) ];
     console := [] |}.

(** C7 at a failing input: a bundle with a static [require] and a static
    [import] of images, and no asset on disk. The patterns want a closing
    square bracket after the closing quote, so no reference is extracted and
    no warning is produced. *)
Theorem static_require_is_not_extracted :
  bundle_references bundle_text = [] /\
  verifyAssetConsistency "out/android/bundles/index.android.bundle"
                         "out/android/assets" bundle_world
  = (Ok {| valid := true; warnings := [] |}, bundle_world).
Proof. split; vm_compute; reflexivity. Qed.

(** What the patterns do match: the same text with a square bracket where
    the parenthesis closes the call. *)
Example bracket_is_extracted :
  bundle_references "var logo = require('./img/logo.png'];" = ["./img/logo.png"] /\
  verifyAssetConsistency "b" "out/android/assets"
    {| clock := 0; nodes := [("b", File "require('./img/logo.png']" 0)];
       console := [] |}
  = (Ok {| valid := false;
           warnings := [warning_for "./img/logo.png"] |},
     {| clock := 0; nodes := [("b", File "require('./img/logo.png']" 0)];
        console := [] |}).
Proof. split; vm_compute; reflexivity. Qed.

(** The white space of an import may be a no-break space or a line
    separator as well as a blank. *)
Example import_white_space :
  bundle_references "import bg from './img/bg.jpg']" = ["./img/bg.jpg"] /\
  bundle_references
    ("import" ++ Regex.utf8 [194; 160]%N ++ "bg" ++ Regex.utf8 [226; 128; 168]%N
     ++ "from" ++ Regex.utf8 [9; 227; 128; 128]%N ++ "'./img/bg.jpg']")
    = ["./img/bg.jpg"] /\
  bundle_references "importbg from './img/bg.jpg']" = [].
Proof. repeat split; vm_compute; reflexivity. Qed.

End BuildRuns.

Module ConfigRuns.
Import Eff Json Runtime Toy Config.
Local Open Scope eff_scope.

Definition project_world : world :=
  {| clock := 1700000000000;
     nodes := [ ("proj", Dir ["package.json"]);
                ("proj/package.json", File "<package.json>" 0) ];
     console := [] |}.

(** Signing enabled, auto-generation switched off, and a private key path
    where there is no file. *)
Definition missing_key_config : HotUpdateConfig :=
  {| project := {| path := "proj"; entryFile := None |};
     build := {| platforms := ["ios"; "android"]; version := Some "1.2.0";
                 outputPath := "out"; bundleName := Some "index";
                 sourcemap := Some false; minify := Some true |};
     signature :=
       Some {| enabled := true; algorithm := Some "RSA-SHA256";
               privateKeyPath := Some "keys/missing.pem";
               publicKeyPath := None; autoGenerate := Some false |} |}.

Definition warned_world : world :=
  {| clock := 1700000000000; nodes := nodes project_world;
     console := [key_not_found "keys/missing.pem"] |}.

(** Validation warns and succeeds, and changes nothing: the build
    configuration still has the flag off and the path of the key that is
    not there. *)
Example missing_key_warns_and_keeps_the_settings :
  validateConfig missing_key_config project_world = (Ok tt, warned_world) /\
  exists bc bs,
    fst (toBuildConfig missing_key_config warned_world) = Ok bc /\
    bc_signature bc = Some bs /\
    bs_autoGenerate bs = false /\
    bs_privateKeyPath bs = Some "keys/missing.pem".
Proof.
  split; [vm_compute; reflexivity|].
  eexists _, _. split; [vm_compute; reflexivity|].
  split; [reflexivity|]. split; reflexivity.
Qed.

Lemma validation_outcomes_witness :
  validateConfig missing_key_config project_world
    = (Ok tt, warn (key_not_found "keys/missing.pem") project_world) /\
  (forall w3 bc w4,
     toBuildConfig missing_key_config w3 = (Ok bc, w4) ->
     exists bs,
       bc_signature bc = Some bs /\ bs_autoGenerate bs = false /\
       bs_privateKeyPath bs = Some "keys/missing.pem" /\
       forall signer keysDir w5 w6,
         pathExists "keys/missing.pem" w5 = (Ok false, w6) ->
         KeyProvision.provide_private_key signer "keys/missing.pem" keysDir w5
         = (generated <-
              Signature.generateAndSaveKeyPair signer keysDir None ;;
            ret (fst generated)) w6).
Proof.
  destruct (ConfigFacts.validation_outcomes missing_key_config project_world)
    as [_ Hchecks].
  destruct (Hchecks project_world) as [_ Hplatforms]; [vm_compute; reflexivity|].
  destruct (Hplatforms eq_refl) as [_ Hversion].
  destruct (Hversion eq_refl _ eq_refl eq_refl) as [_ Hkey].
  exact (Hkey eq_refl "keys/missing.pem" project_world
              eq_refl eq_refl ltac:(discriminate) eq_refl).
Defined.

(** After the warning, the build finds no key at the configured path and
    writes a new pair into its key directory. *)
Example missing_key_is_generated :
  let out := KeyProvision.provide_private_key
               (Signature.DigitalSignature
                  (Some {| Signature.algorithm := "RSA-SHA256";
                           Signature.privateKeyPath := None;
                           Signature.publicKeyPath := None;
                           Signature.keySize := Some 2048 |}))
               "keys/missing.pem" "out/keys" warned_world in
  fst out = Ok "out/keys/hotupdate_private.pem" /\
  get "out/keys/hotupdate_private.pem" (nodes (snd out))
    = Some (File "rsa-2048" 1700000000000) /\
  get "out/keys/hotupdate_public.pem" (nodes (snd out))
    = Some (File "rsa-2048" 1700000000000) /\
  get "keys/missing.pem" (nodes (snd out)) = None.
Proof. vm_compute. repeat split. Qed.

(** The four failures, each on a configuration with that one defect. *)
Example invalid_platform_fails :
  fst (validateConfig
         {| project := project missing_key_config;
            build := {| platforms := ["ios"; "web"]; version := Some "1.2.0";
                        outputPath := "out"; bundleName := None;
                        sourcemap := None; minify := None |};
            signature := None |} project_world)
  = Throw (ErrorObj "Invalid platform: web. Valid platforms: ios, android").
Proof. vm_compute. reflexivity. Qed.

Example invalid_version_fails :
  fst (validateConfig
         {| project := project missing_key_config;
            build := {| platforms := ["ios"]; version := Some "1.2";
                        outputPath := "out"; bundleName := None;
                        sourcemap := None; minify := None |};
            signature := None |} project_world)
  = Throw (ErrorObj
      "Invalid version format: 1.2. Use semantic versioning (e.g., 1.0.0)").
Proof. vm_compute. reflexivity. Qed.

Example invalid_algorithm_fails :
  fst (validateConfig
         {| project := project missing_key_config;
            build := build missing_key_config;
            signature :=
              Some {| enabled := true; algorithm := Some "MD5";
                      privateKeyPath := None; publicKeyPath := None;
                      autoGenerate := Some true |} |} project_world)
  = Throw (ErrorObj
      "Invalid signature algorithm: MD5. Valid algorithms: RSA-SHA256, ECDSA-SHA256").
Proof. vm_compute. reflexivity. Qed.

Example missing_project_fails :
  fst (validateConfig missing_key_config empty_world)
  = Throw (ErrorObj "Project path does not exist: proj").
Proof. vm_compute. reflexivity. Qed.

End ConfigRuns.

Module PackageRuns.
Import Eff Json Runtime Toy Packages.
Local Open Scope eff_scope.

Definition two_packages : list PackageInfo :=
  [ {| platform := "ios"; version := "1.0.0"; timestamp := "2025-01-01";
       bundleSize := 1572864; assetCount := 3;
       zipPath := "out/ios-1.0.0.zip"; manifest := None |};
    {| platform := "android"; version := "1.0.0"; timestamp := "2025-01-01";
       bundleSize := 2097152; assetCount := 4;
       zipPath := "out/android-1.0.0.zip";
       manifest := Some (JObj [("bundleHash", JStr "1694123456789")]) |} ].

(** The index written for two packages. *)
Example index_of_two_packages :
  exists w',
    generatePackageManifest two_packages "out" empty_world = (Ok tt, w') /\
    toy_readFile "out/packages-manifest.json" w' =
      (Ok (print (JObj (package_index "2025-01-01T00:00:00.000Z"
                                      two_packages))), w') /\
    get "totalPackages"
        (package_index "2025-01-01T00:00:00.000Z" two_packages)
      = Some (JNum "2") /\
    totalSize two_packages = 3670016 /\ totalAssets two_packages = 7.
Proof.
  eexists. split; [vm_compute; reflexivity|].
  split; [vm_compute; reflexivity|]. repeat split.
Qed.

Lemma package_index_totals_witness :
  exists generated w1 index summary,
    clock_iso empty_world = (generated, w1) /\
    generatePackageManifest two_packages "out" empty_world =
      writeJSON (path_join "out" "packages-manifest.json") (JObj index) w1 /\
    get "totalPackages" index = Some (JNum "2") /\
    get "summary" index = Some (JObj summary) /\
    get "totalSize" summary = Some (JNum "3670016") /\
    get "totalAssets" summary = Some (JNum "7").
Proof.
  refine (PackagesFacts.package_index_totals
            (W := world) two_packages "out" empty_world _ _);
    repeat constructor; vm_compute; discriminate.
Defined.

(** Two packages, the first of 2^53 bytes, the second of one byte. *)
Definition huge_packages : list PackageInfo :=
  [ {| platform := "ios"; version := "1.0.0"; timestamp := "2025-01-01";
       bundleSize := 9007199254740992; assetCount := 1;
       zipPath := "out/ios-1.0.0.zip"; manifest := None |};
    {| platform := "android"; version := "1.0.0"; timestamp := "2025-01-01";
       bundleSize := 1; assetCount := 1;
       zipPath := "out/android-1.0.0.zip"; manifest := None |} ].

(** C9 as stated fails where the sum is not a number: after 2^53 bytes, one
    more byte leaves the total where it was, and the index written says
    9007199254740992 where the sum is 9007199254740993. *)
Lemma total_size_is_rounded_beyond_2_53 :
  PackagesFacts.sum_of bundleSize huge_packages = 9007199254740993 /\
  totalSize huge_packages = 9007199254740992 /\
  exists generated w1 summary,
    clock_iso empty_world = (generated, w1) /\
    generatePackageManifest huge_packages "out" empty_world =
      writeJSON (path_join "out" "packages-manifest.json")
                (JObj (package_index generated huge_packages)) w1 /\
    get "summary" (package_index generated huge_packages)
      = Some (JObj summary) /\
    get "totalSize" summary = Some (JNum "9007199254740992") /\
    get "totalSize" summary <>
      Some (JNum (Signature.number_text
                    (PackagesFacts.sum_of bundleSize huge_packages))).
Proof.
  split; [reflexivity|]. split; [vm_compute; reflexivity|].
  eexists _, _, _. split; [reflexivity|]. split; [reflexivity|].
  split; [reflexivity|]. split; [vm_compute; reflexivity|].
  vm_compute. discriminate.
Qed.

(** Rounding goes to the even neighbour on a tie, and up past it. *)
Example sums_beyond_2_53 :
  add 9007199254740992 1 = 9007199254740992 /\
  add 9007199254740992 2 = 9007199254740994 /\
  add 9007199254740992 3 = 9007199254740996 /\
  add 9007199254740994 1 = 9007199254740996 /\
  add (-9007199254740992) (-1) = -9007199254740992 /\
  add 18014398509481984 3 = 18014398509481988 /\
  add 9007199254740991 1 = 9007199254740992.
Proof. repeat split; vm_compute; reflexivity. Qed.

Example size_text_of_a_package :
  megabytes_fixed2 1572864 = "1.50" /\ megabytes_fixed2 5243 = "0.01".
Proof. split; vm_compute; reflexivity. Qed.

End PackageRuns.

(** ** What the canonical text covers *)

Module AllowListFacts.
Import Json JsonFacts Canonical.

(** What an array replacer lets through: at every depth, an object keeps
    only the properties the list names. *)
Fixpoint restrict (K : list string) (v : json) {struct v} : json :=
  match v with
  | JArr items => JArr (List.map (restrict K) items)
  | JObj fields =>
      JObj (List.filter (fun kv => List.existsb (String.eqb (fst kv)) K)
              (List.map (fun kv => (fst kv, restrict K (snd kv))) fields))
  | _ => v
  end.

(** A manifest whose nested values keep only the properties named like a
    top-level key of the manifest (the signature fields apart). *)
Definition prune (manifest : obj) : obj :=
  let K := property_list (Str.sort (keys (strip_signature manifest))) in
  List.map (fun kv => (fst kv, restrict K (snd kv))) manifest.

Lemma members_ext_in (own1 own2 : list (string * string)) (K : list string) :
  (forall key, In key K -> member own1 key = member own2 key) ->
  omap (member own1) K = omap (member own2) K.
Proof.
  induction K as [|key K IH]; intros Hmem; [reflexivity|].
  cbn [omap list_omap]. rewrite (Hmem key) by now left.
  rewrite IH by (intros k Hk; apply Hmem; now right).
  reflexivity.
Qed.

Lemma get_allowed (ser : json -> string) (g : json -> json) K key
    (fields : obj) :
  In key K ->
  Forall (fun kv => ser (g (snd kv)) = ser (snd kv)) fields ->
  get key (List.map (fun kv => (fst kv, ser (snd kv)))
             (List.filter (fun kv => List.existsb (String.eqb (fst kv)) K)
                (List.map (fun kv => (fst kv, g (snd kv))) fields)))
  = get key (List.map (fun kv => (fst kv, ser (snd kv))) fields).
Proof.
  intros Hkey. induction 1 as [|[k v] fields Hv _ IH]; [reflexivity|].
  cbn [List.map List.filter fst snd].
  destruct (List.existsb (String.eqb k) K) eqn:Hk; cbn [List.map get fst snd].
  - simpl in Hv. rewrite Hv, IH. reflexivity.
  - destruct (String.eqb_spec k key) as [->|Hne]; [|exact IH].
    exfalso. apply Bool.not_true_iff_false in Hk. apply Hk.
    apply List.existsb_exists. exists key. split; [exact Hkey|].
    apply String.eqb_refl.
Qed.

(** The serializer never looks at a property the list does not name. *)
Lemma serialize_restrict K v : serialize K (restrict K v) = serialize K v.
Proof.
  induction v as [ | b | t | s | items IH | fields IH ] using json_ind;
    try reflexivity.
  - simpl. do 3 f_equal. rewrite List.map_map.
    induction IH as [|x xs Hx _ IHxs]; simpl; congruence.
  - cbn [restrict serialize]. do 3 f_equal.
    apply members_ext_in. intros key Hkey. unfold member.
    now rewrite (get_allowed (serialize K) (restrict K) K key fields Hkey IH).
Qed.

Lemma delete_map {A} (g : A -> A) k (f : list (string * A)) :
  delete k (List.map (fun kv => (fst kv, g (snd kv))) f)
  = List.map (fun kv => (fst kv, g (snd kv))) (delete k f).
Proof.
  unfold delete. induction f as [|[k' v] f IH]; simpl; [reflexivity|].
  destruct (negb (String.eqb k' k)); simpl; congruence.
Qed.

Lemma keys_map {A} (g : A -> A) (f : list (string * A)) :
  keys (List.map (fun kv => (fst kv, g (snd kv))) f) = keys f.
Proof.
  unfold keys. rewrite List.map_map. reflexivity.
Qed.

Lemma strip_signature_map (g : json -> json) (m : obj) :
  strip_signature (List.map (fun kv => (fst kv, g (snd kv))) m)
  = List.map (fun kv => (fst kv, g (snd kv))) (strip_signature m).
Proof. unfold strip_signature. now rewrite !delete_map. Qed.

Lemma serialize_object_values K (g : json -> json) (fields : obj) :
  (forall v, serialize K (g v) = serialize K v) ->
  serialize K (JObj (List.map (fun kv => (fst kv, g (snd kv))) fields))
  = serialize K (JObj fields).
Proof.
  intros Hg. cbn [serialize]. rewrite List.map_map.
  rewrite (List.map_ext _ (fun kv => (fst kv, serialize K (snd kv))));
    [reflexivity|].
  intros [k v]. simpl. now rewrite Hg.
Qed.

Lemma canonicalize_prune (m : obj) : canonicalize (prune m) = canonicalize m.
Proof.
  unfold canonicalize, prune, stringify.
  rewrite strip_signature_map, keys_map.
  apply serialize_object_values, serialize_restrict.
Qed.

(** X1. The canonical text that is signed and verified covers, below the
    top level of the manifest, only the properties whose name is also a
    top-level key: pruning every nested value down to those properties
    leaves the canonical text unchanged, so two manifests that agree after
    pruning have the same canonical text, whatever else their nested
    objects hold. *)
Theorem canonical_text_ignores_unlisted_nested_keys (m : obj) :
  canonicalize (prune m) = canonicalize m /\
  (forall m', prune m = prune m' -> canonicalize m = canonicalize m').
Proof.
  split; [apply canonicalize_prune|].
  intros m' Hsame.
  rewrite <- (canonicalize_prune m), <- (canonicalize_prune m').
  now rewrite Hsame.
Qed.

End AllowListFacts.

(** ** The manifest that [generateHotUpdateManifest] writes *)

Module ManifestFacts.
Import Json JsonFacts Canonical Runtime Bundle Builder AllowListFacts.

Section WithRuntime.
Context {pure : Pure}.




End WithRuntime.

End ManifestFacts.

(** ** Signing a manifest file and verifying it again *)

Module ManifestSigningFacts.
Import Eff Json JsonFacts Runtime Canonical Signature SignatureFacts.
Local Open Scope eff_scope.

Lemma delete_set_same {A} k (v : A) f : delete k (set k v f) = delete k f.
Proof.
  unfold delete. induction f as [|[k' x] f IH]; simpl.
  - now rewrite String.eqb_refl.
  - destruct (String.eqb k' k) eqn:E; simpl; rewrite E; simpl; congruence.
Qed.

Lemma delete_set_other {A} k k' (v : A) f :
  k <> k' -> delete k (set k' v f) = set k' v (delete k f).
Proof.
  intros Hne. unfold delete. induction f as [|[k0 x] f IH]; simpl.
  - destruct (String.eqb_spec k' k); [congruence | reflexivity].
  - destruct (String.eqb_spec k0 k') as [->|Hk0]; simpl.
    + destruct (String.eqb_spec k' k); [congruence|]. simpl.
      now rewrite String.eqb_refl.
    + destruct (String.eqb_spec k0 k); simpl; [exact IH|].
      destruct (String.eqb_spec k0 k'); [contradiction|]. now rewrite IH.
Qed.

Lemma delete_absent {A} k (f : list (string * A)) :
  ~ In k (keys f) -> delete k f = f.
Proof.
  unfold delete. induction f as [|[k' x] f IH]; simpl; [reflexivity|].
  intros Hnot. destruct (String.eqb_spec k' k) as [->|]; simpl.
  - exfalso. apply Hnot. now left.
  - rewrite IH; [reflexivity|]. intros Hin. apply Hnot. now right.
Qed.

Lemma delete_removes {A} k (f : list (string * A)) : ~ In k (keys (delete k f)).
Proof.
  rewrite delete_keys. intros Hin. apply filter_In in Hin as [_ Hk].
  now rewrite String.eqb_refl in Hk.
Qed.

Lemma delete_keeps_absent {A} k k' (f : list (string * A)) :
  ~ In k (keys f) -> ~ In k (keys (delete k' f)).
Proof.
  rewrite delete_keys. intros Hnot Hin. apply filter_In in Hin. tauto.
Qed.

Lemma strip_signature_idempotent (m : obj) :
  strip_signature (strip_signature m) = strip_signature m.
Proof.
  unfold strip_signature.
  rewrite (delete_absent "signature").
  - rewrite (delete_absent "publicKey").
    + apply delete_absent, delete_removes.
    + apply delete_keeps_absent, delete_removes.
  - do 2 apply delete_keeps_absent. apply delete_removes.
Qed.

(** Deleting the three signature fields undoes the three assignments. *)
Lemma strip_signature_embed (m : obj) (r : SignatureResult) :
  strip_signature (embed (strip_signature m) r) = strip_signature m.
Proof.
  rewrite <- (strip_signature_idempotent m) at 2.
  generalize (strip_signature m). intros s.
  unfold strip_signature, embed.
  rewrite !(delete_set_other "signature") by discriminate.
  rewrite delete_set_same.
  rewrite (delete_set_other "publicKey") by discriminate.
  rewrite delete_set_same.
  now rewrite delete_set_same.
Qed.

(** X22. Signing again signs the same text: the canonical text of a manifest
    that carries the three fields [signManifest] writes is the canonical
    text of the manifest before it was signed, also when it is signed a
    second time, so a signature never covers an earlier signature, key or
    time stamp. *)
Theorem resigning_signs_the_same_text (m : obj) (r r' : SignatureResult) :
  canonicalize (embed (strip_signature m) r) = canonicalize m /\
  canonicalize (embed (strip_signature (embed (strip_signature m) r)) r')
    = canonicalize m.
Proof.
  unfold canonicalize. now rewrite !strip_signature_embed.
Qed.

Section WithRuntime.
Context {W : Type} {clock : Clock W} {crypto : Crypto W}
        {fs : FileSystem W} {pure : Pure}.

(** A signature text made of an algorithm, a colon and the base64 text of
    bytes that the verifier accepts is reported valid. *)
Lemma verifySignature_accepts algorithm_ bytes data publicKey_ w w' :
  Str.has_char ":"%char algorithm_ = false ->
  algorithm_ <> EmptyString -> bytes <> [] ->
  createVerify_verify (hash_of algorithm_) data publicKey_ bytes w
    = (Ok true, w') ->
  exists result w'',
    verifySignature data (JStr (algorithm_ ++ ":" ++ Base64.encode bytes))
                    publicKey_ w = (Ok result, w'') /\
    isValid result = true /\ error result = None /\
    vr_algorithm result = Some algorithm_.
Proof.
  intros Hcolon Hnonempty Hbytes Hverify.
  unfold verifySignature, try_catch.
  rewrite (VerificationFacts.signature_parts _ bytes Hcolon).
  pose proof (Base64Facts.encode_nonempty bytes Hbytes) as Henc.
  pose proof (Base64Facts.decode_encode bytes) as Hdec.
  destruct (Base64.encode bytes) as [|p0 pay]; [congruence|].
  destruct algorithm_ as [|a0 alg]; [congruence|].
  simpl. unfold bind, Date_now, ret.
  rewrite Hdec, Hverify.
  destruct (clock_now w') as [t w4].
  eexists _, _. split; [reflexivity|]. repeat split.
Qed.

Section RoundTrip.

(** What the key library promises: the public key exported from a private
    key matches it, and what is signed under a private key is a non-empty
    signature that verifies under a matching public key. *)
Variable matching : string -> string -> Prop.

Hypothesis exported_key_matches : forall private w public w',
  export_public private w = (Ok public, w') -> matching private public.

Hypothesis signed_verifies : forall private public hash data bytes w w',
  matching private public ->
  createSign_sign hash data private w = (Ok bytes, w') ->
  bytes <> [] /\
  forall w2, exists w3,
    createVerify_verify hash data (JStr public) bytes w2 = (Ok true, w3).

(** X3. Signing a manifest file and then verifying the file that was
    written, with no external key, succeeds: when the manifest is read and
    parsed, the key is read, the data is signed with a key whose public
    part is not empty, and the signed manifest is written and reads back as
    written, [signManifest] returns the signature and [verifyManifest] on
    the same path reports a valid signature under the embedded public key,
    with the algorithm of the signer and the time stamp of the signature. *)
Theorem signed_manifest_verifies (config : SignatureConfig)
    (manifestPath privateKeyPath text key text' : string) (manifest : obj)
    (r : SignatureResult) (w w0 w1 w2 w3 w4 : W) :
  algorithm config = "RSA-SHA256" \/ algorithm config = "ECDSA-SHA256" ->
  readFile manifestPath w = (Ok text, w0) ->
  JSON_parse text = Ok (JObj manifest) ->
  readFile privateKeyPath w0 = (Ok key, w1) ->
  signData config (canonicalize manifest) key w1 = (Ok r, w2) ->
  sr_publicKey r <> EmptyString ->
  writeJSON manifestPath (JObj (embed (strip_signature manifest) r)) w2
    = (Ok tt, w3) ->
  readFile manifestPath w3 = (Ok text', w4) ->
  JSON_parse text' = Ok (JObj (embed (strip_signature manifest) r)) ->
  signManifest config manifestPath privateKeyPath w = (Ok r, w3) /\
  exists result w5,
    verifyManifest manifestPath None w3 = (Ok result, w5) /\
    isValid result = true /\ error result = None /\
    vr_algorithm result = Some (algorithm config) /\
    vr_timestamp result = Some (JNum (number_text (sr_timestamp r))).
Proof.
  intros Halg Hread Hparse Hkey Hsign Hpublic Hwrite Hread' Hparse'.
  split.
  - unfold signManifest, try_catch, bind.
    rewrite Hread. unfold lift. rewrite Hparse.
    unfold without_signature, canonical_text, ret at 1.
    rewrite Hkey. unfold canonicalize in Hsign. rewrite Hsign.
    unfold assign_signature, ret at 1. rewrite Hwrite.
    reflexivity.
  - destruct (signData_ok _ _ _ _ _ _ Hsign)
      as (bytes & wa & wb & Hbytes & Hexport & _ & Htext & _).
    pose proof (exported_key_matches _ _ _ _ Hexport) as Hmatch.
    destruct (signed_verifies _ _ _ _ _ _ _ Hmatch Hbytes) as [Hne Hverify].
    destruct (Hverify w4) as [w5 Hok].
    assert (Hcolon : Str.has_char ":"%char (algorithm config) = false)
      by (destruct Halg as [-> | ->]; reflexivity).
    assert (Hnonempty : algorithm config <> EmptyString)
      by (destruct Halg as [-> | ->]; discriminate).
    destruct (verifySignature_accepts _ _ _ _ _ _ Hcolon Hnonempty Hne Hok)
      as (result & w6 & Hrun & Hvalid & Herror & Halgorithm).
    rewrite <- Htext in Hrun.
    exists (with_timestamp result
              (Some (JNum (number_text (sr_timestamp r))))), w6.
    split; [|repeat split; assumption].
    unfold verifyManifest, try_catch, bind.
    rewrite Hread'. unfold lift. rewrite Hparse'.
    unfold named_properties, ret at 1.
    assert (Hsig : get "signature" (embed (strip_signature manifest) r)
                   = Some (JStr (sr_signature r))).
    { unfold embed. rewrite !get_set_other by discriminate.
      apply get_set_same. }
    assert (Hpub : get "publicKey" (embed (strip_signature manifest) r)
                   = Some (JStr (sr_publicKey r))).
    { unfold embed. rewrite get_set_other by discriminate.
      apply get_set_same. }
    assert (Htime : get "signatureTimestamp" (embed (strip_signature manifest) r)
                    = Some (JNum (number_text (sr_timestamp r)))).
    { unfold embed. apply get_set_same. }
    rewrite Hsig, Hpub, Htime, strip_signature_embed.
    assert (Hsigned : falsy (Some (JStr (sr_signature r))) = false).
    { rewrite Htext. destruct (algorithm config); [congruence | reflexivity]. }
    assert (Hkeyed : falsy (Some (JStr (sr_publicKey r))) = false).
    { destruct (sr_publicKey r); [congruence | reflexivity]. }
    rewrite Hsigned, Hkeyed. cbn [absent negb default from_option id].
    unfold canonicalize in Hrun. rewrite Hrun. reflexivity.
Qed.

End RoundTrip.

(** X4. Where [verifyManifest] stops early: a manifest with no signature, or
    with one that is empty, null, false or zero, is reported as unsigned
    right after it is read, whatever key is offered; a signed manifest with
    no embedded key and no external key is reported as having no key. In
    both cases no key file is read and no cryptographic check is made. *)
Theorem verifyManifest_early_results (manifestPath text : string)
    (manifest : obj) (w w1 : W) :
  readFile manifestPath w = (Ok text, w1) ->
  JSON_parse text = Ok (JObj manifest) ->
  (falsy (get "signature" manifest) = true ->
   forall publicKeyPath,
     verifyManifest manifestPath publicKeyPath w = (Ok no_signature, w1)) /\
  (falsy (get "signature" manifest) = false ->
   falsy (get "publicKey" manifest) = true ->
   forall publicKeyPath, absent publicKeyPath = true ->
     verifyManifest manifestPath publicKeyPath w = (Ok no_public_key, w1)).
Proof.
  intros Hread Hparse. split.
  - intros Hunsigned publicKeyPath.
    unfold verifyManifest, try_catch, bind.
    rewrite Hread. unfold lift. rewrite Hparse.
    unfold named_properties, ret at 1. now rewrite Hunsigned.
  - intros Hsigned Hkeyless publicKeyPath Hpath.
    unfold verifyManifest, try_catch, bind.
    rewrite Hread. unfold lift. rewrite Hparse.
    unfold named_properties, ret at 1.
    now rewrite Hsigned, Hpath, Hkeyless.
Qed.

(** X5. What signing throws is always an [Error] that says where it
    failed: [signData] wraps every failure as "Failed to sign data: ..." and
    [signManifest] wraps every failure, those of [signData] included, as
    "Failed to sign manifest: ...". An algorithm whose name starts with
    neither RSA nor ECDSA fails before any key is used, and a failure to
    sign leaves the manifest file unwritten. *)
Theorem signing_failures_are_wrapped (config : SignatureConfig) :
  (forall data key w e w',
     signData config data key w = (Throw e, w') ->
     exists reason, e = ErrorObj ("Failed to sign data: " ++ reason)) /\
  (String.prefix "RSA" (algorithm config) = false ->
   String.prefix "ECDSA" (algorithm config) = false ->
   forall data key w,
     signData config data key w =
       (Throw (ErrorObj ("Failed to sign data: Unsupported algorithm: "
                         ++ algorithm config)), w)) /\
  (forall manifestPath privateKeyPath w e w',
     signManifest config manifestPath privateKeyPath w = (Throw e, w') ->
     exists reason, e = ErrorObj ("Failed to sign manifest: " ++ reason)) /\
  (forall manifestPath privateKeyPath text manifest key e w w0 w1 w2,
     readFile manifestPath w = (Ok text, w0) ->
     JSON_parse text = Ok (JObj manifest) ->
     readFile privateKeyPath w0 = (Ok key, w1) ->
     signData config (canonicalize manifest) key w1 = (Throw e, w2) ->
     exists reason,
       signManifest config manifestPath privateKeyPath w =
         (Throw (ErrorObj ("Failed to sign manifest: Failed to sign data: "
                           ++ reason)), w2)).
Proof.
  assert (Hdata : forall data key w e w',
     signData config data key w = (Throw e, w') ->
     exists reason, e = ErrorObj ("Failed to sign data: " ++ reason)).
  { intros data key w e w'. unfold signData, try_catch.
    match goal with |- context [match ?body w with _ => _ end] =>
      destruct (body w) as [[ok|e0] w0] end; [discriminate|].
    unfold throw. intros [= <- _]. eauto. }
  split; [exact Hdata|]. split; [|split].
  - intros Hrsa Hecdsa data key w.
    unfold signData, try_catch, bind. now rewrite Hrsa, Hecdsa.
  - intros manifestPath privateKeyPath w e w'.
    unfold signManifest, try_catch.
    match goal with |- context [match ?body w with _ => _ end] =>
      destruct (body w) as [[ok|e0] w0] end; [discriminate|].
    unfold throw. intros [= <- _]. eauto.
  - intros manifestPath privateKeyPath text manifest key e w w0 w1 w2
           Hread Hparse Hkey Hsign.
    destruct (Hdata _ _ _ _ _ Hsign) as [reason ->]. exists reason.
    unfold signManifest, try_catch, bind.
    rewrite Hread. unfold lift. rewrite Hparse.
    unfold without_signature, canonical_text, ret at 1.
    rewrite Hkey. unfold canonicalize in Hsign. now rewrite Hsign.
Qed.

End WithRuntime.

End ManifestSigningFacts.

(** ** Loading a configuration *)

Module LoadFacts.
Import Eff Json Runtime Config ConfigLoad Prompt SignatureFacts.
Local Open Scope eff_scope.

(** The configuration file asks for signing: it has a signature block whose
    [enabled] is true. *)
Definition signing_requested (user : UserConfig) : bool :=
  match u_signature user with
  | Some given => default false (us_enabled given)
  | None => false
  end.

(** The file that [loadConfig] reads. *)
Definition config_file (configPath : option string) : string :=
  match configPath with
  | Some (String c rest) => String c rest
  | _ => "hotupdate.config.json"
  end.

Section WithRuntime.
Context {W : Type} {fs : FileSystem W} {out : Console W} {pure : Pure}
        {files : ConfigFile W}.

Lemma toBuildConfig_fields config (w : W) bc w' :
  toBuildConfig config w = (Ok bc, w') ->
  bc_platforms bc = platforms (build config) /\
  bc_signature bc =
    match signature config with
    | Some sig =>
        if enabled sig then
          Some {| bs_enabled := true;
                  bs_algorithm :=
                    if truthy (algorithm sig)
                    then default EmptyString (algorithm sig)
                    else "RSA-SHA256";
                  bs_privateKeyPath :=
                    if truthy (privateKeyPath sig)
                    then option_map path_resolve (privateKeyPath sig)
                    else None;
                  bs_publicKeyPath :=
                    if truthy (publicKeyPath sig)
                    then option_map path_resolve (publicKeyPath sig)
                    else None;
                  bs_autoGenerate := default true (autoGenerate sig) |}
        else None
    | None => None
    end.
Proof.
  unfold toBuildConfig, bind. intros Hrun.
  match type of Hrun with
  | (let (_, _) := ?m w in _) = _ => destruct (m w) as [[v|e] w1]
  end; [|discriminate].
  unfold ret in Hrun. injection Hrun as <- <-. split; reflexivity.
Qed.

(** X6. A signature block that is left out, or whose [enabled] is not true,
    is dropped when the configuration is merged with the defaults, whatever
    else it holds: validation then never rejects its algorithm nor warns
    about its key, and the build configuration carries no signature. A
    block that is enabled is kept, with RSA-SHA256 where it names no
    algorithm and auto-generation on where it does not say. *)
Theorem signature_block_follows_enabled (user : UserConfig) :
  (signing_requested user = false ->
   signature (mergeWithDefaults user) = None /\
   (forall w : W, check_signature (mergeWithDefaults user) w = (Ok tt, w)) /\
   (forall (w : W) bc w',
      toBuildConfig (mergeWithDefaults user) w = (Ok bc, w') ->
      bc_signature bc = None)) /\
  (forall given,
     u_signature user = Some given -> us_enabled given = Some true ->
     exists sig,
       signature (mergeWithDefaults user) = Some sig /\
       enabled sig = true /\
       algorithm sig = Some (default "RSA-SHA256" (us_algorithm given)) /\
       autoGenerate sig = Some (default true (us_autoGenerate given)) /\
       privateKeyPath sig = us_privateKeyPath given /\
       forall (w : W) bc w',
         toBuildConfig (mergeWithDefaults user) w = (Ok bc, w') ->
         exists bs,
           bc_signature bc = Some bs /\
           bs_autoGenerate bs = default true (us_autoGenerate given) /\
           (us_algorithm given = None -> bs_algorithm bs = "RSA-SHA256")).
Proof.
  split.
  - intros Hoff.
    assert (Hnone : signature (mergeWithDefaults user) = None).
    { unfold signing_requested in Hoff. unfold mergeWithDefaults. simpl.
      destruct (u_signature user) as [given|]; [|reflexivity].
      now rewrite Hoff. }
    split; [exact Hnone|]. split.
    + intros w. unfold check_signature. now rewrite Hnone.
    + intros w bc w' Hrun.
      destruct (toBuildConfig_fields _ _ _ _ Hrun) as [_ ->].
      now rewrite Hnone.
  - intros given Hgiven Hon. eexists.
    split; [unfold mergeWithDefaults; simpl; rewrite Hgiven, Hon; reflexivity|].
    split; [reflexivity|].
    split; [simpl; now destruct (us_algorithm given)|].
    split; [simpl; now destruct (us_autoGenerate given)|].
    split; [simpl; now destruct (us_privateKeyPath given)|].
    intros w bc w' Hrun.
    destruct (toBuildConfig_fields _ _ _ _ Hrun) as [_ Hsig].
    unfold mergeWithDefaults in Hsig. simpl in Hsig.
    rewrite Hgiven, Hon in Hsig. simpl in Hsig.
    eexists. split; [exact Hsig|]. simpl.
    split; [now destruct (us_autoGenerate given)|].
    now intros ->.
Qed.

(** X7. What [loadConfig] throws and returns. A configuration file that is
    not there gives the error "Configuration file not found" with the file
    name, the default name when no path is given. Every failure to read,
    parse or validate the file comes out as an [Error] whose message is
    "Failed to load config: " followed by the message of the cause. A
    configuration is returned only after it was merged with the defaults
    and passed validation. *)
Theorem loadConfig_outcomes (configPath : option string) (w : W) :
  (forall w1,
     pathExists (config_file configPath) w = (Ok false, w1) ->
     loadConfig configPath w =
       (Throw (ErrorObj ("Configuration file not found: "
                         ++ config_file configPath)), w1)) /\
  (forall w1 e w2,
     pathExists (config_file configPath) w = (Ok true, w1) ->
     readConfig (config_file configPath) w1 = (Throw e, w2) ->
     loadConfig configPath w =
       (Throw (ErrorObj ("Failed to load config: " ++ message_or_text e)), w2)) /\
  (forall w1 user w2 e w3,
     pathExists (config_file configPath) w = (Ok true, w1) ->
     readConfig (config_file configPath) w1 = (Ok user, w2) ->
     validateConfig (mergeWithDefaults user) w2 = (Throw e, w3) ->
     loadConfig configPath w =
       (Throw (ErrorObj ("Failed to load config: " ++ message_or_text e)), w3)) /\
  (forall config w',
     loadConfig configPath w = (Ok config, w') ->
     exists w1 user w2,
       pathExists (config_file configPath) w = (Ok true, w1) /\
       readConfig (config_file configPath) w1 = (Ok user, w2) /\
       config = mergeWithDefaults user /\
       validateConfig config w2 = (Ok tt, w')).
Proof.
  assert (Hfile : (if truthy configPath then default EmptyString configPath
                   else "hotupdate.config.json") = config_file configPath)
    by (destruct configPath as [[|c rest]|]; reflexivity).
  unfold loadConfig. rewrite Hfile. clear Hfile.
  split; [|split; [|split]].
  - intros w1 Hmissing. unfold bind. now rewrite Hmissing.
  - intros w1 e w2 Hthere Hread.
    unfold bind at 1. rewrite Hthere. cbn [negb].
    unfold try_catch, bind. now rewrite Hread.
  - intros w1 user w2 e w3 Hthere Hread Hinvalid.
    unfold bind at 1. rewrite Hthere. cbn [negb].
    unfold try_catch, bind. now rewrite Hread, Hinvalid.
  - intros config w' Hrun. unfold bind at 1 in Hrun.
    destruct (pathExists (config_file configPath) w) as [[[]|e] w1];
      cbn [negb] in Hrun; unfold throw in Hrun; try discriminate.
    unfold try_catch, bind in Hrun.
    destruct (readConfig (config_file configPath) w1) as [[user|e] w2] eqn:Hread;
      [|discriminate].
    destruct (validateConfig (mergeWithDefaults user) w2) as [[[]|e] w3] eqn:Hvalid;
      [|discriminate].
    unfold ret in Hrun. injection Hrun as <- <-.
    exists w1, user, w2. repeat split; assumption.
Qed.

(** X8. The version of the build configuration is never empty, nor falsy
    in any other way: a non-empty version given in the configuration is
    taken as it is, without looking at any file; otherwise it is the value
    that the project's package.json holds under version when that value is
    truthy, be it a string or not (the number 2 stays the number 2), and
    1.0.0 when there is no such file, when the file holds no object, or
    when the value is missing, empty, null, false or 0. *)
Theorem build_version_is_never_empty (config : HotUpdateConfig) (w : W)
    (bc : BuildConfig) (w' : W) :
  toBuildConfig config w = (Ok bc, w') ->
  Signature.falsy (Some (bc_version bc)) = false /\
  (forall v, version (build config) = Some v -> v <> EmptyString ->
             bc_version bc = JStr v /\ w' = w) /\
  (truthy (version (build config)) = false ->
   let packageJsonPath := path_join (path (project config)) "package.json" in
   (forall w1,
      pathExists packageJsonPath w = (Ok false, w1) ->
      bc_version bc = JStr "1.0.0" /\ w' = w1) /\
   (forall w1 fields w2,
      pathExists packageJsonPath w = (Ok true, w1) ->
      readJSON packageJsonPath w1 = (Ok (JObj fields), w2) ->
      w' = w2 /\
      (forall found, get "version" fields = Some found ->
                     Signature.falsy (Some found) = false ->
                     bc_version bc = found) /\
      (Signature.falsy (get "version" fields) = true ->
       bc_version bc = JStr "1.0.0")) /\
   (forall w1 packageJson w2,
      pathExists packageJsonPath w = (Ok true, w1) ->
      readJSON packageJsonPath w1 = (Ok packageJson, w2) ->
      (forall fields, packageJson <> JObj fields) ->
      bc_version bc = JStr "1.0.0" /\ w' = w2)).
Proof.
  unfold toBuildConfig. intros Hrun.
  destruct (truthy (version (build config))) eqn:Hgiven.
  - unfold bind, ret in Hrun. injection Hrun as <- <-. cbn [bc_version].
    unfold truthy in Hgiven.
    destruct (version (build config)) as [[|c rest]|]; try discriminate.
    split; [reflexivity|]. split; [|discriminate].
    intros v [= <-] _. split; reflexivity.
  - assert (Hnone : forall v, version (build config) = Some v ->
                              v <> EmptyString -> False).
    { intros v Hv Hne. rewrite Hv in Hgiven. destruct v; [congruence|].
      discriminate. }
    unfold bind at 1 2 in Hrun.
    destruct (pathExists _ w) as [[present|e] w1] eqn:Hthere; [|discriminate].
    destruct present.
    + unfold bind at 1 in Hrun.
      destruct (readJSON _ w1) as [[packageJson|e] w2] eqn:Hread;
        [|discriminate].
      unfold bind at 1 in Hrun.
      destruct (property packageJson "version" w2) as [[found|e] w3] eqn:Hfound;
        [|discriminate].
      unfold ret in Hrun. injection Hrun as <- <-. cbn [bc_version].
      assert (Hw : w3 = w2).
      { destruct packageJson; cbn in Hfound; unfold ret, throw in Hfound;
          congruence. }
      subst w3. split.
      { destruct (Signature.falsy found) eqn:Hfalsy; [reflexivity|].
        destruct found; [exact Hfalsy | discriminate]. }
      split; [intros v Hv Hne; destruct (Hnone v Hv Hne)|].
      intros _. cbn zeta. split; [intros w4 [=]|]. split.
      * intros w4 fields w5 [= <-] Hread'. rewrite Hread in Hread'.
        injection Hread' as -> <-. cbn in Hfound. unfold ret in Hfound.
        injection Hfound as <-. split; [reflexivity|]. split.
        -- intros found Hget Htruthy. rewrite Hget, Htruthy. reflexivity.
        -- intros ->. reflexivity.
      * intros w4 document w5 [= <-] Hread' Hplain. rewrite Hread in Hread'.
        injection Hread' as <- <-. split; [|reflexivity].
        destruct packageJson; cbn in Hfound; unfold ret, throw in Hfound;
          try discriminate; try (injection Hfound as <-; reflexivity).
        destruct (Hplain fields eq_refl).
    + unfold ret in Hrun. injection Hrun as <- <-. cbn [bc_version].
      split; [reflexivity|].
      split; [intros v Hv Hne; destruct (Hnone v Hv Hne)|].
      intros _. cbn zeta. split; [|split].
      * intros w4 [= <-]. split; reflexivity.
      * intros w4 fields w5 [=].
      * intros w4 document w5 [=].
Qed.

(** X9. [isReactNativeProject] never throws, and it agrees with the project
    check of [validateConfig]: for a project directory that exists, the
    check passes exactly when the detection answers true, that is when the
    project's package.json can be read and has react-native or
    @react-native-community/cli among its dependencies or development
    dependencies. *)
Theorem project_detection_agrees (config : HotUpdateConfig) (w w1 : W) :
  pathExists (path_resolve (path (project config))) w = (Ok true, w1) ->
  (forall w',
     check_project config w = (Ok tt, w') <->
     isReactNativeProject (path_resolve (path (project config))) w1
       = (Ok true, w')) /\
  (forall projectPath (w0 : W),
     exists answer w',
       isReactNativeProject projectPath w0 = (Ok answer, w')).
Proof.
  intros Hthere. split.
  - intros w'. unfold check_project, isReactNativeProject, try_catch.
    unfold bind at 1. rewrite Hthere. cbn [negb].
    unfold bind.
    destruct (pathExists _ w1) as [[[]|e] w2]; cbn [negb]; unfold ret, throw;
      [|split; discriminate|split; discriminate].
    destruct (readJSON _ w2) as [[document|e] w3]; [|split; discriminate].
    unfold property.
    destruct document; unfold ret, throw; try (split; discriminate);
      repeat match goal with
             | |- context [Signature.falsy ?x] => destruct (Signature.falsy x)
             end; cbn [negb andb orb];
      split; intros [= <-]; reflexivity.
  - intros projectPath w0. unfold isReactNativeProject, try_catch.
    match goal with |- context [match ?body w0 with _ => _ end] =>
      destruct (body w0) as [[answer|e] w'] end; unfold ret; eauto.
Qed.

Lemma validateConfig_passed config (w w' : W) :
  validateConfig config w = (Ok tt, w') ->
  exists w1 w2 w3,
    check_project config w = (Ok tt, w1) /\
    check_platforms config w1 = (Ok tt, w2) /\
    check_version config w2 = (Ok tt, w3) /\
    check_signature config w3 = (Ok tt, w').
Proof.
  unfold validateConfig, bind. intros Hrun.
  destruct (check_project config w) as [[[]|e] w1]; [|discriminate].
  destruct (check_platforms config w1) as [[[]|e] w2] eqn:Hplatforms;
    [|discriminate].
  destruct (check_version config w2) as [[[]|e] w3] eqn:Hversion;
    [|discriminate].
  eauto 10.
Qed.

Lemma check_platforms_passed config (w w' : W) :
  check_platforms config w = (Ok tt, w') ->
  Forall (fun p => p = "ios" \/ p = "android") (platforms (build config)).
Proof.
  rewrite ConfigFacts.check_platforms_find.
  unfold ConfigFacts.first_invalid_platform.
  destruct (List.find _ _) eqn:Hfind; [discriminate|]. intros _.
  apply List.Forall_forall. intros p Hp.
  pose proof (List.find_none _ _ Hfind p Hp) as Hvalid.
  unfold includes, validPlatforms in Hvalid. simpl in Hvalid.
  destruct (String.eqb_spec p "ios"); [now left|].
  destruct (String.eqb_spec p "android"); [now right | discriminate].
Qed.

Lemma check_signature_passed config (w w' : W) sig a :
  check_signature config w = (Ok tt, w') ->
  signature config = Some sig -> enabled sig = true ->
  algorithm sig = Some a ->
  a = EmptyString \/ a = "RSA-SHA256" \/ a = "ECDSA-SHA256".
Proof.
  unfold check_signature. intros Hrun Hsig Hen Halg.
  rewrite Hsig, Hen, Halg in Hrun. unfold bind at 1 in Hrun.
  destruct a as [|c rest]; [now left|]. right.
  cbn [truthy Signature.absent negb andb default from_option id] in Hrun.
  unfold includes, validAlgorithms in Hrun. cbn [List.existsb] in Hrun.
  destruct (String.eqb_spec (String c rest) "RSA-SHA256"); [now left|].
  destruct (String.eqb_spec (String c rest) "ECDSA-SHA256"); [now right|].
  discriminate.
Qed.

(** X23. A configuration that [loadConfig] returns has passed the checks
    of [validateConfig], which look at what is there and not empty: its
    platforms are all ios or android; its version, when it has one that is
    not the empty string, is one that semver accepts; and its signature
    block, when it has one, is enabled and names RSA-SHA256, ECDSA-SHA256
    or the empty string. [toBuildConfig] then hands the build those
    platforms and, for a signed build, RSA-SHA256 or ECDSA-SHA256, the
    first of them standing in for an empty algorithm. *)
Theorem loaded_configuration_passed_the_checks (configPath : option string) (w : W)
    (config : HotUpdateConfig) (w' : W) :
  loadConfig configPath w = (Ok config, w') ->
  Forall (fun p => p = "ios" \/ p = "android") (platforms (build config)) /\
  (forall v, version (build config) = Some v -> v <> EmptyString ->
             semver_valid v = true) /\
  (forall sig, signature config = Some sig ->
     enabled sig = true /\
     exists a, algorithm sig = Some a /\
               (a = EmptyString \/ a = "RSA-SHA256" \/ a = "ECDSA-SHA256")) /\
  (forall (w0 : W) bc w1,
     toBuildConfig config w0 = (Ok bc, w1) ->
     Forall (fun p => p = "ios" \/ p = "android") (bc_platforms bc) /\
     forall bs, bc_signature bc = Some bs ->
       bs_algorithm bs = "RSA-SHA256" \/ bs_algorithm bs = "ECDSA-SHA256").
Proof.
  intros Hrun. unfold loadConfig, bind at 1 in Hrun.
  destruct (pathExists _ w) as [[[]|e] w1]; cbn [negb] in Hrun;
    unfold throw in Hrun; try discriminate.
  unfold try_catch, bind in Hrun.
  destruct (readConfig _ w1) as [[user|e] w2]; [|discriminate].
  destruct (validateConfig (mergeWithDefaults user) w2) as [[[]|e] w3] eqn:Hvalid;
    [|discriminate].
  unfold ret in Hrun. injection Hrun as <- <-.
  destruct (validateConfig_passed _ _ _ Hvalid)
    as (wa & wb & wc & _ & Hplatforms & Hversion & Hsignature).
  pose proof (check_platforms_passed _ _ _ Hplatforms) as Hall.
  assert (Hblock : forall sig,
    signature (mergeWithDefaults user) = Some sig ->
    enabled sig = true /\
    exists a, algorithm sig = Some a /\
              (a = EmptyString \/ a = "RSA-SHA256" \/ a = "ECDSA-SHA256")).
  { intros sig Hsig.
    assert (Hshape : enabled sig = true /\ exists a, algorithm sig = Some a).
    { unfold mergeWithDefaults in Hsig. simpl in Hsig.
      destruct (u_signature user) as [given|]; [|discriminate].
      destruct (us_enabled given) as [[]|]; try discriminate.
      injection Hsig as <-. simpl. split; [reflexivity|].
      destruct (us_algorithm given); eauto. }
    destruct Hshape as [Hen [a Ha]]. split; [exact Hen|].
    exists a. split; [exact Ha|].
    eapply check_signature_passed; eassumption. }
  split; [exact Hall|]. split; [|split; [exact Hblock|]].
  - intros v Hv Hne. unfold check_version in Hversion. rewrite Hv in Hversion.
    destruct v as [|c rest]; [congruence|].
    destruct (semver_valid (String c rest)); [reflexivity | discriminate].
  - intros w0 bc wd Hbuild.
    destruct (toBuildConfig_fields _ _ _ _ Hbuild) as [-> Hsig].
    split; [exact Hall|]. intros bs. rewrite Hsig.
    destruct (signature (mergeWithDefaults user)) as [sig|] eqn:Hblocked;
      [|discriminate].
    destruct (Hblock sig eq_refl) as [Hen (a & Ha & Hsupported)].
    rewrite Hen, Ha. intros [= <-]. simpl.
    destruct Hsupported as [-> | [-> | ->]]; simpl; auto.
Qed.

End WithRuntime.

End LoadFacts.

(** ** Assets, entry file and results of a platform build *)

Module AssetFacts.
Import Eff Json Runtime Bundle Builder SignatureFacts BuilderFacts.
Local Open Scope eff_scope.

Lemma for_each_invariant_in {W A S} (P : S -> Prop) (step : S -> A -> M W S)
    (items : list A) :
  (forall s x w s' w', In x items -> P s -> step s x w = (Ok s', w') -> P s') ->
  forall s w s' w', P s -> for_each step items s w = (Ok s', w') -> P s'.
Proof.
  induction items as [|x items IH]; simpl; intros Hstep s w s' w' Hs.
  - intros [= <- <-]. exact Hs.
  - unfold bind. destruct (step s x w) as [[s1|e] w1] eqn:Hx; [|discriminate].
    apply IH.
    + intros s0 y w0 s0' w0' Hy. apply Hstep. now right.
    + eapply Hstep; [now left | exact Hs | exact Hx].
Qed.

(** *** The patterns of the consistency check *)

Definition no_bracket (input : list ascii) : Prop :=
  Forall (fun c => Ascii.eqb c "]"%char = false) input.

Lemma has_char_no_bracket (text : string) :
  Str.has_char "]"%char text = false -> no_bracket (Str.to_list text).
Proof.
  unfold no_bracket. induction text as [|c text IH]; simpl; intros Hc.
  - apply List.Forall_nil.
  - apply orb_false_iff in Hc as [Hc Hrest].
    apply List.Forall_cons; [exact Hc | exact (IH Hrest)].
Qed.

Lemma strip_prefix_no_bracket text : forall input rest,
  Regex.strip_prefix text input = Some rest ->
  no_bracket input -> no_bracket rest.
Proof.
  induction text as [|c text IH]; simpl; intros input rest.
  - now intros [= <-].
  - destruct input as [|d input]; [discriminate|].
    destruct (Ascii.eqb c d); [|discriminate].
    intros Hrest Hfree. apply (IH _ _ Hrest).
    now inversion Hfree.
Qed.

Lemma after_many_no_bracket class input :
  no_bracket input ->
  forall rest, In rest (Regex.after_many class input) -> no_bracket rest.
Proof.
  induction input as [|c input IH]; simpl; intros Hfree rest; [tauto|].
  destruct (class c); [|intros []].
  inversion Hfree as [|? ? _ Htail]; subst.
  intros Hin. apply in_app_or in Hin as [Hin | [<- | []]].
  - now apply IH.
  - exact Htail.
Qed.

Lemma strip_any_no_bracket alternatives : forall input rest,
  Regex.strip_any alternatives input = Some rest ->
  no_bracket input -> no_bracket rest.
Proof.
  induction alternatives as [|text others IH]; simpl; intros input rest;
    [discriminate|].
  destruct (Regex.strip_prefix (Str.to_list text) input) as [left|] eqn:Hp.
  - intros [= <-]. eapply strip_prefix_no_bracket; eassumption.
  - apply IH.
Qed.

Lemma after_texts_no_bracket alternatives takes : forall input,
  no_bracket input ->
  forall rest, In rest (Regex.after_texts takes alternatives input) ->
               no_bracket rest.
Proof.
  induction takes as [|takes IH]; simpl; intros input Hfree rest; [tauto|].
  destruct (Regex.strip_any alternatives input) as [left|] eqn:Hp;
    [|intros []].
  pose proof (strip_any_no_bracket _ _ _ Hp Hfree) as Hleft.
  intros Hin. apply in_app_or in Hin as [Hin | [<- | []]].
  - eapply IH; eassumption.
  - exact Hleft.
Qed.

Lemma flat_map_empty {A B} (f : A -> list B) (l : list A) :
  (forall x, In x l -> f x = []) -> List.flat_map f l = [].
Proof.
  induction l as [|x l IH]; simpl; intros Hf; [reflexivity|].
  rewrite (Hf x) by now left. apply IH. intros y Hy. apply Hf. now right.
Qed.

(** A pattern that ends with a closing square bracket matches nowhere in a
    text that has none. *)
Lemma run_needs_bracket (pieces : list Regex.piece) : forall input caps,
  no_bracket input ->
  Regex.run (pieces ++ [Regex.Lit "]"]) input caps = [].
Proof.
  induction pieces as [|p pieces IH]; intros input caps Hfree.
  - cbn [app Regex.run Str.to_list].
    destruct input as [|d input]; [reflexivity|].
    inversion Hfree as [|? ? Hd _]; subst.
    cbn [Regex.strip_prefix]. rewrite Ascii.eqb_sym, Hd. reflexivity.
  - destruct p as [text|class|class|alternatives|alternatives| |];
      cbn [app Regex.run].
    + destruct (Regex.strip_prefix (Str.to_list text) input) as [rest|] eqn:Hp;
        [|reflexivity].
      apply IH. eapply strip_prefix_no_bracket; eassumption.
    + destruct input as [|c rest]; [reflexivity|].
      destruct (class c); [|reflexivity].
      apply IH. now inversion Hfree.
    + apply flat_map_empty. intros rest Hin. apply IH.
      eapply after_many_no_bracket; eassumption.
    + apply flat_map_empty. intros rest Hin. apply IH.
      eapply after_texts_no_bracket; eassumption.
    + apply flat_map_empty. intros text _.
      destruct (Regex.strip_prefix (Str.to_list text) input) as [rest|] eqn:Hp;
        [|reflexivity].
      apply IH. eapply strip_prefix_no_bracket; eassumption.
    + now apply IH.
    + now apply IH.
Qed.

Lemma exec_loop_needs_bracket (pieces : list Regex.piece) steps :
  forall input, no_bracket input ->
  Regex.exec_loop steps (pieces ++ [Regex.Lit "]"]) input = [].
Proof.
  induction steps as [|steps IH]; intros input Hfree; [reflexivity|].
  cbn [Regex.exec_loop]. rewrite run_needs_bracket by exact Hfree.
  destruct input as [|c rest]; [reflexivity|].
  apply IH. now inversion Hfree.
Qed.

Lemma bundle_references_need_bracket (bundleContent : string) :
  Str.has_char "]"%char bundleContent = false ->
  bundle_references bundleContent = [].
Proof.
  intros Hfree. apply has_char_no_bracket in Hfree.
  unfold bundle_references, assetPatterns, Regex.exec_all. cbn [List.fold_left].
  change require_pattern with
    ([ Regex.Lit "require("; Regex.OneOf Regex.is_quote;
       Regex.Open; Regex.Many Regex.not_quote; Regex.Lit ".";
       Regex.AnyOf Regex.image_extensions; Regex.Close;
       Regex.OneOf Regex.is_quote ] ++ [Regex.Lit "]"])%list.
  change import_pattern with
    ([ Regex.Lit "import"; Regex.ManyOf Regex.white_space;
       Regex.Many Regex.not_quote; Regex.ManyOf Regex.white_space;
       Regex.Lit "from"; Regex.ManyOf Regex.white_space;
       Regex.OneOf Regex.is_quote;
       Regex.Open; Regex.Many Regex.not_quote; Regex.Lit ".";
       Regex.AnyOf Regex.image_extensions; Regex.Close;
       Regex.OneOf Regex.is_quote ] ++ [Regex.Lit "]"])%list.
  rewrite !exec_loop_needs_bracket by exact Hfree. reflexivity.
Qed.

(** *** Records of copied assets *)

Lemma slashes_no_backslash text :
  Str.has_char Str.backslash (slashes text) = false.
Proof.
  induction text as [|c text IH]; simpl; [reflexivity|].
  rewrite IH, orb_false_r.
  destruct (Ascii.eqb c Str.backslash) eqn:Hc; [reflexivity | exact Hc].
Qed.

(** What every record of [copyAssets] has. *)
Definition copied_record (asset : AssetFile) : Prop :=
  scales asset = ["1"] /\
  String.prefix "assets/" (httpServerLocation asset) = true /\
  Str.has_char Str.backslash (httpServerLocation asset) = false /\
  exists digest, sha256 asset = Some digest.

(** What every record of [analyzeMetroAssets] has. *)
Definition metro_record (asset : AssetFile) : Prop :=
  exists dir,
    In dir assetDirs /\
    httpServerLocation asset = dir ++ "/" ++ name asset /\
    scales asset = getDensityScale dir /\
    sha256 asset = None.

Section WithRuntime.
Context {W : Type} {clock : Clock W} {fs : FileSystem W} {tools : Tools W}
        {pure : Pure} {sha : Sha256}.

(** X10. A bundle text with no closing square bracket yields no asset
    reference at all, since both patterns end with one; the consistency
    check then reports the bundle valid with no warning, whatever the bundle
    requires or imports and whatever assets are on disk. *)
Theorem no_bracket_no_reference
    (bundlePath_ assetsDir bundleContent : string) :
  Str.has_char "]"%char bundleContent = false ->
  bundle_references bundleContent = [] /\
  forall (w w1 : W) metroAssets w2,
    readFile bundlePath_ w = (Ok bundleContent, w1) ->
    analyzeMetroAssets assetsDir w1 = (Ok metroAssets, w2) ->
    verifyAssetConsistency bundlePath_ assetsDir w
      = (Ok {| valid := true; warnings := [] |}, w2).
Proof.
  intros Hfree.
  pose proof (bundle_references_need_bracket _ Hfree) as Hnone.
  split; [exact Hnone|].
  intros w w1 metroAssets w2 Hread Hassets.
  unfold verifyAssetConsistency, bind.
  rewrite Hread, Hnone, Hassets. reflexivity.
Qed.

(** X11. Every record that [analyzeMetroAssets] returns comes from one of
    the six density directories: its location is that directory, a slash
    and the file name, its scale is the one of the directory (1 for mdpi
    and raw, 1.5, 2, 3 and 4 for the others), and it has no content hash.
    Where none of the six directories exists the result is empty and
    nothing else is looked at. *)
Theorem metro_records (assetsDir : string) (w : W) :
  (forall assets_ w',
     analyzeMetroAssets assetsDir w = (Ok assets_, w') ->
     Forall metro_record assets_) /\
  ((forall dir, In dir assetDirs ->
      pathExists (path_join assetsDir dir) w = (Ok false, w)) ->
   analyzeMetroAssets assetsDir w = (Ok [], w)).
Proof.
  split.
  - intros assets_ w'. unfold analyzeMetroAssets.
    apply (for_each_invariant_in (Forall metro_record)); [|apply List.Forall_nil].
    intros acc dir w1 acc' w1' Hdir Hacc. unfold collect_dir, bind.
    destruct (pathExists (path_join assetsDir dir) w1) as [[[]|e] w2];
      try discriminate.
    + destruct (readdir (path_join assetsDir dir) w2) as [[files|e] w3];
        [|discriminate].
      apply (for_each_invariant (Forall metro_record)); [|exact Hacc].
      intros acc1 file w4 acc2 w5 Hacc1. unfold collect_entry, bind, ret.
      destruct (stat _ w4) as [[stats|e] w6]; [|discriminate].
      destruct (isFile stats); intros [= <- <-]; [|exact Hacc1].
      apply Forall_app. split; [exact Hacc1|].
      apply List.Forall_cons; [|apply List.Forall_nil].
      exists dir. repeat split. exact Hdir.
    + intros [= <- <-]. exact Hacc.
  - intros Hmissing. unfold analyzeMetroAssets.
    assert (Hloop : forall dirs acc,
      (forall dir, In dir dirs -> In dir assetDirs) ->
      for_each (collect_dir assetsDir) dirs acc w = (Ok acc, w)).
    { induction dirs as [|dir dirs IH]; intros acc Hin; [reflexivity|].
      cbn [for_each]. unfold bind, collect_dir at 1, bind.
      rewrite (Hmissing dir) by (apply Hin; now left).
      unfold ret at 1. apply IH. intros d Hd. apply Hin. now right. }
    apply Hloop. auto.
Qed.

(** X12. Every record that [copyAssets] returns has the single scale 1, a
    location that starts with assets/ and has forward slashes only, and a
    [sha256] field. *)
Theorem copied_records (projectRoot destDir : string)
    (sourcePatterns excludePatterns : list string) (w : W)
    (copied : list AssetFile) (w' : W) :
  copyAssets projectRoot sourcePatterns destDir excludePatterns w
    = (Ok copied, w') ->
  Forall copied_record copied.
Proof.
  unfold copyAssets.
  apply (for_each_invariant (Forall copied_record)); [|apply List.Forall_nil].
  intros acc pattern w1 acc' w1' Hacc. unfold bind at 1.
  destruct (glob pattern projectRoot excludePatterns w1) as [[found|e] w2];
    [|discriminate].
  apply (for_each_invariant (Forall copied_record)); [|exact Hacc].
  intros acc1 file w3 acc2 w4 Hacc1. unfold bind, ret.
  destruct (ensureDir _ w3) as [[[]|e] w5]; [|discriminate].
  destruct (copy _ _ w5) as [[[]|e] w6]; [|discriminate].
  destruct (stat _ w6) as [[stats|e] w7]; [|discriminate].
  match goal with
  | |- (let (_, _) := ?m w7 in _) = _ -> _ =>
      destruct (m w7) as [[digest|e] w8]; [|discriminate]
  end.
  intros [= <- <-]. apply Forall_app. split; [exact Hacc1|].
  apply List.Forall_cons; [|apply List.Forall_nil].
  split; [reflexivity|].
  split; [cbn [httpServerLocation]; now destruct (slashes file)|].
  split; [apply slashes_no_backslash | eauto].
Qed.

Section OneBuild.
Variable config : BuildConfig.

(** X13. [findEntryFile] answers index.js, index.ts, index.jsx or index.tsx
    and nothing else: index.js as soon as it exists, without looking
    further, and index.js again when none of the four exists. *)
Theorem entry_file_is_a_candidate (w : W) :
  (forall entry w',
     findEntryFile config w = (Ok entry, w') ->
     In entry ["index.js"; "index.ts"; "index.jsx"; "index.tsx"]) /\
  (forall w1,
     existsSync (path_join (projectPath config) "index.js") w = (Ok true, w1) ->
     findEntryFile config w = (Ok "index.js", w1)) /\
  ((forall entry,
      In entry ["index.js"; "index.ts"; "index.jsx"; "index.tsx"] ->
      existsSync (path_join (projectPath config) entry) w = (Ok false, w)) ->
   findEntryFile config w = (Ok "index.js", w)).
Proof.
  split; [|split].
  - intros entry w'. unfold findEntryFile. unfold bind at 1.
    match goal with |- context [for_each ?step ?items None w] =>
      destruct (for_each step items None w) as [[found|e] w1] eqn:Hloop
    end; [|discriminate].
    unfold ret. intros [= <- <-].
    assert (Hfound : forall e, found = Some e ->
              In e ["index.js"; "index.ts"; "index.jsx"; "index.tsx"]).
    { revert Hloop.
      apply (for_each_invariant_in
               (fun found => forall e, found = Some e ->
                  In e ["index.js"; "index.ts"; "index.jsx"; "index.tsx"]));
        [|discriminate].
      intros s x w0 s' w0' Hx Hs. destruct s as [e0|].
      - unfold ret. intros [= <- <-]. exact Hs.
      - unfold bind, ret.
        destruct (existsSync _ w0) as [[[]|e1] w2]; [| |discriminate];
          intros [= <- <-]; [|discriminate].
        now intros e1 [= <-]. }
    destruct found as [e0|]; [now apply Hfound | now left].
  - intros w1 Hfirst. unfold findEntryFile.
    cbn [for_each]. unfold bind. rewrite Hfirst. reflexivity.
  - intros Hnone. unfold findEntryFile.
    cbn [for_each]. unfold bind, ret.
    rewrite !Hnone by (simpl; tauto). reflexivity.
Qed.

(** The shape of a result: a success names the archive, the bundle and the
    asset directory of its platform and has no error; a failure has no
    archive, size 0, no asset directory and an error message. *)
Definition well_shaped (r : BuildResult) : Prop :=
  let platformDir := path_join (outputPath config) (platform r) in
  if success r then
    br_error r = None /\
    zipPath r = path_join (outputPath config)
                  (platform r ++ "-v" ++ version config ++ "-hotupdate.zip") /\
    assetsPath r = Some (path_join platformDir "assets") /\
    br_bundlePath r =
      path_join (path_join platformDir "bundles")
                (bundleName_or_index config ++ "." ++ platform r ++ ".bundle")
  else
    zipPath r = EmptyString /\ br_size r = 0 /\ assetsPath r = None /\
    exists message, br_error r = Some message.

Lemma buildPlatform_shape platform_ (w : W) r w' :
  buildPlatform config platform_ w = (Ok r, w') -> well_shaped r.
Proof.
  unfold buildPlatform, createZipFile, bind, try_catch, ret, throw.
  intros Hrun.
  step_in Hrun; [|discriminate].
  step_in Hrun; [|discriminate].
  step_in Hrun; [|discriminate].
  repeat first
    [ match type of Hrun with
      | context [if negb ?b then _ else _] => destruct b; cbn [negb] in Hrun
      end
    | step_in Hrun ].
  all: injection Hrun as <- <-.
  all: unfold well_shaped; simpl; repeat split; eauto.
Qed.

Lemma platform_step_shape platform_ (w : W) r w' :
  platform_step config platform_ w = (r, w') -> well_shaped r.
Proof.
  unfold platform_step.
  destruct (buildPlatform config platform_ w) as [[ok|e] wb] eqn:Hrun;
    intros [= <- <-].
  - eapply buildPlatform_shape, Hrun.
  - unfold well_shaped. simpl. repeat split. eauto.
Qed.

(** X14. Every result of [buildAllPlatforms] is well shaped: a successful
    one has no error and carries the archive
    <platform>-v<version>-hotupdate.zip of the output directory, the bundle
    path and the asset directory of its platform; a failed one has an error
    message, an empty archive path, size 0 and no asset directory. *)
Theorem results_are_well_shaped (w : W) (results : list BuildResult) (w' : W) :
  buildAllPlatforms config w = (Ok results, w') ->
  Forall well_shaped results.
Proof.
  unfold buildAllPlatforms, bind at 1.
  destruct (ensureDir (outputPath config) w) as [[[]|e] w0]; [|discriminate].
  destruct (loop_runs config (platforms config) [] w0)
    as (found & w1 & Hloop & Hruns).
  rewrite Hloop. intros [= <- <-]. simpl.
  clear Hloop. induction Hruns as [|p rest wa r wb rs wc Hstep _ IH].
  - apply List.Forall_nil.
  - apply List.Forall_cons; [|exact IH].
    eapply platform_step_shape, Hstep.
Qed.

(** X24. A bundler that exits with code 0 but leaves no bundle, or leaves
    an empty one, fails its platform: once the bundle command has returned,
    a bundle path that does not exist, or whose size is 0, gives the result
    with [success] false and the error "Bundle validation failed", and no
    later stage of the pipeline runs. *)
Theorem empty_bundle_fails_the_platform (platform_ entry : string)
    (w w1 w2 w3 w4 w5 : W) :
  let bundleConfig := bundle_config_of config platform_ entry in
  ensureDir (path_join (path_join (outputPath config) platform_) "bundles") w
    = (Ok tt, w1) ->
  ensureDir (path_join (path_join (outputPath config) platform_) "assets") w1
    = (Ok tt, w2) ->
  findEntryFile config w2 = (Ok entry, w3) ->
  buildBundle (projectPath config) bundleConfig w3 = (Ok tt, w4) ->
  (pathExists (bundlePath bundleConfig) w4 = (Ok false, w5) \/
   exists wa stats,
     pathExists (bundlePath bundleConfig) w4 = (Ok true, wa) /\
     stat (bundlePath bundleConfig) wa = (Ok stats, w5) /\ size stats = 0) ->
  buildPlatform config platform_ w =
    (Ok {| success := false; platform := platform_;
           br_bundlePath := bundlePath bundleConfig;
           assetsPath := None; zipPath := EmptyString; br_size := 0;
           br_error := Some "Bundle validation failed" |}, w5).
Proof.
  intros bundleConfig Hbundles Hassets Hentry Hbuilt Hempty.
  assert (Hinvalid : validateBundle (bundlePath bundleConfig) w4 = (Ok false, w5)).
  { unfold validateBundle, try_catch, bind.
    destruct Hempty as [Hmissing | (wa & stats & Hthere & Hstat & Hsize)].
    - now rewrite Hmissing.
    - rewrite Hthere. cbn [negb]. rewrite Hstat, Hsize. reflexivity. }
  unfold bundleConfig, bundle_config_of in *.
  unfold buildPlatform, bind at 1. rewrite Hbundles.
  unfold bind at 1. rewrite Hassets.
  unfold bind at 1. rewrite Hentry.
  unfold try_catch, bind at 1. rewrite Hbuilt.
  unfold bind at 1. cbn [bundlePath] in Hinvalid. rewrite Hinvalid.
  reflexivity.
Qed.

End OneBuild.

End WithRuntime.

End AssetFacts.

(** ** Integrity checks and package contents *)

Module IntegrityFacts.
Import Eff Json Runtime Bundle Integrity Archive SignatureFacts BuilderFacts.
Local Open Scope eff_scope.

Lemma tagged_is_stripped digest :
  (if String.prefix "sha256:" ("sha256:" ++ digest)
   then substring 7 ("sha256:" ++ digest)
   else "sha256:" ++ digest) = digest.
Proof.
  assert (Hprefix : String.prefix "sha256:" ("sha256:" ++ digest) = true).
  { apply String.prefix_correct. simpl.
    clear. induction digest; simpl; congruence. }
  rewrite Hprefix. reflexivity.
Qed.

Lemma fold_update_app {sha : Sha256} :
  (forall h a b, hash_update (hash_update h a) b = hash_update h (a ++ b)%list) ->
  (forall h, hash_update h [] = h) ->
  forall chunks h,
    List.fold_left hash_update chunks h = hash_update h (List.concat chunks).
Proof.
  intros Happ Hnil. induction chunks as [|chunk chunks IH]; intros h; simpl.
  - now rewrite Hnil.
  - now rewrite IH, Happ.
Qed.

Section WithRuntime.
Context {W : Type} {clock : Clock W} {fs : FileSystem W} {pure : Pure}
        {sha : Sha256} {modules : Modules W}.

(** X15. [validateBundle] and [validatePackage] never throw: whatever goes
    wrong is answered false, and the answer is true only for a path that
    exists and whose size is not zero. *)
Theorem validation_answers (path_ : string) (w : W) :
  (exists answer w',
     validateBundle path_ w = (Ok answer, w') /\
     (answer = true ->
      exists w1 stats,
        pathExists path_ w = (Ok true, w1) /\
        stat path_ w1 = (Ok stats, w') /\ size stats <> 0)) /\
  (exists answer w',
     validatePackage path_ w = (Ok answer, w') /\
     (answer = true ->
      exists w1 stats,
        pathExists path_ w = (Ok true, w1) /\
        stat path_ w1 = (Ok stats, w') /\ size stats <> 0)).
Proof.
  split.
  - unfold validateBundle, try_catch, bind, ret.
    destruct (pathExists path_ w) as [[[]|e] w1]; cbn [negb];
      try (eexists _, _; split; [reflexivity | discriminate]).
    destruct (stat path_ w1) as [[stats|e] w2] eqn:Hstat;
      [|eexists _, _; split; [reflexivity | discriminate]].
    destruct (Z.eqb_spec (size stats) 0);
      eexists _, _; (split; [reflexivity|]); [discriminate|].
    intros _. exists w1, stats. auto.
  - unfold validatePackage, try_catch, bind, ret.
    destruct (pathExists path_ w) as [[[]|e] w1]; cbn [negb];
      try (eexists _, _; split; [reflexivity | discriminate]).
    destruct (stat path_ w1) as [[stats|e] w2] eqn:Hstat;
      [|eexists _, _; split; [reflexivity | discriminate]].
    destruct (Z.eqb_spec (size stats) 0);
      eexists _, _; (split; [reflexivity|]); [discriminate|].
    intros _. exists w1, stats. auto.
Qed.

(** X16. [verifyFileIntegrity] never throws. It accepts the digest that
    [calculateSHA256] gives for the file, with the sha256: prefix in front
    or, when the digest does not itself start with that prefix, without it;
    so it accepts what [calculateSHA256WithPrefix] returns. A file whose
    stream fails is answered false. *)
Theorem integrity_check_accepts_own_digest (filePath : string) (w : W) :
  (forall expectedHash, exists answer w',
     verifyFileIntegrity filePath expectedHash w = (Ok answer, w')) /\
  (forall digest w',
     calculateSHA256 filePath w = (Ok digest, w') ->
     verifyFileIntegrity filePath ("sha256:" ++ digest) w = (Ok true, w') /\
     (String.prefix "sha256:" digest = false ->
      verifyFileIntegrity filePath digest w = (Ok true, w'))) /\
  (forall tagged w',
     calculateSHA256WithPrefix filePath w = (Ok tagged, w') ->
     verifyFileIntegrity filePath tagged w = (Ok true, w')) /\
  (forall e w' expectedHash,
     createReadStream filePath w = (Throw e, w') ->
     verifyFileIntegrity filePath expectedHash w = (Ok false, w')).
Proof.
  assert (Hown : forall digest w',
     calculateSHA256 filePath w = (Ok digest, w') ->
     verifyFileIntegrity filePath ("sha256:" ++ digest) w = (Ok true, w')).
  { intros digest w' Hdigest. unfold verifyFileIntegrity, try_catch, bind.
    rewrite Hdigest. rewrite tagged_is_stripped. unfold ret.
    now rewrite String.eqb_refl. }
  split; [|split; [|split]].
  - intros expectedHash. unfold verifyFileIntegrity, try_catch.
    match goal with |- context [match ?body w with _ => _ end] =>
      destruct (body w) as [[answer|e] w'] end; unfold ret; eauto.
  - intros digest w' Hdigest. split; [now apply Hown|].
    intros Hplain. unfold verifyFileIntegrity, try_catch, bind.
    rewrite Hdigest, Hplain. unfold ret. now rewrite String.eqb_refl.
  - intros tagged w'. unfold calculateSHA256WithPrefix, bind.
    destruct (calculateSHA256 filePath w) as [[digest|e] w1] eqn:Hdigest;
      [|discriminate].
    unfold ret. intros [= <- <-]. now apply Hown.
  - intros e w' expectedHash Hstream.
    unfold verifyFileIntegrity, try_catch, bind, calculateSHA256, bind.
    now rewrite Hstream.
Qed.

(** X17. The digest of a file does not depend on how its stream is cut
    into chunks: for a hash whose [update] is an append on what was fed
    before, [calculateSHA256] returns the digest of the concatenation of
    the chunks, that is of the content of the file. *)
Theorem digest_ignores_chunking (filePath : string) (w : W)
    (chunks : list (list ascii)) (w' : W) :
  (forall h a b, hash_update (hash_update h a) b = hash_update h (a ++ b)%list) ->
  (forall h, hash_update h [] = h) ->
  createReadStream filePath w = (Ok chunks, w') ->
  calculateSHA256 filePath w =
    (Ok (digest_hex (hash_update createHash (List.concat chunks))), w').
Proof.
  intros Happ Hnil Hstream. unfold calculateSHA256, bind.
  rewrite Hstream. unfold ret.
  now rewrite (fold_update_app Happ Hnil).
Qed.

(** X18. A failure to hash the bundle does not fail [generateManifest]: the
    manifest is written all the same, with the empty string for
    bundleSHA256, while [getBundleInfo] on the same bundle throws. When
    hashing succeeds the manifest carries the digest after the sha256:
    prefix. *)
Theorem manifest_survives_hash_failure (projectRoot platform_ bundlePath_ : string)
    (assets_ : list AssetFile) (outputDir : string)
    (w w1 w2 w3 w4 w5 : W) (stats : Stats) (now : Z) (packageJson : json)
    (version : option json) :
  stat bundlePath_ w = (Ok stats, w1) ->
  clock_now w2 = (now, w3) ->
  require_json (path_join projectRoot "package.json") w3 = (Ok packageJson, w4) ->
  Config.property packageJson "version" w4 = (Ok version, w5) ->
  (forall e,
     createReadStream bundlePath_ w1 = (Throw e, w2) ->
     generateManifest projectRoot platform_ bundlePath_ assets_ outputDir w =
       writeJSON (path_join outputDir "manifest.json")
         (bundle_manifest platform_ bundlePath_ stats EmptyString assets_ now
                          version) w5 /\
     getBundleInfo bundlePath_ w = (Throw e, w2)) /\
  (forall digest,
     calculateSHA256 bundlePath_ w1 = (Ok digest, w2) ->
     generateManifest projectRoot platform_ bundlePath_ assets_ outputDir w =
       writeJSON (path_join outputDir "manifest.json")
         (bundle_manifest platform_ bundlePath_ stats ("sha256:" ++ digest)
                          assets_ now version) w5).
Proof.
  intros Hstat Hnow Hrequire Hversion. split.
  - intros e Hstream. split.
    + unfold generateManifest, bind at 1. rewrite Hstat.
      unfold bind at 1, try_catch, calculateSHA256WithPrefix, calculateSHA256,
        bind at 1 2.
      rewrite Hstream. unfold ret at 1.
      unfold bind at 1, Date_now. rewrite Hnow.
      unfold bind at 1. rewrite Hrequire.
      unfold bind. rewrite Hversion. reflexivity.
    + unfold getBundleInfo, bind at 1. rewrite Hstat.
      unfold bind, calculateSHA256WithPrefix, calculateSHA256, bind.
      now rewrite Hstream.
  - intros digest Hdigest.
    unfold generateManifest, bind at 1. rewrite Hstat.
    unfold bind at 1, try_catch, calculateSHA256WithPrefix, bind at 1.
    rewrite Hdigest. unfold ret at 1.
    unfold bind at 1, Date_now. rewrite Hnow.
    unfold bind at 1. rewrite Hrequire.
    unfold bind. rewrite Hversion. reflexivity.
Qed.

(** X19. [countPackageContents] looks at the entries of the directory
    itself and at files only: the asset count is at most the number of
    entries, and, reading a file system that reading does not change, for a
    directory whose entries, manifest.json apart, are all directories, as
    the one a platform build leaves, the bundle size and the asset count
    are both 0. *)
Theorem package_counts_are_shallow (sourceDir : string) (w : W)
    (files : list string) (w1 : W) (counted : PackageContents) (w' : W) :
  readdir sourceDir w = (Ok files, w1) ->
  countPackageContents sourceDir w = (Ok counted, w') ->
  0 <= assets counted <= Z.of_nat (List.length files) /\
  ((forall p (w0 : W) r w2, stat p w0 = (r, w2) -> w2 = w0) ->
   (forall p (w0 : W) r w2, readJSON p w0 = (r, w2) -> w2 = w0) ->
   (forall file stats w2,
      In file files -> file <> "manifest.json" ->
      stat (path_join sourceDir file) w1 = (Ok stats, w2) ->
      isFile stats = false) ->
   bundle counted = 0 /\ assets counted = 0 /\ w' = w1).
Proof.
  intros Hdir. unfold countPackageContents, bind at 1. rewrite Hdir.
  intros Hloop. split.
  - assert (Hbound : forall items start (wa : W) result wb,
      for_each (count_entry sourceDir) items start wa = (Ok result, wb) ->
      assets start <= assets result
        <= assets start + Z.of_nat (List.length items)).
    { induction items as [|file items IH]; intros start wa result wb.
      - simpl. intros [= <- <-]. lia.
      - cbn [for_each]. unfold bind at 1.
        destruct (count_entry sourceDir start file wa) as [[next|e] wc] eqn:Hstep;
          [|discriminate].
        intros Hrest. apply IH in Hrest.
        assert (Hnext : assets start <= assets next <= assets start + 1).
        { revert Hstep. unfold count_entry, bind, ret.
          destruct (stat _ wa) as [[stats|e] wd]; [|discriminate].
          destruct (isFile stats); [|intros [= <- <-]; lia].
          destruct (_ || _); [intros [= <- <-]; simpl; lia|].
          destruct (String.eqb file "manifest.json").
          - destruct (readJSON _ wd) as [[document|e] we]; [|discriminate].
            intros [= <- <-]. simpl. lia.
          - destruct (negb _); intros [= <- <-]; simpl; lia. }
        cbn [List.length]. rewrite Nat2Z.inj_succ. lia. }
    apply Hbound in Hloop. simpl in Hloop. lia.
  - intros Hstat_pure Hread_pure Hdirs.
    assert (Hsteps : forall items start result wb,
      (forall file, In file items -> In file files) ->
      bundle start = 0 -> assets start = 0 ->
      for_each (count_entry sourceDir) items start w1 = (Ok result, wb) ->
      bundle result = 0 /\ assets result = 0 /\ wb = w1).
    { induction items as [|file items IH]; intros start result wb Hin Hb Ha.
      - simpl. intros [= <- <-]. auto.
      - cbn [for_each]. unfold bind at 1.
        destruct (count_entry sourceDir start file w1) as [[next|e] wc] eqn:Hstep;
          [|discriminate].
        assert (Hnext : bundle next = 0 /\ assets next = 0 /\ wc = w1).
        { revert Hstep. unfold count_entry, bind, ret.
          destruct (stat _ w1) as [[stats|e] wd] eqn:Hstat; [|discriminate].
          pose proof (Hstat_pure _ _ _ _ Hstat) as ->.
          destruct (String.eqb_spec file "manifest.json") as [->|Hother].
          - destruct (isFile stats); [|intros [= <- <-]; auto].
            assert (Hname : Builder.includes "manifest.json" ".bundle"
                            || Builder.includes "manifest.json" ".jsbundle" = false)
              by (vm_compute; reflexivity).
            rewrite Hname.
            destruct (readJSON _ w1) as [[document|e] we] eqn:Hread;
              [|discriminate].
            pose proof (Hread_pure _ _ _ _ Hread) as ->.
            intros [= <- <-]. auto.
          - rewrite (Hdirs file stats w1 (Hin file (or_introl eq_refl))
                           Hother Hstat).
            intros [= <- <-]. auto. }
        destruct Hnext as (Hb' & Ha' & ->).
        apply IH; [|exact Hb'|exact Ha'].
        intros f Hf. apply Hin. now right. }
    eapply Hsteps; [| | |exact Hloop]; [auto | reflexivity | reflexivity].
Qed.

End WithRuntime.

End IntegrityFacts.

(** ** What verification does not look at, and what the check reports once *)

Module ReportFacts.
Import Eff Json Runtime Signature Bundle Builder SignatureFacts.
Local Open Scope eff_scope.










Section WithRuntime.
Context {W : Type} {clock : Clock W} {crypto : Crypto W}
        {fs : FileSystem W} {tools : Tools W} {pure : Pure} {sha : Sha256}.

(** X20. Only the first two colon-separated parts of a signature text are
    looked at: whatever follows a second colon is ignored, so a signature
    text with anything appended after a colon gets the same verdict as
    the signature itself. *)
Theorem trailing_signature_parts_are_ignored
    (data algorithm_ payload extra : string) (publicKey_ : json) (w : W) :
  Str.has_char ":"%char algorithm_ = false ->
  Str.has_char ":"%char payload = false ->
  verifySignature data (JStr (algorithm_ ++ ":" ++ payload ++ ":" ++ extra))
                  publicKey_ w
  = verifySignature data (JStr (algorithm_ ++ ":" ++ payload)) publicKey_ w.
Proof.
  intros Halg Hpayload.
  assert (Hlong : List.firstn 2
            (split_on ":"%char (algorithm_ ++ ":" ++ payload ++ ":" ++ extra))
          = [algorithm_; payload]).
  { change (algorithm_ ++ ":" ++ payload ++ ":" ++ extra)
      with (algorithm_ ++ String ":"%char (payload ++ String ":"%char extra)).
    rewrite split_on_app by exact Halg.
    rewrite split_on_app by exact Hpayload. reflexivity. }
  assert (Hshort : List.firstn 2 (split_on ":"%char (algorithm_ ++ ":" ++ payload))
          = [algorithm_; payload]).
  { change (algorithm_ ++ ":" ++ payload)
      with (algorithm_ ++ String ":"%char payload).
    rewrite split_on_app by exact Halg.
    rewrite split_on_no_sep by exact Hpayload. reflexivity. }
  unfold verifySignature. now rewrite Hlong, Hshort.
Qed.


End WithRuntime.

End ReportFacts.

(** ** What the patterns of the consistency check extract *)

Module ReferenceFacts.
Import Json Runtime Regex Builder.

(** A reference as the patterns capture it: one or more characters that
    are not quotes, a dot and one of the image extensions. *)
Definition image_reference (text : string) : Prop :=
  exists stem extension,
    text = Str.of_list stem ++ "." ++ extension /\
    In extension image_extensions /\
    stem <> [] /\
    Forall (fun c => not_quote c = true) stem.

(** The part of both patterns from the opening of the group on. *)
Definition capture_tail : list piece :=
  [ Open; Many not_quote; Lit "."; AnyOf image_extensions; Close;
    OneOf is_quote; Lit "]" ].

(** A piece that is not the opening or the closing of the group. *)
Definition plain (p : piece) : Prop :=
  match p with
  | Open | Close => False
  | _ => True
  end.

Lemma strip_prefix_split text : forall input rest,
  strip_prefix text input = Some rest -> input = (text ++ rest)%list.
Proof.
  induction text as [|c text IH]; simpl; intros input rest.
  - now intros [= <-].
  - destruct input as [|d input]; [discriminate|].
    destruct (Ascii.eqb_spec c d) as [<-|]; [|discriminate].
    intros Hrest. now rewrite (IH _ _ Hrest).
Qed.

Lemma after_many_split class input : forall rest,
  In rest (after_many class input) ->
  exists taken,
    input = (taken ++ rest)%list /\ taken <> [] /\
    Forall (fun c => class c = true) taken.
Proof.
  induction input as [|c input IH]; simpl; intros rest; [tauto|].
  destruct (class c) eqn:Hc; [|intros []].
  intros Hin. apply in_app_or in Hin as [Hin | [<- | []]].
  - destruct (IH _ Hin) as (taken & -> & _ & Hall).
    exists (c :: taken). split; [reflexivity|]. split; [discriminate|].
    now apply List.Forall_cons.
  - exists [c]. split; [reflexivity|]. split; [discriminate|].
    apply List.Forall_cons; [exact Hc | apply List.Forall_nil].
Qed.

Lemma of_list_app (a b : list ascii) :
  Str.of_list (a ++ b) = Str.of_list a ++ Str.of_list b.
Proof. induction a as [|c a IH]; simpl; congruence. Qed.

Lemma firstn_taken {A} (taken rest : list A) :
  List.firstn (List.length (taken ++ rest) - List.length rest) (taken ++ rest)
  = taken.
Proof.
  rewrite List.length_app.
  replace (List.length taken + List.length rest - List.length rest)%nat
    with (List.length taken + 0)%nat by lia.
  rewrite List.firstn_app_2. simpl. apply List.app_nil_r.
Qed.

(** Every match of the tail captures an image reference. *)
Lemma capture_tail_captures input caps out caps' :
  In (out, caps') (run capture_tail input caps) ->
  exists text, group1 caps' = Some text /\ image_reference text.
Proof.
  unfold capture_tail. cbn [run]. intros Hin.
  apply in_flat_map in Hin as (rest1 & Hmany & Hin).
  destruct (after_many_split _ _ _ Hmany) as (stem & Hinput & Hstem & Hall).
  destruct (strip_prefix (Str.to_list ".") rest1) as [rest2|] eqn:Hdot;
    [|destruct Hin].
  apply strip_prefix_split in Hdot.
  apply in_flat_map in Hin as (extension & Hext & Hin).
  destruct (strip_prefix (Str.to_list extension) rest2) as [rest3|] eqn:Hsuffix;
    [|destruct Hin].
  apply strip_prefix_split in Hsuffix.
  cbn [opened group1] in Hin.
  destruct rest3 as [|q rest4]; [destruct Hin|].
  destruct (is_quote q); [|destruct Hin].
  destruct (strip_prefix (Str.to_list "]") rest4) as [rest5|]; [|destruct Hin].
  destruct Hin as [[= <- <-] | []].
  eexists. split; [reflexivity|].
  exists stem, extension. split; [|auto].
  subst rest1 rest2.
  assert (Hwhole : input
            = ((stem ++ Str.to_list "." ++ Str.to_list extension)
               ++ q :: rest4)%list).
  { rewrite Hinput. now rewrite <- !List.app_assoc. }
  clear Hinput Hmany. subst input.
  change (S (List.length rest4)) with (List.length (q :: rest4)).
  rewrite firstn_taken.
  rewrite !of_list_app, !StrFacts.of_to_list. reflexivity.
Qed.

(** The pieces in front of the group only move along the input. *)
Lemma plain_prefix (pieces : list piece) (tail : list piece) :
  Forall plain pieces ->
  forall input caps out caps',
    In (out, caps') (run (pieces ++ tail) input caps) ->
    exists input', In (out, caps') (run tail input' caps).
Proof.
  induction 1 as [|p pieces Hp _ IH]; intros input caps out caps' Hin.
  - eauto.
  - destruct p as [text|class|class|alternatives|alternatives| |];
      cbn [app run] in Hin; try contradiction.
    + destruct (strip_prefix (Str.to_list text) input); [eauto | destruct Hin].
    + destruct input as [|c rest]; [destruct Hin|].
      destruct (class c); [eauto | destruct Hin].
    + apply in_flat_map in Hin as (rest & _ & Hin). eauto.
    + apply in_flat_map in Hin as (rest & _ & Hin). eauto.
    + apply in_flat_map in Hin as (text & _ & Hin).
      destruct (strip_prefix (Str.to_list text) input); [eauto | destruct Hin].
Qed.

Lemma exec_loop_collects (pattern : list piece) (P : string -> Prop) :
  (forall input out caps',
     In (out, caps') (run pattern input no_captures) ->
     forall text, group1 caps' = Some text -> P text) ->
  forall steps input, Forall P (exec_loop steps pattern input).
Proof.
  intros Hmatch. induction steps as [|steps IH]; intros input; simpl.
  - apply List.Forall_nil.
  - destruct (run pattern input no_captures) as [|[rest caps] others] eqn:Hrun.
    + destruct input; [apply List.Forall_nil | apply IH].
    + destruct (group1 caps) as [text|] eqn:Hgroup; [|apply IH].
      apply List.Forall_cons; [|apply IH].
      apply (Hmatch input rest caps); [|exact Hgroup].
      rewrite Hrun. now left.
Qed.

Lemma pattern_captures (pieces : list piece) :
  Forall plain pieces ->
  forall content,
    Forall image_reference (exec_all (pieces ++ capture_tail) content).
Proof.
  intros Hplain content. unfold exec_all.
  apply exec_loop_collects. intros input out caps' Hin text Hgroup.
  destruct (plain_prefix _ _ Hplain _ _ _ _ Hin) as [input' Htail].
  destruct (capture_tail_captures _ _ _ _ Htail) as (found & Hfound & Hshape).
  congruence.
Qed.

Lemma set_add_In x y (set : list string) :
  In x (set_add y set) -> x = y \/ In x set.
Proof.
  unfold set_add. destruct (List.existsb _ set); [now right|].
  intros Hin. apply in_app_or in Hin as [Hin | [<- | []]];
    [now right | now left].
Qed.

Lemma fold_set_add_In (found : list string) : forall set x,
  In x (List.fold_left (fun set item => set_add item set) found set) ->
  In x found \/ In x set.
Proof.
  induction found as [|y found IH]; intros set x; simpl; [tauto|].
  intros Hin. apply IH in Hin as [Hin | Hin]; [tauto|].
  apply set_add_In in Hin as [-> | Hin]; [left; now left | now right].
Qed.

(** X25. Whatever the bundle text, every reference that the consistency
    check extracts from it is one or more characters that are not quotes,
    followed by a dot and one of png, jpg, jpeg, gif, webp and svg: only
    image files can be reported missing. *)
Theorem references_are_image_paths (bundleContent reference : string) :
  In reference (bundle_references bundleContent) ->
  image_reference reference.
Proof.
  unfold bundle_references, assetPatterns. cbn [List.fold_left].
  intros Hin.
  assert (Hrequire : Forall image_reference
                       (exec_all require_pattern bundleContent)).
  { apply (pattern_captures [Lit "require("; OneOf is_quote]).
    repeat constructor. }
  assert (Himport : Forall image_reference
                      (exec_all import_pattern bundleContent)).
  { apply (pattern_captures
             [ Lit "import"; ManyOf white_space; Many not_quote;
               ManyOf white_space; Lit "from"; ManyOf white_space;
               OneOf is_quote ]).
    repeat constructor. }
  rewrite List.Forall_forall in Hrequire, Himport.
  apply fold_set_add_In in Hin as [Hin | Hin]; [now apply Himport|].
  apply fold_set_add_In in Hin as [Hin | []]. now apply Hrequire.
Qed.

End ReferenceFacts.

(** ** More of the code at work on the small runtime *)

Module ScopeRuns.
Import Eff Json Runtime Toy Canonical Bundle Builder.
Local Open Scope eff_scope.

(** The sample manifest with another asset behind the same entry and
    another metadata block. *)
Definition manifest_a_swapped : obj :=
  [ ("version", JStr "1.2.0"); ("platform", JStr "android");
    ("bundleSize", JNum "2048");
    ("assets", JArr [JObj [("name", JStr "other.png"); ("hash", JStr "99");
                           ("url", JStr "http://elsewhere/other.png")]]);
    ("metadata", JObj [("builder", JStr "someone else")]);
    ("signature", JStr "RSA-SHA256:AAAA") ].

Lemma canonical_text_ignores_unlisted_nested_keys_witness :
  canonicalize Samples.manifest_a = canonicalize manifest_a_swapped.
Proof.
  apply (proj2 (AllowListFacts.canonical_text_ignores_unlisted_nested_keys
                  Samples.manifest_a)).
  vm_compute. reflexivity.
Defined.

(** C1 at a manifest on which the code does not do what the claim says.
    The canonical text of the sample manifest has the keys of the document
    in lexicographic order and none of the signature fields; its metadata
    block and its asset entry are printed as empty objects, their keys
    dropped where the claim has them sorted. The text, and with it the
    signature under a given key, is therefore the same for a manifest with
    another asset and another metadata block. *)
Theorem nested_keys_are_dropped_not_sorted :
  canonicalize Samples.manifest_a
    = print (JObj [ ("assets", JArr [JObj []]); ("bundleSize", JNum "2048");
                    ("metadata", JObj []); ("platform", JStr "android");
                    ("version", JStr "1.2.0") ]) /\
  includes (canonicalize Samples.manifest_a) "builder" = false /\
  includes (canonicalize Samples.manifest_a) "minified" = false /\
  includes (canonicalize Samples.manifest_a) "logo.png" = false /\
  get "metadata" Samples.manifest_a <> get "metadata" manifest_a_swapped /\
  get "assets" Samples.manifest_a <> get "assets" manifest_a_swapped /\
  canonicalize Samples.manifest_a = canonicalize manifest_a_swapped /\
  Signature.signData Runs.rsa_config (canonicalize Samples.manifest_a)
                     "rsa-2048" empty_world
  = Signature.signData Runs.rsa_config (canonicalize manifest_a_swapped)
                       "rsa-2048" empty_world.
Proof.
  split; [vm_compute; reflexivity|].
  split; [vm_compute; reflexivity|].
  split; [vm_compute; reflexivity|].
  split; [vm_compute; reflexivity|].
  split; [discriminate|]. split; [discriminate|].
  split; vm_compute; reflexivity.
Qed.





Definition other : AssetFile :=
  {| name := "other.png"; type := "png";
     httpServerLocation := "drawable-xhdpi/other.png"; scales := ["2"];
     hash := "1700000000000"; sha256 := None |}.



End ScopeRuns.

Module SigningRuns.
Import Eff Json Runtime Toy Canonical Signature.
Local Open Scope eff_scope.

(** The sample manifest once signed with the sample key at the clock of the
    sample world. *)
Definition signed_document : json :=
  JObj (embed (strip_signature Samples.manifest_a) Runs.signed_a).

(** A parser that also knows the text the signed manifest is written as. *)
Definition parse_signed (text : string) : exc json :=
  if String.eqb text (print signed_document) then Ok signed_document
  else toy_parse text.

Definition signing_pure : Pure := {|
  JSON_parse := parse_signed;
  semver_valid := toy_semver;
  isWindows := false;
  path_join := fun a b => a ++ "/" ++ b;
  path_resolve := fun p => p;
  path_basename := last_segment;
  path_extname := fun p => extension (last_segment p);
  path_dirname := parent;
  path_parse_name := fun p => stem (last_segment p)
|}.

Definition after_signing : world :=
  snd (signManifest (pure := signing_pure) Runs.rsa_config
         "out/manifest.json" "keys/private.pem" Runs.signing_world).

Lemma toy_exported_key_matches : forall private (w : world) public w',
  export_public private w = (Ok public, w') -> private = public.
Proof. intros private w public w' [= <- _]. reflexivity. Defined.

Lemma signed_manifest_verifies_witness :
  signManifest (pure := signing_pure) Runs.rsa_config
    "out/manifest.json" "keys/private.pem" Runs.signing_world
    = (Ok Runs.signed_a, after_signing) /\
  exists result w5,
    verifyManifest (pure := signing_pure) "out/manifest.json" None after_signing
      = (Ok result, w5) /\
    isValid result = true /\ error result = None /\
    vr_algorithm result = Some "RSA-SHA256" /\
    vr_timestamp result = Some (JNum "1700000000000").
Proof.
  apply (ManifestSigningFacts.signed_manifest_verifies
           (pure := signing_pure) eq toy_exported_key_matches
           Runs.toy_signed_verifies Runs.rsa_config
           "out/manifest.json" "keys/private.pem"
           "<manifest a>" "rsa-2048" (print signed_document)
           Samples.manifest_a Runs.signed_a
           Runs.signing_world Runs.signing_world Runs.signing_world
           {| clock := 1700000000001; nodes := nodes Runs.signing_world;
              console := [] |}
           after_signing after_signing).
  - left. reflexivity.
  - vm_compute. reflexivity.
  - vm_compute. reflexivity.
  - vm_compute. reflexivity.
  - vm_compute. reflexivity.
  - vm_compute. discriminate.
  - vm_compute. reflexivity.
  - vm_compute. reflexivity.
  - vm_compute. reflexivity.
Defined.

(** A manifest file that holds the sample package description, which has no
    signature, and the sample manifest, signed but with no key inside. *)
Lemma verifyManifest_early_results_witness :
  verifyManifest "proj/package.json" (Some "keys/public.pem")
                 ConfigRuns.project_world
    = (Ok no_signature, ConfigRuns.project_world) /\
  verifyManifest "out/manifest.json" None Runs.signing_world
    = (Ok no_public_key, Runs.signing_world).
Proof.
  split.
  - refine (proj1 (ManifestSigningFacts.verifyManifest_early_results
                     (W := world) "proj/package.json" "<package.json>"
                     [ ("name", JStr "demo"); ("version", JStr "1.2.0");
                       ("dependencies", JObj [("react-native", JStr "0.72.0")]) ]
                     ConfigRuns.project_world ConfigRuns.project_world
                     _ _) _ _);
      vm_compute; reflexivity.
  - refine (proj2 (ManifestSigningFacts.verifyManifest_early_results
                     (W := world) "out/manifest.json" "<manifest a>"
                     Samples.manifest_a
                     Runs.signing_world Runs.signing_world
                     _ _) _ _ _ _);
      vm_compute; reflexivity.
Defined.

Definition md5_config : SignatureConfig :=
  {| algorithm := "MD5"; privateKeyPath := None; publicKeyPath := None;
     keySize := None |}.

Lemma signing_failures_are_wrapped_witness :
  signData md5_config "data" "rsa-2048" empty_world
    = (Throw (ErrorObj "Failed to sign data: Unsupported algorithm: MD5"),
       empty_world) /\
  exists reason,
    signManifest md5_config "out/manifest.json" "keys/private.pem"
                 Runs.signing_world
    = (Throw (ErrorObj ("Failed to sign manifest: Failed to sign data: "
                        ++ reason)), Runs.signing_world).
Proof.
  destruct (ManifestSigningFacts.signing_failures_are_wrapped
              (W := world) md5_config) as (_ & Hunsupported & _ & Hnested).
  split.
  - apply Hunsupported; reflexivity.
  - apply (Hnested "out/manifest.json" "keys/private.pem" "<manifest a>"
                   Samples.manifest_a "rsa-2048"
                   (ErrorObj "Failed to sign data: Unsupported algorithm: MD5")
                   Runs.signing_world Runs.signing_world Runs.signing_world
                   Runs.signing_world);
      vm_compute; reflexivity.
Defined.

Lemma trailing_signature_parts_are_ignored_witness :
  verifySignature "data" (JStr "RSA-SHA256:cnNhLTIwNDh8ZGF0YQ==:anything")
                  (JStr "rsa-2048") empty_world
  = verifySignature "data" (JStr "RSA-SHA256:cnNhLTIwNDh8ZGF0YQ==")
                    (JStr "rsa-2048") empty_world.
Proof.
  apply (ReportFacts.trailing_signature_parts_are_ignored
           (W := world) "data" "RSA-SHA256" "cnNhLTIwNDh8ZGF0YQ==" "anything"
           (JStr "rsa-2048") empty_world);
    reflexivity.
Defined.

(** The verdict on both texts is that the signature is valid. *)
Example appended_text_still_verifies :
  fst (verifySignature "data" (JStr "RSA-SHA256:cnNhLTIwNDh8ZGF0YQ==:anything")
                       (JStr "rsa-2048") empty_world)
  = Ok {| isValid := true; error := None; vr_algorithm := Some "RSA-SHA256";
          vr_timestamp := Some (JNum "1700000000000") |}.
Proof. vm_compute. reflexivity. Qed.

End SigningRuns.

Module LoadRuns.
Import Eff Json Runtime Toy Config ConfigLoad Prompt.
Local Open Scope eff_scope.

(** A configuration file whose signature block is switched off and names an
    algorithm that is not supported. *)
Definition unsigned_config : UserConfig :=
  {| u_project := Some {| up_path := Some "proj"; up_entryFile := None |};
     u_build := None;
     u_signature :=
       Some {| us_enabled := Some false; us_algorithm := Some "MD5";
               us_privateKeyPath := Some "keys/missing.pem";
               us_publicKeyPath := None; us_autoGenerate := Some false |} |}.

(** A configuration file whose version is the empty string and whose
    signature block is switched on with the empty string for an algorithm. *)
Definition empty_settings : UserConfig :=
  {| u_project := Some {| up_path := Some "proj"; up_entryFile := None |};
     u_build :=
       Some {| ub_platforms := None; ub_version := Some EmptyString;
               ub_outputPath := None; ub_bundleName := None;
               ub_sourcemap := None; ub_minify := None |};
     u_signature :=
       Some {| us_enabled := Some true; us_algorithm := Some EmptyString;
               us_privateKeyPath := None; us_publicKeyPath := None;
               us_autoGenerate := None |} |}.

(** The configuration files the small runtime knows, by their text. *)
Definition configurations : list (string * UserConfig) :=
  [ ("<unsigned config>", unsigned_config);
    ("<empty settings>", empty_settings);
    ("<web config>",
     {| u_project := Some {| up_path := Some "proj"; up_entryFile := None |};
        u_build :=
          Some {| ub_platforms := Some ["ios"; "web"]; ub_version := None;
                  ub_outputPath := None; ub_bundleName := None;
                  ub_sourcemap := None; ub_minify := None |};
        u_signature := None |}) ].

#[global] Instance toy_config_file : ConfigFile world := {|
  readConfig := fun p =>
    bind (toy_readFile p)
         (fun text =>
            match get text configurations with
            | Some found => ret found
            | None => throw (ErrorObj "Unexpected token in JSON")
            end)
|}.

Definition configured_world : world :=
  {| clock := 1700000000000;
     nodes := [ ("proj", Dir ["package.json"]);
                ("proj/package.json", File "<package.json>" 0);
                ("hotupdate.config.json", File "<unsigned config>" 0);
                ("empty.config.json", File "<empty settings>" 0);
                ("web.config.json", File "<web config>" 0);
                ("broken.config.json", File "{" 0) ];
     console := [] |}.

Lemma signature_block_follows_enabled_witness :
  signature (mergeWithDefaults unsigned_config) = None /\
  (forall w : world,
     check_signature (mergeWithDefaults unsigned_config) w = (Ok tt, w)) /\
  (forall (w : world) bc w',
     toBuildConfig (mergeWithDefaults unsigned_config) w = (Ok bc, w') ->
     bc_signature bc = None).
Proof.
  apply (proj1 (LoadFacts.signature_block_follows_enabled
                  (W := world) unsigned_config)).
  reflexivity.
Defined.

Lemma loadConfig_outcomes_witness :
  loadConfig None empty_world
    = (Throw (ErrorObj
                "Configuration file not found: hotupdate.config.json"),
       empty_world) /\
  loadConfig (Some "broken.config.json") configured_world
    = (Throw (ErrorObj "Failed to load config: Unexpected token in JSON"),
       configured_world) /\
  loadConfig (Some "web.config.json") configured_world
    = (Throw (ErrorObj
         "Failed to load config: Invalid platform: web. Valid platforms: ios, android"),
       configured_world).
Proof.
  split; [|split].
  - refine (proj1 (LoadFacts.loadConfig_outcomes (W := world) None empty_world)
                  empty_world _).
    vm_compute. reflexivity.
  - refine (proj1 (proj2 (LoadFacts.loadConfig_outcomes
                            (W := world) (Some "broken.config.json")
                            configured_world))
                  configured_world (ErrorObj "Unexpected token in JSON")
                  configured_world _ _);
      vm_compute; reflexivity.
  - refine (proj1 (proj2 (proj2 (LoadFacts.loadConfig_outcomes
                                   (W := world) (Some "web.config.json")
                                   configured_world)))
                  configured_world _ configured_world
                  (ErrorObj "Invalid platform: web. Valid platforms: ios, android")
                  configured_world _ _ _);
      vm_compute; reflexivity.
Defined.

(** The file with the signature block switched off loads, and loads as the
    defaults with the project path of the file. *)
Example unsigned_config_loads :
  loadConfig None configured_world
  = (Ok {| project := {| path := "proj"; entryFile := None |};
           build := {| platforms := ["ios"; "android"]; version := None;
                       outputPath := "./hotupdate-build";
                       bundleName := Some "index"; sourcemap := Some false;
                       minify := Some true |};
           signature := None |}, configured_world).
Proof. vm_compute. reflexivity. Qed.

(** A signature block that is switched off and names MD5, as
    [validateConfig] may be handed it. *)
Definition disabled_md5 : HotUpdateConfig :=
  {| project := {| path := "proj"; entryFile := None |};
     build := {| platforms := ["ios"]; version := Some "1.2.0";
                 outputPath := "out"; bundleName := None; sourcemap := None;
                 minify := None |};
     signature :=
       Some {| enabled := false; algorithm := Some "MD5";
               privateKeyPath := None; publicKeyPath := None;
               autoGenerate := Some false |} |}.

(** C6 as stated fails on its first part: not every invalid version or
    algorithm makes validation fail. The empty string is no semantic
    version and no supported algorithm, and a configuration with the empty
    string for both passes validation and loads; MD5 is no supported
    algorithm, and a signature block that names it passes validation when
    it is switched off, and a file with such a block loads. *)
Lemma empty_and_disabled_settings_pass_validation :
  semver_valid EmptyString = false /\
  includes validAlgorithms EmptyString = false /\
  includes validAlgorithms "MD5" = false /\
  version (build (mergeWithDefaults empty_settings)) = Some EmptyString /\
  (exists sig,
     signature (mergeWithDefaults empty_settings) = Some sig /\
     enabled sig = true /\ algorithm sig = Some EmptyString) /\
  validateConfig (mergeWithDefaults empty_settings) configured_world
    = (Ok tt, configured_world) /\
  loadConfig (Some "empty.config.json") configured_world
    = (Ok (mergeWithDefaults empty_settings), configured_world) /\
  validateConfig disabled_md5 configured_world = (Ok tt, configured_world) /\
  loadConfig None configured_world
    = (Ok (mergeWithDefaults unsigned_config), configured_world) /\
  ~ (exists e w',
       validateConfig (mergeWithDefaults empty_settings) configured_world
       = (Throw e, w')) /\
  ~ (exists e w', validateConfig disabled_md5 configured_world = (Throw e, w')).
Proof.
  split; [reflexivity|]. split; [reflexivity|]. split; [reflexivity|].
  split; [reflexivity|].
  split; [eexists; split; [reflexivity|]; split; reflexivity|].
  split; [vm_compute; reflexivity|]. split; [vm_compute; reflexivity|].
  split; [vm_compute; reflexivity|]. split; [vm_compute; reflexivity|].
  split; intros (e & w' & Hthrown); vm_compute in Hthrown; discriminate.
Qed.

(** The build of that configuration takes its version from package.json and
    signs with RSA-SHA256. *)
Example empty_settings_build :
  exists bc bs,
    fst (toBuildConfig (mergeWithDefaults empty_settings) configured_world)
      = Ok bc /\
    bc_version bc = JStr "1.2.0" /\
    bc_signature bc = Some bs /\ bs_algorithm bs = "RSA-SHA256" /\
    bs_autoGenerate bs = true.
Proof.
  eexists _, _. split; [vm_compute; reflexivity|]. repeat split.
Qed.

(** A configuration with no version, in the sample project. *)
Definition versionless : HotUpdateConfig :=
  {| project := {| path := "proj"; entryFile := None |};
     build := {| platforms := ["ios"]; version := None; outputPath := "out";
                 bundleName := None; sourcemap := None; minify := None |};
     signature := None |}.

Definition from_package : BuildConfig :=
  {| bc_platforms := ["ios"]; bc_version := JStr "1.2.0";
     bc_projectPath := "proj";
     bc_outputPath := "out"; bc_bundleName := None; bc_sourcemap := None;
     bc_minify := None; bc_signature := None |}.

Definition from_nothing : BuildConfig :=
  {| bc_platforms := ["ios"]; bc_version := JStr "1.0.0";
     bc_projectPath := "proj";
     bc_outputPath := "out"; bc_bundleName := None; bc_sourcemap := None;
     bc_minify := None; bc_signature := None |}.

(** The package.json of the project gives its version as the number 2. *)
Definition numbered_world : world :=
  {| clock := 1700000000000;
     nodes := [ ("proj", Dir ["package.json"]);
                ("proj/package.json", File "<package.json, version 2>" 0) ];
     console := [] |}.

Definition from_number : BuildConfig :=
  {| bc_platforms := ["ios"]; bc_version := JNum "2";
     bc_projectPath := "proj";
     bc_outputPath := "out"; bc_bundleName := None; bc_sourcemap := None;
     bc_minify := None; bc_signature := None |}.

Lemma build_version_is_never_empty_witness :
  Signature.falsy (Some (bc_version from_package)) = false /\
  (bc_version from_nothing = JStr "1.0.0" /\ empty_world = empty_world) /\
  (forall found,
     get "version"
         [ ("name", JStr "demo"); ("version", JNum "2");
           ("dependencies", JObj [("react-native", JStr "0.72.0")]) ]
       = Some found ->
     Signature.falsy (Some found) = false ->
     bc_version from_number = found).
Proof.
  split; [|split].
  - refine (proj1 (LoadFacts.build_version_is_never_empty
                     versionless ConfigRuns.project_world from_package
                     ConfigRuns.project_world _)).
    vm_compute. reflexivity.
  - refine (proj1 (proj2 (proj2 (LoadFacts.build_version_is_never_empty
                                   versionless empty_world from_nothing
                                   empty_world _)) _) empty_world _);
      vm_compute; reflexivity.
  - refine (proj1 (proj2 (proj1 (proj2
              (proj2 (proj2 (LoadFacts.build_version_is_never_empty
                               versionless numbered_world from_number
                               numbered_world _)) _))
              numbered_world _ numbered_world _ _)));
      vm_compute; reflexivity.
Defined.

(** The number 2 of package.json arrives as the number 2, where the
    configuration gives no version. *)
Example numeric_package_version_is_kept :
  fst (toBuildConfig versionless numbered_world) = Ok from_number.
Proof. vm_compute. reflexivity. Qed.

Lemma project_detection_agrees_witness :
  check_project versionless ConfigRuns.project_world
    = (Ok tt, ConfigRuns.project_world) /\
  exists answer w',
    isReactNativeProject "nowhere" empty_world = (Ok answer, w').
Proof.
  destruct (LoadFacts.project_detection_agrees
              versionless ConfigRuns.project_world ConfigRuns.project_world)
    as [Hagree Htotal]; [vm_compute; reflexivity|].
  split.
  - apply Hagree. vm_compute. reflexivity.
  - apply Htotal.
Defined.

(** Where there is no package.json the detection answers false. *)
Example detection_without_package :
  isReactNativeProject "nowhere" empty_world = (Ok false, empty_world).
Proof. vm_compute. reflexivity. Qed.

End LoadRuns.

Module AssetRuns.
Import Eff Json Runtime Toy Bundle Builder.
Local Open Scope eff_scope.

Lemma no_bracket_no_reference_witness :
  bundle_references BuildRuns.bundle_text = [] /\
  verifyAssetConsistency "out/android/bundles/index.android.bundle"
                         "out/android/assets" BuildRuns.bundle_world
  = (Ok {| valid := true; warnings := [] |}, BuildRuns.bundle_world).
Proof.
  destruct (AssetFacts.no_bracket_no_reference
              (W := world) "out/android/bundles/index.android.bundle"
              "out/android/assets" BuildRuns.bundle_text)
    as [Hnone Hvalid]; [vm_compute; reflexivity|].
  split; [exact Hnone|].
  apply (Hvalid BuildRuns.bundle_world BuildRuns.bundle_world []
                BuildRuns.bundle_world);
    vm_compute; reflexivity.
Defined.

Lemma metro_records_witness :
  Forall AssetFacts.metro_record
    [ {| name := "logo.png"; type := "png";
         httpServerLocation := "drawable-mdpi/logo.png";
         scales := ["1"]; hash := "1694123456789"; sha256 := None |} ] /\
  analyzeMetroAssets "out/ios/assets" BuildRuns.assets_world
    = (Ok [], BuildRuns.assets_world).
Proof.
  split.
  - refine (proj1 (AssetFacts.metro_records
                     (W := world) "out/android/assets" BuildRuns.assets_world)
                  _ BuildRuns.assets_world _).
    vm_compute. reflexivity.
  - apply (proj2 (AssetFacts.metro_records
                    (W := world) "out/ios/assets" BuildRuns.assets_world)).
    intros dir Hdir. simpl in Hdir.
    repeat (destruct Hdir as [<- | Hdir]; [vm_compute; reflexivity|]).
    destruct Hdir.
Defined.

Definition copied_font : list AssetFile :=
  [ {| name := "font.ttf"; type := "ttf";
       httpServerLocation := "assets/assets/font.ttf";
       scales := ["1"]; hash := "1694123456789";
       sha256 := Some "6162" |} ].

Lemma copied_records_witness : Forall AssetFacts.copied_record copied_font.
Proof.
  refine (AssetFacts.copied_records
            (W := world) "proj" "out/android/assets" ["assets/**/*"] []
            BuildRuns.supplementary_world copied_font
            (snd (copyAssets "proj" ["assets/**/*"] "out/android/assets" []
                             BuildRuns.supplementary_world)) _).
  vm_compute. reflexivity.
Defined.

(** A project whose entry file is index.tsx. *)
Definition typed_project : world :=
  {| clock := 1700000000000;
     nodes := [ ("proj", Dir ["index.tsx"]);
                ("proj/index.tsx", File "export {}" 0) ];
     console := [] |}.

Lemma entry_file_is_a_candidate_witness :
  In "index.tsx" ["index.js"; "index.ts"; "index.jsx"; "index.tsx"] /\
  findEntryFile BuildRuns.three_platforms empty_world
    = (Ok "index.js", empty_world).
Proof.
  split.
  - refine (proj1 (AssetFacts.entry_file_is_a_candidate
                     (W := world) BuildRuns.three_platforms typed_project)
                  "index.tsx" typed_project _).
    vm_compute. reflexivity.
  - apply (proj2 (proj2 (AssetFacts.entry_file_is_a_candidate
                           (W := world) BuildRuns.three_platforms empty_world))).
    intros entry Hentry. simpl in Hentry.
    repeat (destruct Hentry as [<- | Hentry]; [vm_compute; reflexivity|]).
    destruct Hentry.
Defined.

(** The results of the three-platform build of the sample world. *)
Definition three_results : list BuildResult :=
  match fst (buildAllPlatforms BuildRuns.three_platforms empty_world) with
  | Ok results => results
  | Throw _ => []
  end.

Lemma results_are_well_shaped_witness :
  Forall (AssetFacts.well_shaped BuildRuns.three_platforms) three_results.
Proof.
  refine (AssetFacts.results_are_well_shaped
            (W := world) BuildRuns.three_platforms empty_world three_results
            (snd (buildAllPlatforms BuildRuns.three_platforms empty_world)) _).
  vm_compute. reflexivity.
Defined.



End AssetRuns.

Module IntegrityRuns.
Import Eff Json Runtime Toy Bundle Integrity Archive.
Local Open Scope eff_scope.

#[global] Instance toy_modules : Modules world := {|
  require_json := toy_readJSON
|}.

Lemma validation_answers_witness :
  exists w1 stats,
    pathExists "proj/assets/font.ttf" BuildRuns.supplementary_world
      = (Ok true, w1) /\
    stat "proj/assets/font.ttf" w1 = (Ok stats, BuildRuns.supplementary_world) /\
    size stats <> 0.
Proof.
  destruct (IntegrityFacts.validation_answers
              (W := world) "proj/assets/font.ttf" BuildRuns.supplementary_world)
    as [(answer & w' & Hrun & Htrue) _].
  vm_compute in Hrun. injection Hrun as <- <-.
  exact (Htrue eq_refl).
Defined.

(** A path that is not there, and a path taken by an empty file. *)
Example validation_rejects :
  validatePackage "out/ios.zip" empty_world = (Ok false, empty_world) /\
  fst (validateBundle "out/index.bundle"
         {| clock := 0; nodes := [("out/index.bundle", File EmptyString 0)];
            console := [] |}) = Ok false.
Proof. split; vm_compute; reflexivity. Qed.

Lemma integrity_check_accepts_own_digest_witness :
  verifyFileIntegrity "proj/assets/font.ttf" "sha256:6162"
                      BuildRuns.supplementary_world
    = (Ok true, BuildRuns.supplementary_world) /\
  verifyFileIntegrity "proj/assets/font.ttf" "6162"
                      BuildRuns.supplementary_world
    = (Ok true, BuildRuns.supplementary_world) /\
  verifyFileIntegrity "proj/assets/missing.ttf" "sha256:6162"
                      BuildRuns.supplementary_world
    = (Ok false, BuildRuns.supplementary_world).
Proof.
  destruct (IntegrityFacts.integrity_check_accepts_own_digest
              (W := world) "proj/assets/font.ttf" BuildRuns.supplementary_world)
    as (_ & Hown & _ & _).
  destruct (Hown "6162" BuildRuns.supplementary_world) as [Htagged Hplain];
    [vm_compute; reflexivity|].
  split; [exact Htagged|]. split; [apply Hplain; reflexivity|].
  refine (proj2 (proj2 (proj2 (IntegrityFacts.integrity_check_accepts_own_digest
                                 (W := world) "proj/assets/missing.ttf"
                                 BuildRuns.supplementary_world)))
                (ErrorObj _) BuildRuns.supplementary_world "sha256:6162" _).
  vm_compute. reflexivity.
Defined.

(** A digest that is not the digest of the file is refused. *)
Example integrity_check_refuses :
  verifyFileIntegrity "proj/assets/font.ttf" "sha256:6163"
                      BuildRuns.supplementary_world
  = (Ok false, BuildRuns.supplementary_world).
Proof. vm_compute. reflexivity. Qed.

(** A file system that hands out a file one byte at a time. *)
Definition bytewise : FileSystem world := {|
  readFile := toy_readFile;
  writeFile := toy_writeFile;
  writeJSON := toy_writeJSON;
  readJSON := toy_readJSON;
  ensureDir := toy_ensureDir;
  pathExists := toy_pathExists;
  existsSync := toy_pathExists;
  readdir := toy_readdir;
  stat := toy_stat;
  copy := toy_copy;
  createReadStream := fun p =>
    bind (toy_createReadStream p)
         (fun chunks => ret (List.map (fun c => [c]) (List.concat chunks)));
  glob := toy_glob
|}.

Lemma toy_update_appends : forall (h : hash_state) a b,
  hash_update (hash_update h a) b = hash_update h (a ++ b)%list.
Proof. intros h a b. simpl. symmetry. apply List.app_assoc. Defined.

Lemma toy_update_nothing : forall h : hash_state, hash_update h [] = h.
Proof. intros h. simpl. apply List.app_nil_r. Defined.

Lemma digest_ignores_chunking_witness :
  calculateSHA256 (fs := bytewise) "proj/assets/font.ttf"
                  BuildRuns.supplementary_world
  = (Ok "6162", BuildRuns.supplementary_world).
Proof.
  apply (IntegrityFacts.digest_ignores_chunking
           (fs := bytewise) "proj/assets/font.ttf"
           BuildRuns.supplementary_world [["a"%char]; ["b"%char]]
           BuildRuns.supplementary_world
           toy_update_appends toy_update_nothing).
  vm_compute. reflexivity.
Defined.

(** The bundle path is taken by a directory, which cannot be streamed. *)
Definition unreadable_bundle : world :=
  {| clock := 1700000000000;
     nodes := [ ("out/index.bundle", Dir []);
                ("proj/package.json", File "<package.json>" 0) ];
     console := [] |}.

Definition unreadable_bundle_later : world :=
  {| clock := 1700000000001; nodes := nodes unreadable_bundle; console := [] |}.

Lemma manifest_survives_hash_failure_witness :
  generateManifest "proj" "android" "out/index.bundle" [] "out" unreadable_bundle
    = writeJSON "out/manifest.json"
        (bundle_manifest "android" "out/index.bundle"
           {| isFile := false; size := 0; mtime := 0 |} EmptyString []
           1700000000000 (Some (JStr "1.2.0")))
        unreadable_bundle_later /\
  getBundleInfo "out/index.bundle" unreadable_bundle
    = (Throw (ErrorObj
         "ENOENT: no such file or directory, open 'out/index.bundle'"),
       unreadable_bundle).
Proof.
  refine (proj1 (IntegrityFacts.manifest_survives_hash_failure
                   (W := world) "proj" "android" "out/index.bundle" [] "out"
                   unreadable_bundle unreadable_bundle unreadable_bundle
                   unreadable_bundle_later unreadable_bundle_later
                   unreadable_bundle_later
                   {| isFile := false; size := 0; mtime := 0 |}
                   1700000000000 package_json (Some (JStr "1.2.0"))
                   _ _ _ _)
                (ErrorObj _) _);
    vm_compute; reflexivity.
Defined.

(** What a platform build leaves behind: two directories and the manifest. *)
Definition platform_output : world :=
  {| clock := 1700000000000;
     nodes :=
       [ ("out/android", Dir ["bundles"; "assets"; "manifest.json"]);
         ("out/android/bundles", Dir ["index.android.bundle"]);
         ("out/android/bundles/index.android.bundle",
          File "__d(function(){});" 0);
         ("out/android/assets", Dir ["drawable-mdpi"]);
         ("out/android/manifest.json", File "<manifest a>" 0) ];
     console := [] |}.

Definition counted_output : PackageContents :=
  {| bundle := 0; assets := 0;
     manifestData := Some (JObj Samples.manifest_a) |}.

Lemma toy_stat_reads : forall p (w0 : world) r w2, stat p w0 = (r, w2) -> w2 = w0.
Proof.
  intros p w0 r w2. simpl. unfold toy_stat, enoent, throw.
  destruct (get p (nodes w0)) as [[content modified|entries]|];
    now intros [= _ <-].
Defined.

Lemma toy_readJSON_reads : forall p (w0 : world) r w2,
  readJSON p w0 = (r, w2) -> w2 = w0.
Proof.
  intros p w0 r w2. simpl. unfold toy_readJSON, toy_readFile, enoent, bind,
    throw, lift.
  destruct (get p (nodes w0)) as [[content modified|entries]|];
    now intros [= _ <-].
Defined.

Lemma package_counts_are_shallow_witness :
  0 <= assets counted_output <= 3 /\
  bundle counted_output = 0 /\ assets counted_output = 0.
Proof.
  destruct (IntegrityFacts.package_counts_are_shallow
              (W := world) "out/android" platform_output
              ["bundles"; "assets"; "manifest.json"] platform_output
              counted_output platform_output)
    as [Hbound Hshallow]; [vm_compute; reflexivity | vm_compute; reflexivity |].
  split; [exact Hbound|].
  destruct (Hshallow toy_stat_reads toy_readJSON_reads) as (Hb & Ha & _);
    [|split; assumption].
  intros file stats w2 Hin Hother. simpl in Hin.
  destruct Hin as [<- | [<- | [<- | []]]].
  - vm_compute. now intros [= <- _].
  - vm_compute. now intros [= <- _].
  - contradiction.
Defined.

End IntegrityRuns.

Module LoadedRuns.
Import Eff Json Runtime Toy Config ConfigLoad.
Local Open Scope eff_scope.

Definition loaded_defaults : HotUpdateConfig :=
  {| project := {| path := "proj"; entryFile := None |};
     build := {| platforms := ["ios"; "android"]; version := None;
                 outputPath := "./hotupdate-build";
                 bundleName := Some "index"; sourcemap := Some false;
                 minify := Some true |};
     signature := None |}.

Lemma loaded_configuration_passed_the_checks_witness :
  Forall (fun p => p = "ios" \/ p = "android")
         (platforms (build loaded_defaults)).
Proof.
  refine (proj1 (LoadFacts.loaded_configuration_passed_the_checks
                   (W := world) None LoadRuns.configured_world loaded_defaults
                   LoadRuns.configured_world _)).
  vm_compute. reflexivity.
Defined.

End LoadedRuns.

Module PipelineRuns.
Import Eff Json Runtime Toy Bundle Builder.
Local Open Scope eff_scope.

(** A bundler that exits with code 0 and writes nothing. *)
Definition silent_tools : Tools world := {|
  spawn := fun _ _ _ => ret 0;
  zip_directory := fun dir zip => toy_writeFile zip ("zip of " ++ dir)
|}.

Definition android_only : BuildConfig :=
  {| platforms := ["android"]; version := "1.0.0"; projectPath := "proj";
     outputPath := "out"; bundleName := None; sourcemap := None;
     cfg_minify := None |}.

Definition with_directories : world :=
  {| clock := 1700000000000;
     nodes := [ ("out/android/bundles", Dir []); ("out/android/assets", Dir []) ];
     console := [] |}.

Lemma empty_bundle_fails_the_platform_witness :
  buildPlatform (tools := silent_tools) android_only "android" empty_world
  = (Ok {| success := false; platform := "android";
           br_bundlePath := "out/android/bundles/index.android.bundle";
           assetsPath := None; zipPath := EmptyString; br_size := 0;
           br_error := Some "Bundle validation failed" |}, with_directories).
Proof.
  refine (AssetFacts.empty_bundle_fails_the_platform
            (tools := silent_tools) android_only "android" "index.js"
            empty_world
            {| clock := 1700000000000;
               nodes := [("out/android/bundles", Dir [])]; console := [] |}
            with_directories with_directories with_directories
            with_directories _ _ _ _ _).
  - vm_compute. reflexivity.
  - vm_compute. reflexivity.
  - vm_compute. reflexivity.
  - vm_compute. reflexivity.
  - left. vm_compute. reflexivity.
Defined.

Lemma references_are_image_paths_witness :
  ReferenceFacts.image_reference "./img/logo.png".
Proof.
  apply (ReferenceFacts.references_are_image_paths
           "var logo = require('./img/logo.png'];" "./img/logo.png").
  vm_compute. left. reflexivity.
Defined.

End PipelineRuns.
